(** * dp: one producer piped into two consumers

    A shallow embedding of [dp.c].  The program is a sequence of system
    calls whose results steer its control flow, so it is embedded as a
    state-passing computation over a small model of the kernel as one
    process sees it: its descriptor table, its unreaped children, the
    bytes due on and accepted by each pipe, and the log of the calls it
    made.  What the kernel is free to decide (whether [pipe] or [fork]
    succeeds, on which side of a [fork] the run continues, how many bytes
    a [read] or [write] transfers, which child a [wait] reaps) is read
    from scripts carried in the state. *)

From stdpp Require Import base option list gmap strings.
From Stdlib Require Import ZArith Lia.
From Stdlib.Strings Require Import Ascii Byte.

Open Scope Z_scope.

(** ** Data *)

Global Instance byte_eq_dec : EqDecision byte := Byte.byte_eq_dec.

(** One slot of a [char *cmd[10]] array. *)
Inductive cell :=
| Garbage                 (* never written *)
| Null                    (* NULL *)
| Arg (s : string).       (* pointer to an argument string *)

Global Instance cell_eq_dec : EqDecision cell.
Proof. solve_decision. Defined.

(** What a descriptor refers to. *)
Inductive fdobj :=
| Inherited (n : Z)       (* whatever the process was started with *)
| PipeR (id : nat)        (* read end of pipe [id] *)
| PipeW (id : nat).       (* write end of pipe [id] *)

Global Instance fdobj_eq_dec : EqDecision fdobj.
Proof. solve_decision. Defined.

(** The side of a [fork] on which the run continues. *)
Inductive fork_result := ForkFails | ForkChild | ForkParent.

(** How much of a [write] request the kernel accepts. *)
Inductive write_result := WriteAll | WriteSome (n : nat) | WriteFails.

(** The calls a process makes, with the results that matter later. *)
Inductive event :=
| EvStdout (msg : string)
| EvStderr (msg : string)
| EvPipe (res : option (Z * Z))
| EvFork (res : Z)
| EvDup2 (oldfd newfd : Z)
| EvClose (fd : Z)
| EvRead (fd : Z) (cap : nat) (got : list byte)
| EvWrite (fd : Z) (req : list byte) (res : Z)
| EvExec (file : cell) (argv : list string)
| EvWait (res : Z) (status : option Z)
| EvExit (status : Z).

Global Instance event_eq_dec : EqDecision event.
Proof. solve_decision. Defined.

(** The kernel's choices, in the order the calls are made.  A script that
    has run out means: [pipe] succeeds, [fork] returns in the parent,
    [read] fills the request, [write] accepts everything, [wait] reaps the
    oldest child. *)
Record oracle := Oracle {
  pipe_ok : list bool;
  fork_as : list fork_result;
  read_sz : list nat;
  write_acc : list write_result;
  wait_pick : list nat
}.

Record kernel := Kernel {
  fdt : gmap Z fdobj;               (* open descriptors *)
  npipes : nat;                     (* pipes created so far *)
  children : list Z;                (* forked and not yet reaped *)
  next_pid : positive;
  inflow : gmap nat (list byte);    (* bytes other processes deliver, per pipe *)
  outflow : gmap nat (list byte);   (* bytes accepted from this process, per pipe *)
  programs : list string;           (* what execvp can find *)
  child_status : Z → Z;             (* exit status each child ends with *)
  future : oracle;
  trace : list event
}.

(** ** Results of a computation *)

Inductive halt :=
| Exited (status : Z)                       (* exit() *)
| Execed (file : string) (argv : list string) (* image replaced *)
| Fault                                     (* undefined: access outside an array, null file *)
| Spin.                                     (* loop budget exhausted *)

Inductive outcome (A : Type) :=
| Ret (a : A)
| Stop (h : halt).
Arguments Ret {A} a.
Arguments Stop {A} h.

Definition M (A : Type) : Type := kernel → outcome A * kernel.

Definition ret {A} (a : A) : M A := λ k, (Ret a, k).

Definition bind {A B} (m : M A) (f : A → M B) : M B :=
  λ k, match m k with
       | (Ret a, k') => f a k'
       | (Stop h, k') => (Stop h, k')
       end.

Definition stop {A} (h : halt) : M A := λ k, (Stop h, k).

Notation "'let*' x ':=' c1 'in' c2" := (bind c1 (λ x, c2))
  (at level 10, x pattern, c1 at level 100, c2 at level 200).
Notation "c1 ;; c2" := (bind c1 (λ _, c2))
  (at level 100, c2 at level 200, right associativity).

(** [if (b) { m }] *)
Definition when (b : bool) (m : M unit) : M unit := if b then m else ret tt.

(** [for (int i = 0; i < n; i++) { body }] for a body that ignores [i]. *)
Fixpoint times (n : nat) (body : M unit) : M unit :=
  match n with
  | O => ret tt
  | S n' => body ;; times n' body
  end.

(** ** Kernel state updates *)

Definition log (e : event) (k : kernel) : kernel :=
  Kernel (fdt k) (npipes k) (children k) (next_pid k) (inflow k) (outflow k)
         (programs k) (child_status k) (future k) (trace k ++ [e]).

Definition logs (es : list event) (k : kernel) : kernel :=
  Kernel (fdt k) (npipes k) (children k) (next_pid k) (inflow k) (outflow k)
         (programs k) (child_status k) (future k) (trace k ++ es).

Definition set_fdt (m : gmap Z fdobj) (k : kernel) : kernel :=
  Kernel m (npipes k) (children k) (next_pid k) (inflow k) (outflow k)
         (programs k) (child_status k) (future k) (trace k).

Definition set_npipes (n : nat) (k : kernel) : kernel :=
  Kernel (fdt k) n (children k) (next_pid k) (inflow k) (outflow k)
         (programs k) (child_status k) (future k) (trace k).

Definition set_children (c : list Z) (k : kernel) : kernel :=
  Kernel (fdt k) (npipes k) c (next_pid k) (inflow k) (outflow k)
         (programs k) (child_status k) (future k) (trace k).

Definition set_next_pid (p : positive) (k : kernel) : kernel :=
  Kernel (fdt k) (npipes k) (children k) p (inflow k) (outflow k)
         (programs k) (child_status k) (future k) (trace k).

Definition set_inflow (f : gmap nat (list byte)) (k : kernel) : kernel :=
  Kernel (fdt k) (npipes k) (children k) (next_pid k) f (outflow k)
         (programs k) (child_status k) (future k) (trace k).

Definition set_outflow (f : gmap nat (list byte)) (k : kernel) : kernel :=
  Kernel (fdt k) (npipes k) (children k) (next_pid k) (inflow k) f
         (programs k) (child_status k) (future k) (trace k).

Definition set_future (o : oracle) (k : kernel) : kernel :=
  Kernel (fdt k) (npipes k) (children k) (next_pid k) (inflow k) (outflow k)
         (programs k) (child_status k) o (trace k).

(** Consuming one entry of a script. *)
Definition pop_pipe (k : kernel) : kernel :=
  let o := future k in
  set_future (Oracle (tail (pipe_ok o)) (fork_as o) (read_sz o) (write_acc o) (wait_pick o)) k.

Definition pop_fork (k : kernel) : kernel :=
  let o := future k in
  set_future (Oracle (pipe_ok o) (tail (fork_as o)) (read_sz o) (write_acc o) (wait_pick o)) k.

Definition pop_read (k : kernel) : kernel :=
  let o := future k in
  set_future (Oracle (pipe_ok o) (fork_as o) (tail (read_sz o)) (write_acc o) (wait_pick o)) k.

Definition pop_write (k : kernel) : kernel :=
  let o := future k in
  set_future (Oracle (pipe_ok o) (fork_as o) (read_sz o) (tail (write_acc o)) (wait_pick o)) k.

Definition pop_wait (k : kernel) : kernel :=
  let o := future k in
  set_future (Oracle (pipe_ok o) (fork_as o) (read_sz o) (write_acc o) (tail (wait_pick o))) k.

(** ** System calls *)

(** The lowest descriptor number that is not open. *)
Definition lowest_free (m : gmap Z fdobj) : Z :=
  default (Z.of_nat (size m))
    (List.find (λ fd, bool_decide (m !! fd = None)) (seqZ 0 (Z.of_nat (size m) + 1))).

(** The descriptors of a new pipe: the two lowest free numbers, the read
    end first. *)
Definition new_pipe (k : kernel) : Z * Z :=
  let r := lowest_free (fdt k) in
  (r, lowest_free (<[r := PipeR (npipes k)]> (fdt k))).

(** [pipe(fds)]: the two descriptors stored in [fds]; [None] stands for the
    return value -1, which leaves [fds] alone. *)
Definition sys_pipe : M (option (Z * Z)) := λ k,
  match head (pipe_ok (future k)) with
  | Some false => (Ret None, log (EvPipe None) (pop_pipe k))
  | _ =>
      let p := new_pipe k in
      let m := <[snd p := PipeW (npipes k)]> (<[fst p := PipeR (npipes k)]> (fdt k)) in
      (Ret (Some p),
       log (EvPipe (Some p)) (set_npipes (S (npipes k)) (set_fdt m (pop_pipe k))))
  end.

(** [fork()]: in the child the process has no children of its own. *)
Definition sys_fork : M Z := λ k,
  match head (fork_as (future k)) with
  | Some ForkFails => (Ret (-1), log (EvFork (-1)) (pop_fork k))
  | Some ForkChild => (Ret 0, log (EvFork 0) (set_children [] (pop_fork k)))
  | _ =>
      let pid := Z.pos (next_pid k) in
      (Ret pid,
       log (EvFork pid)
           (set_next_pid (Pos.succ (next_pid k))
                         (set_children (children k ++ [pid]) (pop_fork k))))
  end.

(** [dup2(oldfd, newfd)] *)
Definition sys_dup2 (oldfd newfd : Z) : M Z := λ k,
  let k := log (EvDup2 oldfd newfd) k in
  match fdt k !! oldfd with
  | Some o =>
      if 0 <=? newfd then (Ret newfd, set_fdt (<[newfd := o]> (fdt k)) k)
      else (Ret (-1), k)
  | None => (Ret (-1), k)
  end.

(** [close(fd)] *)
Definition sys_close (fd : Z) : M Z := λ k,
  let k := log (EvClose fd) k in
  match fdt k !! fd with
  | Some _ => (Ret 0, set_fdt (delete fd (fdt k)) k)
  | None => (Ret (-1), k)
  end.

(** The bytes still due on the pipe a descriptor reads from. *)
Definition unread (k : kernel) (fd : Z) : list byte :=
  match fdt k !! fd with
  | Some (PipeR id) => default [] (inflow k !! id)
  | _ => []
  end.

(** [read(fd, buffer, cap)]: the return value and the bytes placed in the
    buffer.  With data due, between 1 and [cap] bytes arrive; with none
    left every writer is gone and the call returns 0.  The program reads
    from pipes only; any other descriptor is answered with -1. *)
Definition sys_read (fd : Z) (cap : nat) : M (Z * list byte) := λ k,
  match fdt k !! fd with
  | Some (PipeR id) =>
      let n := Nat.min cap (Nat.max 1 (default cap (head (read_sz (future k))))) in
      let due := default [] (inflow k !! id) in
      (Ret (Z.of_nat (length (take n due)), take n due),
       log (EvRead fd cap (take n due))
           (set_inflow (<[id := drop n due]> (inflow k)) (pop_read k)))
  | _ => (Ret (-1, []), log (EvRead fd cap []) k)
  end.

(** [write(fd, buffer, count)]: the kernel accepts all of the first [count]
    bytes of the buffer, some of them, or refuses the call.  The program
    writes to pipes only; any other descriptor is answered with -1. *)
Definition sys_write (fd : Z) (buffer : list byte) (count : Z) : M Z := λ k,
  let req := take (Z.to_nat count) buffer in
  match fdt k !! fd with
  | Some (PipeW id) =>
      let sent := default [] (outflow k !! id) in
      match head (write_acc (future k)) with
      | Some WriteFails => (Ret (-1), log (EvWrite fd req (-1)) (pop_write k))
      | Some (WriteSome n) =>
          (Ret (Z.of_nat (length (take n req))),
           log (EvWrite fd req (Z.of_nat (length (take n req))))
               (set_outflow (<[id := sent ++ take n req]> (outflow k)) (pop_write k)))
      | _ =>
          (Ret (Z.of_nat (length req)),
           log (EvWrite fd req (Z.of_nat (length req)))
               (set_outflow (<[id := sent ++ req]> (outflow k)) (pop_write k)))
      end
  | _ => (Ret (-1), log (EvWrite fd req (-1)) k)
  end.

(** The argument vector [execvp] reads: the strings up to the first NULL. *)
Fixpoint argv_of (cmd : list cell) : option (list string) :=
  match cmd with
  | [] => None
  | Garbage :: _ => None
  | Null :: _ => Some []
  | Arg s :: rest => cons s <$> argv_of rest
  end.

(** [execvp(file, argv)]: returns (with -1) only on failure.  The call is
    defined for a [file] that points to a string; with a null [file] what
    happens inside it is not, and the run ends there with [Fault]. *)
Definition sys_execvp (file : cell) (cmd : list cell) : M Z := λ k,
  match file with
  | Garbage => (Stop Fault, k)
  | Null => (Stop Fault, log (EvExec Null []) k)
  | Arg f =>
      match argv_of cmd with
      | None => (Stop Fault, k)
      | Some args =>
          if bool_decide (f ∈ programs k)
          then (Stop (Execed f args), log (EvExec file args) k)
          else (Ret (-1), log (EvExec file args) k)
      end
  end.

(** [wait(NULL)]: reaps one child and returns its pid; -1 without children.
    The caller passes no place for the status, which the kernel drops.  The
    model follows the runs in which every child ends, so that the call
    returns. *)
Definition sys_wait : M Z := λ k,
  match children k with
  | [] => (Ret (-1), log (EvWait (-1) None) k)
  | c :: cs =>
      let i := (default O (head (wait_pick (future k))) mod length (c :: cs))%nat in
      let pid := default c ((c :: cs) !! i) in
      (Ret pid,
       log (EvWait pid (Some (child_status k pid)))
           (set_children (delete i (c :: cs)) (pop_wait k)))
  end.

(** [exit(status)]: the process ends and its descriptors are released. *)
Definition sys_exit {A} (status : Z) : M A := λ k,
  (Stop (Exited status), log (EvExit status) (set_fdt ∅ k)).

Definition printf (msg : string) : M unit := λ k, (Ret tt, log (EvStdout msg) k).
Definition perror (msg : string) : M unit := λ k, (Ret tt, log (EvStderr msg) k).

(** ** The program *)

(** The newline that ends every message of the program. *)
Definition nl : string := String "010"%char EmptyString.

Definition PIPE_ERR : string := "Error: failed to create pipe." +:+ nl.
Definition FORK_ERR : string := "Error: failed to fork." +:+ nl.
Definition DUP_ERR : string := "Error: failed to duplicate file descriptor." +:+ nl.
Definition EXEC_ERR : string := "Error: execvp failed." +:+ nl.

Definition EXIT_FAILURE : Z := 1.
Definition STDIN_FILENO : Z := 0.
Definition STDOUT_FILENO : Z := 1.

(** [int pipes[][2]]: a pipe is its read descriptor and its write
    descriptor. *)
Abbreviation pipe_fds := (Z * Z)%type (only parsing).

Fixpoint closePipes_from (pipes : list pipe_fds) (i : nat) (todo : nat) : M unit :=
  match todo with
  | O => ret tt
  | S todo' =>
      match pipes !! i with
      | None => stop Fault
      | Some p =>
          sys_close (fst p) ;;
          sys_close (snd p) ;;
          closePipes_from pipes (S i) todo'
      end
  end.

Definition closePipes (pipes : list pipe_fds) (count : nat) : M unit :=
  closePipes_from pipes 0 count.

Definition createAndExecuteProcess (cmd : list cell) (fd_to_dup fd_to_target : Z)
    (pipes_to_close : list pipe_fds) (close_count : nat) : M unit :=
  let* pid := sys_fork in
  when (pid =? -1) (perror FORK_ERR ;; sys_exit EXIT_FAILURE) ;;
  when (pid =? 0) (
    let* d := sys_dup2 fd_to_dup fd_to_target in
    when (d =? -1) (perror DUP_ERR ;; sys_exit EXIT_FAILURE) ;;
    closePipes pipes_to_close close_count ;;
    let* e := sys_execvp (default Garbage (cmd !! 0%nat)) cmd in
    when (e =? -1) (perror EXEC_ERR ;; sys_exit EXIT_FAILURE)).

(** [while ((bytesRead = read(fd_in, buffer, sizeof(buffer))) > 0) { ... }]
    The recursion is bounded by [budget]; [relay] below starts it with more
    than the number of bytes still due, which is never used up (lemma
    [relay_run]). *)
Fixpoint relay_loop (budget : nat) (fd_in fd_leg1 fd_leg2 : Z) : M unit :=
  match budget with
  | O => stop Spin
  | S budget' =>
      let* r := sys_read fd_in 1024 in
      let bytesRead := fst r in
      let buffer := snd r in
      if 0 <? bytesRead then
        sys_write fd_leg1 buffer bytesRead ;;
        sys_write fd_leg2 buffer bytesRead ;;
        relay_loop budget' fd_in fd_leg1 fd_leg2
      else ret tt
  end.

Definition relay (fd_in fd_leg1 fd_leg2 : Z) : M unit := λ k,
  relay_loop (S (length (unread k fd_in))) fd_in fd_leg1 fd_leg2 k.

(** The body of [if (pid_tee == 0) { ... }] in [doublePipe]. *)
Definition tee (head_to_tee tee_to_leg1 tee_to_leg2 : pipe_fds) : M unit :=
  sys_close (snd head_to_tee) ;;
  sys_close (fst tee_to_leg1) ;;
  sys_close (fst tee_to_leg1) ;;
  relay (fst head_to_tee) (snd tee_to_leg1) (snd tee_to_leg2) ;;
  sys_close (fst head_to_tee) ;;
  sys_close (snd tee_to_leg1) ;;
  sys_close (snd tee_to_leg1) ;;
  sys_exit 0.

Definition doublePipe (cmd1 cmd2 cmd3 : list cell) : M Z :=
  let pipe_failed : M Z := perror PIPE_ERR ;; sys_exit EXIT_FAILURE in
  let* p0 := sys_pipe in
  match p0 with None => pipe_failed | Some head_to_tee =>
  let* p1 := sys_pipe in
  match p1 with None => pipe_failed | Some tee_to_leg1 =>
  let* p2 := sys_pipe in
  match p2 with None => pipe_failed | Some tee_to_leg2 =>
  let pipes_to_close := [head_to_tee; tee_to_leg1; tee_to_leg2] in
  createAndExecuteProcess cmd1 (snd head_to_tee) STDOUT_FILENO pipes_to_close 3 ;;
  let* pid_tee := sys_fork in
  when (pid_tee =? -1) (perror FORK_ERR ;; sys_exit EXIT_FAILURE) ;;
  when (pid_tee =? 0) (tee head_to_tee tee_to_leg1 tee_to_leg2) ;;
  createAndExecuteProcess cmd2 (fst tee_to_leg1) STDIN_FILENO pipes_to_close 3 ;;
  createAndExecuteProcess cmd3 (fst tee_to_leg2) STDIN_FILENO pipes_to_close 3 ;;
  closePipes pipes_to_close 3 ;;
  times 4 (sys_wait ;; ret tt) ;;
  ret 0
  end end end.

(** [cmd[j] = v] on a ten-slot array: [None] when [j] is outside it. *)
Definition store (cmd : list cell) (j : nat) (v : cell) : option (list cell) :=
  if decide (j < length cmd)%nat then Some (<[j := v]> cmd) else None.

(** [for (...; i < argc; i++, j++) { if (!strcmp(argv[i], ":")) break;
    cmd[j] = argv[i]; }], run on [rest], the arguments from index [i] on.
    Returns the final [i], [j] and array. *)
Fixpoint copy_command (rest : list string) (i j : nat) (cmd : list cell)
    : option (nat * nat * list cell) :=
  match rest with
  | [] => Some (i, j, cmd)
  | a :: rest' =>
      if String.eqb a ":" then Some (i, j, cmd)
      else match store cmd j (Arg a) with
           | None => None
           | Some cmd' => copy_command rest' (S i) (S j) cmd'
           end
  end.

(** [for (j = 0; i < argc; i++, j++) cmd3[j] = argv[i];] *)
Fixpoint copy_rest (rest : list string) (i j : nat) (cmd : list cell)
    : option (nat * nat * list cell) :=
  match rest with
  | [] => Some (i, j, cmd)
  | a :: rest' =>
      match store cmd j (Arg a) with
      | None => None
      | Some cmd' => copy_rest rest' (S i) (S j) cmd'
      end
  end.

Definition USAGE : string :=
  "Usage: dp <cmd1 arg...> : <cmd2 arg...> : <cmd3 arg....>" +:+ nl.
Definition ONE_CMD : string := "Bad command syntax - only one command found" +:+ nl.
Definition TWO_CMDS : string := "Bad command syntax - only two commands found" +:+ nl.
Definition NO_THIRD : string := "Bad command syntax - missing third command" +:+ nl.

(** A store outside its array ends the run with [Fault]. *)
Definition checked {A} (o : option A) : M A :=
  match o with
  | Some a => ret a
  | None => stop Fault
  end.

(** [argc] is the length of [argv]; the indices [i] and [j] stay below it
    and are natural numbers here. *)
Definition main (argv : list string) : M Z :=
  let argc := length argv in
  let cmd1 := replicate 10 Garbage in
  let cmd2 := replicate 10 Garbage in
  let cmd3 := replicate 10 Garbage in
  when (argc =? 1)%nat (printf USAGE ;; sys_exit 1) ;;
  (* first command *)
  let* (i, j, cmd1) := checked (copy_command (drop 1 argv) 1 0 cmd1) in
  let* cmd1 := checked (store cmd1 j Null) in
  when (i =? argc)%nat (printf ONE_CMD ;; sys_exit 1) ;;
  let i := S i in
  (* second command *)
  let* (i, j, cmd2) := checked (copy_command (drop i argv) i 0 cmd2) in
  let* cmd2 := checked (store cmd2 j Null) in
  when (i =? argc)%nat (printf TWO_CMDS ;; sys_exit 1) ;;
  let i := S i in
  (* third command *)
  let* (i, j, cmd3) := checked (copy_rest (drop i argv) i 0 cmd3) in
  let* cmd3 := checked (store cmd3 j Null) in
  when (j =? 0)%nat (printf NO_THIRD ;; sys_exit 1) ;;
  let* status := doublePipe cmd1 cmd2 cmd3 in
  sys_exit status.

(** ** A standard start *)

(** A process started from a shell: descriptors 0, 1 and 2 open, no
    children, nothing logged, every kernel choice the default one. *)
Definition no_script : oracle := Oracle [] [] [] [] [].

Definition boot (progs : list string) (o : oracle) (due : gmap nat (list byte)) : kernel :=
  Kernel {[ 0 := Inherited 0; 1 := Inherited 1; 2 := Inherited 2 ]} 0 [] 100%positive
         due ∅ progs (λ _, 0) o [].

(** The descriptors of a list of pipes, in the order [closePipes] visits them. *)
Definition endpoints (pipes : list pipe_fds) : list Z :=
  flat_map (λ p, [fst p; snd p]) pipes.

Definition closed_fds (tr : list event) : list Z :=
  omap (λ e, match e with EvClose fd => Some fd | _ => None end) tr.

(** Calls that change the descriptor table. *)
Definition fd_event (e : event) : bool :=
  match e with
  | EvPipe _ | EvDup2 _ _ | EvClose _ => true
  | _ => false
  end.

(** The state after closing the descriptors [fds] one after the other. *)
Definition closing (fds : list Z) (k : kernel) : kernel :=
  set_fdt (foldl (λ m fd, delete fd m) (fdt k) fds) (logs (EvClose <$> fds) k).

(** The state after a granted [pipe], after a [fork] returning in the
    parent, after a [fork] returning in the child, and after a [wait] that
    reaped [pid] and left [rest]. *)
Definition piped (k : kernel) : kernel :=
  log (EvPipe (Some (new_pipe k)))
    (set_npipes (S (npipes k))
       (set_fdt (<[snd (new_pipe k) := PipeW (npipes k)]>
                   (<[fst (new_pipe k) := PipeR (npipes k)]> (fdt k)))
          (pop_pipe k))).

Definition forked (k : kernel) : kernel :=
  log (EvFork (Z.pos (next_pid k)))
    (set_next_pid (Pos.succ (next_pid k))
       (set_children (children k ++ [Z.pos (next_pid k)]) (pop_fork k))).

Definition born (k : kernel) : kernel :=
  log (EvFork 0) (set_children [] (pop_fork k)).

Definition reaped (pid : Z) (rest : list Z) (k : kernel) : kernel :=
  log (EvWait pid (Some (child_status k pid))) (set_children rest (pop_wait k)).

(** The state after a refused [fork] has been reported: the message on the
    standard error stream, then [exit(EXIT_FAILURE)]. *)
Definition fork_refused (k : kernel) : kernel :=
  log (EvExit EXIT_FAILURE)
    (set_fdt ∅ (log (EvStderr FORK_ERR) (log (EvFork (-1)) (pop_fork k)))).

(** The descriptor table of a command at the moment its image starts: the
    table [m] with the stream [tgt] bound to [o], and then every descriptor
    of [fds] closed. *)
Definition bound_then_closed (tgt : Z) (o : fdobj) (fds : list Z)
    (m : gmap Z fdobj) (fd : Z) : option fdobj :=
  if decide (fd ∈ fds) then None else <[tgt := o]> m !! fd.

(** The process identifiers of the next [n] children. *)
Fixpoint pids_from (p : positive) (n : nat) : list Z :=
  match n with
  | O => []
  | S n' => Z.pos p :: pids_from (Pos.succ p) n'
  end.

(** The bytes the kernel has accepted on pipe [id]. *)
Definition sent (k : kernel) (id : nat) : list byte := default [] (outflow k !! id).

(** The calls of one run of the relay loop that copies the bytes [due]:
    each block read is requested once on the first leg, then once on the
    second, whatever the two calls return; the read that yields nothing
    ends the loop. *)
Inductive relay_trace (fd_in fd_leg1 fd_leg2 : Z) : list byte → list event → Prop :=
| relay_trace_end :
    relay_trace fd_in fd_leg1 fd_leg2 [] [EvRead fd_in 1024 []]
| relay_trace_block block rest r1 r2 evs :
    block ≠ [] →
    (length block ≤ 1024)%nat →
    relay_trace fd_in fd_leg1 fd_leg2 rest evs →
    relay_trace fd_in fd_leg1 fd_leg2 (block ++ rest)
      (EvRead fd_in 1024 block :: EvWrite fd_leg1 block r1 ::
       EvWrite fd_leg2 block r2 :: evs).

(** ** The command line *)

(** The tokens before the first [":"] and, when there is one, the tokens
    after it. *)
Fixpoint until_colon (l : list string) : list string * option (list string) :=
  match l with
  | [] => ([], None)
  | a :: l' =>
      if String.eqb a ":" then ([], Some l')
      else let (c, r) := until_colon l' in (a :: c, r)
  end.

(** The command descriptions of an argument list: it is cut at the first
    two [":"]; what follows the second one is the third command. *)
Definition commands (args : list string) : list (list string) :=
  match until_colon args with
  | (c1, None) => [c1]
  | (c1, Some r1) =>
      match until_colon r1 with
      | (c2, None) => [c1; c2]
      | (c2, Some c3) => [c1; c2; c3]
      end
  end.

(** The ten-slot array of a command that fits: its tokens, the NULL that
    ends them, and slots never written. *)
Definition slots (c : list string) : list cell :=
  (Arg <$> c) ++ Null :: replicate (9 - length c) Garbage.

(** The malformed argument lists and the message each one is answered
    with: no argument at all; one command and no separator; two commands
    and no second separator; two separators and nothing after the second. *)
Inductive malformed : list string → string → Prop :=
| malformed_none : malformed [] USAGE
| malformed_one c1 :
    c1 ≠ [] → ":" ∉ c1 → malformed c1 ONE_CMD
| malformed_two c1 c2 :
    ":" ∉ c1 → ":" ∉ c2 → malformed (c1 ++ ":" :: c2) TWO_CMDS
| malformed_third c1 c2 :
    ":" ∉ c1 → ":" ∉ c2 → malformed (c1 ++ ":" :: c2 ++ [":"]) NO_THIRD.

(** ** Assumptions on the kernel's choices *)

(** The next [n] calls of [pipe] succeed. *)
Definition pipes_granted (n : nat) (k : kernel) : Prop :=
  ∀ i, (i < n)%nat → pipe_ok (future k) !! i ≠ Some false.

(** The next [n] calls of [fork] succeed and the run continues in the
    parent. *)
Definition forks_in_parent (n : nat) (k : kernel) : Prop :=
  ∀ i, (i < n)%nat →
    fork_as (future k) !! i ≠ Some ForkFails ∧ fork_as (future k) !! i ≠ Some ForkChild.

(** The next [fork] succeeds and the run continues in the child. *)
Definition fork_in_child (k : kernel) : Prop :=
  head (fork_as (future k)) = Some ForkChild.

(** Every [write] is accepted in full. *)
Definition writes_whole (k : kernel) : Prop :=
  Forall (λ w, w = WriteAll) (write_acc (future k)).

(** The same start followed into one of the processes: [side] tells on
    which side of each [fork] the run continues. *)
Definition followed (side : list fork_result) (k : kernel) : kernel :=
  let o := future k in
  set_future (Oracle (pipe_ok o) side (read_sz o) (write_acc o) (wait_pick o)) k.

Definition into_head : list fork_result := [ForkChild].
Definition into_relay : list fork_result := [ForkParent; ForkChild].
Definition into_leg1 : list fork_result := [ForkParent; ForkParent; ForkChild].
Definition into_leg2 : list fork_result :=
  [ForkParent; ForkParent; ForkParent; ForkChild].

(** ** Sample runs *)

Definition s2b (s : string) : list byte := String.list_byte_of_string s.

(** [dp printf abcde : cat : wc -c] *)
Definition sample_argv : list string :=
  ["dp"; "printf"; "abcde"; ":"; "cat"; ":"; "wc"; "-c"].
Definition cmd_printf : list cell := slots ["printf"; "abcde"].
Definition cmd_cat : list cell := slots ["cat"].
Definition cmd_wc : list cell := slots ["wc"; "-c"].

(** The process at the start of [main], for each side of the forks it may
    continue on; in the relay the five bytes of the head are due on the
    first pipe. *)
Definition sample (o : oracle) : kernel :=
  boot ["printf"; "cat"; "wc"] o {[ 0%nat := s2b "abcde" ]}.
Definition in_parent : kernel := sample no_script.
Definition in_head : kernel := sample (Oracle [] [ForkChild] [] [] []).
Definition in_relay (reads : list nat) (writes : list write_result) : kernel :=
  sample (Oracle [] [ForkParent; ForkChild] reads writes []).
Definition in_leg1 : kernel :=
  sample (Oracle [] [ForkParent; ForkParent; ForkChild] [] [] []).

(** The second [pipe] is refused. *)
Definition second_pipe_refused : kernel := sample (Oracle [true; false] [] [] [] []).

(** The process already has a child, with identifier 50, when it starts. *)
Definition with_inherited_child : kernel := set_children [50] in_parent.

(** The process is started with descriptor 0 closed. *)
Definition no_stdin : kernel :=
  set_fdt {[ 1 := Inherited 1; 2 := Inherited 2 ]} in_parent.

(** The descriptors of the three pipes of the sample run. *)
Definition sample_pipes : list (Z * Z) := [(3, 4); (5, 6); (7, 8)].

(** More starts of the sample run: the third [fork] is refused; the head
    produces nothing; the process is started with descriptor 1 closed. *)
Definition third_fork_refused : kernel :=
  sample (Oracle [] [ForkParent; ForkParent; ForkFails] [] [] []).
Definition silent_head : kernel :=
  boot ["printf"; "cat"; "wc"] (Oracle [] [ForkParent; ForkChild] [] [] []) ∅.
Definition no_stdout : kernel :=
  set_fdt {[ 0 := Inherited 0; 2 := Inherited 2 ]} in_parent.

Definition nine_tokens : list string := replicate 9 "a".
Definition ten_tokens : list string := replicate 10 "a".
Definition eleven_tokens : list string := replicate 11 "a".

(** The run continues in the relay: in the parent of the first [fork], in
    the child of the second. *)
Definition relay_role (k : kernel) : Prop :=
  forks_in_parent 1 k ∧ fork_as (future k) !! 1%nat = Some ForkChild.

(** * Properties *)

(** ** The kernel model *)

Ltac ksimpl :=
  cbn [fdt npipes children next_pid inflow outflow programs child_status
       future trace pipe_ok fork_as read_sz write_acc wait_pick
       log logs set_fdt set_npipes set_children set_next_pid set_inflow
       set_outflow set_future pop_pipe pop_fork pop_read pop_write pop_wait
       piped forked born reaped
       fst snd].

Ltac ksimpl_in H :=
  cbn [fdt npipes children next_pid inflow outflow programs child_status
       future trace pipe_ok fork_as read_sz write_acc wait_pick
       log logs set_fdt set_npipes set_children set_next_pid set_inflow
       set_outflow set_future pop_pipe pop_fork pop_read pop_write pop_wait
       piped forked born reaped
       fst snd] in H.

Lemma lowest_free_fresh (m : gmap Z fdobj) : m !! lowest_free m = None.
Proof.
  unfold lowest_free.
  destruct (List.find _ _) as [fd|] eqn:Hfind; simpl.
  - apply List.find_some in Hfind as [_ Hfd]. by apply bool_decide_eq_true in Hfd.
  - exfalso.
    assert (Hall : ∀ fd, fd ∈ seqZ 0 (Z.of_nat (size m) + 1) → fd ∈ dom m).
    { intros fd Hin. apply list_elem_of_In in Hin.
      pose proof (List.find_none _ _ Hfind fd Hin) as Hb.
      apply bool_decide_eq_false in Hb.
      apply elem_of_dom. by destruct (m !! fd); [eexists|]. }
    assert (Hsub : list_to_set (C := gset Z) (seqZ 0 (Z.of_nat (size m) + 1)) ⊆ dom m).
    { intros fd Hin. apply Hall. by apply elem_of_list_to_set in Hin. }
    apply subseteq_size in Hsub.
    rewrite size_list_to_set in Hsub by apply NoDup_seqZ.
    rewrite length_seqZ, size_dom in Hsub. lia.
Qed.

Lemma new_pipe_fresh k :
  fdt k !! fst (new_pipe k) = None ∧ fdt k !! snd (new_pipe k) = None ∧
  fst (new_pipe k) ≠ snd (new_pipe k).
Proof.
  unfold new_pipe; simpl.
  pose proof (lowest_free_fresh (fdt k)) as Hr.
  pose proof (lowest_free_fresh (<[lowest_free (fdt k) := PipeR (npipes k)]> (fdt k))) as Hw.
  apply lookup_insert_None in Hw as [Hw Hne]. done.
Qed.

(** *** One call at a time *)

Lemma bind_run {A B} (m : M A) (f : A → M B) k a k' :
  m k = (Ret a, k') → bind m f k = f a k'.
Proof. unfold bind. by intros ->. Qed.

Lemma bind_halt {A B} (m : M A) (f : A → M B) k h k' :
  m k = (Stop h, k') → bind m f k = (Stop h, k').
Proof. unfold bind. by intros ->. Qed.

Ltac run_with lem := erewrite bind_run by (apply lem; eauto); cbn beta iota.
Ltac run_by H := erewrite bind_run by exact H; cbn beta iota.
Ltac run_ret := erewrite bind_run by reflexivity; cbn beta iota.

Lemma sys_pipe_granted n k :
  pipes_granted (S n) k →
  sys_pipe k = (Ret (Some (new_pipe k)), piped k) ∧ pipes_granted n (piped k).
Proof.
  intros H. split.
  - unfold sys_pipe. specialize (H O ltac:(lia)).
    rewrite <- head_lookup in H. by destruct (head _) as [[]|].
  - intros i Hi. specialize (H (S i) ltac:(lia)). unfold piped. ksimpl.
    by destruct (pipe_ok (future k)).
Qed.

Lemma sys_fork_parent n k :
  forks_in_parent (S n) k →
  sys_fork k = (Ret (Z.pos (next_pid k)), forked k) ∧ forks_in_parent n (forked k).
Proof.
  intros H. split.
  - unfold sys_fork. destruct (H O ltac:(lia)) as [H1 H2].
    rewrite <- head_lookup in H1, H2. by destruct (head _) as [[]|].
  - intros i Hi. specialize (H (S i) ltac:(lia)). unfold forked. ksimpl.
    by destruct (fork_as (future k)).
Qed.

Lemma sys_fork_child k :
  fork_in_child k →
  sys_fork k = (Ret 0, born k).
Proof. unfold fork_in_child, sys_fork. by intros ->. Qed.

Lemma closing_app fds1 fds2 k : closing fds2 (closing fds1 k) = closing (fds1 ++ fds2) k.
Proof.
  unfold closing, set_fdt, logs. ksimpl.
  by rewrite foldl_app, fmap_app, app_assoc.
Qed.

Lemma sys_close_run fd k : ∃ r, sys_close fd k = (Ret r, closing [fd] k).
Proof.
  unfold sys_close, closing. ksimpl. cbn [foldl fmap list_fmap].
  destruct (fdt k !! fd) eqn:Hfd.
  - by eexists.
  - eexists. by rewrite delete_id.
Qed.

Lemma lookup_closing fds k fd :
  fdt (closing fds k) !! fd = if decide (fd ∈ fds) then None else fdt k !! fd.
Proof.
  unfold closing. ksimpl. generalize (fdt k) as m.
  induction fds as [|x fds IH]; intros m; cbn [foldl].
  - by rewrite decide_False by apply not_elem_of_nil.
  - rewrite IH. rewrite lookup_delete.
    destruct (decide (fd ∈ fds)) as [Hin|Hin].
    + by rewrite decide_True by (by right).
    + destruct (decide (x = fd)) as [->|Hne].
      * by rewrite decide_True by left.
      * rewrite decide_False; [done|]. intros [?|?]%elem_of_cons; congruence.
Qed.

Lemma closePipes_from_run pipes i todo k :
  (i + todo ≤ length pipes)%nat →
  closePipes_from pipes i todo k =
    (Ret tt, closing (endpoints (take todo (drop i pipes))) k).
Proof.
  revert i k. induction todo as [|todo IH]; intros i k Hlen.
  - simpl. unfold ret, closing, set_fdt, logs. simpl. rewrite app_nil_r. by destruct k.
  - cbn [closePipes_from]. destruct (lookup_lt_is_Some_2 pipes i ltac:(lia)) as [p Hp].
    rewrite Hp. unfold bind.
    destruct (sys_close_run (fst p) k) as [r1 ->].
    destruct (sys_close_run (snd p) (closing [fst p] k)) as [r2 ->].
    rewrite IH by lia. rewrite !closing_app.
    by rewrite (drop_S _ _ _ Hp).
Qed.

Lemma closePipes_run pipes k :
  closePipes pipes (length pipes) k = (Ret tt, closing (endpoints pipes) k).
Proof.
  unfold closePipes. rewrite closePipes_from_run by (simpl; lia).
  by rewrite drop_0, firstn_all.
Qed.

Lemma sys_dup2_bound oldfd newfd k o :
  fdt k !! oldfd = Some o → 0 ≤ newfd →
  sys_dup2 oldfd newfd k =
    (Ret newfd, set_fdt (<[newfd := o]> (fdt k)) (log (EvDup2 oldfd newfd) k)).
Proof.
  intros Ho Hn. unfold sys_dup2. ksimpl. rewrite Ho.
  by rewrite (proj2 (Z.leb_le 0 newfd) Hn).
Qed.

Lemma sys_dup2_failed oldfd newfd k :
  fdt k !! oldfd = None ∨ newfd < 0 →
  sys_dup2 oldfd newfd k = (Ret (-1), log (EvDup2 oldfd newfd) k).
Proof.
  intros H. unfold sys_dup2. ksimpl. destruct (fdt k !! oldfd); [|done].
  destruct H as [?|H]; [done|]. by rewrite (proj2 (Z.leb_gt 0 newfd) H).
Qed.

(** *** What each step leaves unchanged *)

Lemma trace_piped k : trace (piped k) = trace k ++ [EvPipe (Some (new_pipe k))].
Proof. done. Qed.
Lemma trace_forked k : trace (forked k) = trace k ++ [EvFork (Z.pos (next_pid k))].
Proof. done. Qed.
Lemma trace_closing fds k : trace (closing fds k) = trace k ++ (EvClose <$> fds).
Proof. done. Qed.
Lemma children_piped k : children (piped k) = children k.
Proof. done. Qed.
Lemma children_forked k : children (forked k) = children k ++ [Z.pos (next_pid k)].
Proof. done. Qed.
Lemma children_closing fds k : children (closing fds k) = children k.
Proof. done. Qed.
Lemma next_pid_piped k : next_pid (piped k) = next_pid k.
Proof. done. Qed.
Lemma next_pid_forked k : next_pid (forked k) = Pos.succ (next_pid k).
Proof. done. Qed.
Lemma child_status_piped k : child_status (piped k) = child_status k.
Proof. done. Qed.
Lemma child_status_forked k : child_status (forked k) = child_status k.
Proof. done. Qed.
Lemma child_status_closing fds k : child_status (closing fds k) = child_status k.
Proof. done. Qed.
Lemma fdt_forked k : fdt (forked k) = fdt k.
Proof. done. Qed.
Lemma fdt_piped k :
  fdt (piped k) =
  <[snd (new_pipe k) := PipeW (npipes k)]> (<[fst (new_pipe k) := PipeR (npipes k)]> (fdt k)).
Proof. done. Qed.
Lemma npipes_piped k : npipes (piped k) = S (npipes k).
Proof. done. Qed.
Lemma trace_born k : trace (born k) = trace k ++ [EvFork 0].
Proof. done. Qed.
Lemma fdt_born k : fdt (born k) = fdt k.
Proof. done. Qed.
Lemma inflow_piped k : inflow (piped k) = inflow k.
Proof. done. Qed.
Lemma inflow_forked k : inflow (forked k) = inflow k.
Proof. done. Qed.
Lemma inflow_born k : inflow (born k) = inflow k.
Proof. done. Qed.
Lemma inflow_closing fds k : inflow (closing fds k) = inflow k.
Proof. done. Qed.
Lemma sent_piped k id : sent (piped k) id = sent k id.
Proof. done. Qed.
Lemma sent_forked k id : sent (forked k) id = sent k id.
Proof. done. Qed.
Lemma sent_born k id : sent (born k) id = sent k id.
Proof. done. Qed.
Lemma sent_closing fds k id : sent (closing fds k) id = sent k id.
Proof. done. Qed.

Create Rewrite HintDb kernel.
#[local] Hint Rewrite trace_piped trace_forked trace_closing children_piped
  children_forked children_closing next_pid_piped next_pid_forked
  child_status_piped child_status_forked child_status_closing fdt_forked
  npipes_piped trace_born fdt_born inflow_piped inflow_forked inflow_born
  inflow_closing sent_piped sent_forked sent_born sent_closing : kernel.

(** ** Launching a command *)

(** C4.  In the child made by [createAndExecuteProcess] the first call
    after [fork] is the [dup2] of the source descriptor onto the target
    stream, and the child never returns to its caller.  The child gives up
    right after [dup2], with a message and [exit(EXIT_FAILURE)], exactly
    when the binding failed: the source is not open or the target is
    negative.  When the binding succeeds, both descriptors of every listed
    pipe are closed next, in order, and only then is [execvp] called:
    nothing after the closes touches the descriptor table.  A command
    whose program can be found is executed at that point, with every
    listed descriptor (the bound one included) closed and the target
    stream referring to what the source referred to. *)
Theorem launch_child_binds_then_closes cmd src tgt pipes k :
  fork_in_child k →
  let run := createAndExecuteProcess cmd src tgt pipes (length pipes) k in
  (∃ h, fst run = Stop h) ∧
  (fdt k !! src = None ∨ tgt < 0 →
   fst run = Stop (Exited EXIT_FAILURE) ∧
   trace (snd run) =
     trace k ++ [EvFork 0; EvDup2 src tgt; EvStderr DUP_ERR; EvExit EXIT_FAILURE]) ∧
  (∀ o, fdt k !! src = Some o → 0 ≤ tgt →
   (∃ tail,
      trace (snd run) =
        trace k ++ [EvFork 0; EvDup2 src tgt] ++ (EvClose <$> endpoints pipes) ++ tail ∧
      Forall (λ e, fd_event e = false) tail ∧
      (∀ f args, fst run = Stop (Execed f args) →
         last tail = Some (EvExec (Arg f) args))) ∧
   (∀ f args,
      cmd !! 0%nat = Some (Arg f) → argv_of cmd = Some args → f ∈ programs k →
      fst run = Stop (Execed f args) ∧
      trace (snd run) =
        trace k ++ [EvFork 0; EvDup2 src tgt] ++ (EvClose <$> endpoints pipes) ++
        [EvExec (Arg f) args] ∧
      (∀ fd, fd ∈ endpoints pipes → fdt (snd run) !! fd = None) ∧
      (tgt ∉ endpoints pipes → fdt (snd run) !! tgt = Some o))).
Proof.
  intros Hchild run. subst run.
  unfold createAndExecuteProcess.
  run_with sys_fork_child. cbn [when Z.eqb]. run_ret.
  set (k1 := born k).
  assert (Hfdt1 : fdt k1 = fdt k) by done.
  assert (Htr1 : trace k1 = trace k ++ [EvFork 0]) by done.
  assert (Hfail : fdt k !! src = None ∨ tgt < 0 →
            (let* d := sys_dup2 src tgt in
             when (d =? -1) (perror DUP_ERR ;; sys_exit EXIT_FAILURE) ;;
             closePipes pipes (length pipes) ;;
             let* e := sys_execvp (default Garbage (cmd !! 0%nat)) cmd in
             when (e =? -1) (perror EXEC_ERR ;; sys_exit EXIT_FAILURE)) k1 =
            (Stop (Exited EXIT_FAILURE),
             log (EvExit EXIT_FAILURE)
               (set_fdt ∅ (log (EvStderr DUP_ERR) (log (EvDup2 src tgt) k1))))).
  { intros Hbad.
    erewrite bind_run by (apply sys_dup2_failed; by rewrite Hfdt1).
    cbn beta iota. cbn [when Z.eqb Pos.eqb]. by erewrite bind_halt by reflexivity. }
  destruct (fdt k !! src) as [o|] eqn:Hsrc; [destruct (Z_le_gt_dec 0 tgt) as [Htgt|Htgt]|].
  2:{ rewrite Hfail by (right; lia). cbn [fst snd].
      split; [by eexists|]. split; [|intros; lia].
      intros _. split; [done|]. ksimpl. rewrite Htr1. by rewrite <- !app_assoc. }
  2:{ rewrite Hfail by (by left). cbn [fst snd].
      split; [by eexists|]. split; [|by intros].
      intros _. split; [done|]. ksimpl. rewrite Htr1. by rewrite <- !app_assoc. }
  clear Hfail.
  erewrite bind_run by (apply sys_dup2_bound; [by rewrite Hfdt1|done]).
  cbn beta iota.
  replace (tgt =? -1) with false by (symmetry; apply Z.eqb_neq; lia).
  cbn [when]. run_ret. run_with closePipes_run.
  set (k2 := set_fdt _ _).
  assert (Htr2 : trace (closing (endpoints pipes) k2) =
                 trace k ++ [EvFork 0; EvDup2 src tgt] ++ (EvClose <$> endpoints pipes)).
  { unfold closing, k2. ksimpl. rewrite Htr1. by rewrite <- !app_assoc. }
  assert (Hfd2 : ∀ fd, fdt (closing (endpoints pipes) k2) !! fd =
                 if decide (fd ∈ endpoints pipes) then None
                 else <[tgt := o]> (fdt k) !! fd).
  { intros fd. rewrite lookup_closing. unfold k2. ksimpl. by rewrite Hfdt1. }
  assert (Hprogs : programs (closing (endpoints pipes) k2) = programs k) by done.
  revert Htr2 Hfd2 Hprogs. generalize (closing (endpoints pipes) k2) as k3.
  intros k3 Htr3 Hfd3 Hprogs.
  split; [|split; [intros [?|?]; [done|lia]|]].
  { unfold bind, sys_execvp.
    destruct (default Garbage (cmd !! 0%nat)); [by eexists..|].
    destruct (argv_of cmd); [|by eexists].
    destruct (bool_decide _); by eexists. }
  intros o' [= <-] _. split.
  - unfold sys_execvp, bind.
    destruct (default Garbage (cmd !! 0%nat)) as [| |f] eqn:Hfile.
    + exists []. cbn. rewrite Htr3.
      split; [by rewrite !app_nil_r|]. split; [constructor|done].
    + exists [EvExec Null []]. cbn. rewrite Htr3.
      split; [by rewrite <- !app_assoc|]. split; [by repeat constructor|done].
    + destruct (argv_of cmd) as [args|].
      2:{ exists []. cbn. rewrite Htr3.
          split; [by rewrite !app_nil_r|]. split; [constructor|done]. }
      destruct (bool_decide (f ∈ programs k3)).
      * exists [EvExec (Arg f) args]. cbn. rewrite Htr3.
        split; [by rewrite <- !app_assoc|]. split; [by repeat constructor|].
        by intros f' args' [= <- <-].
      * cbn. exists [EvExec (Arg f) args; EvStderr EXEC_ERR; EvExit EXIT_FAILURE].
        rewrite Htr3. split; [by rewrite <- !app_assoc|].
        split; [by repeat constructor|done].
  - intros f args Hfile Hargv Hprog.
    assert (Hexec : sys_execvp (default Garbage (cmd !! 0%nat)) cmd k3 =
              (Stop (Execed f args), log (EvExec (Arg f) args) k3)).
    { unfold sys_execvp. rewrite Hfile, Hargv. cbn [default from_option id].
      by rewrite bool_decide_eq_true_2 by (by rewrite Hprogs). }
    erewrite bind_halt by exact Hexec. cbn [fst snd].
    split; [done|]. split.
    { ksimpl. rewrite Htr3. by rewrite <- !app_assoc. }
    split.
    + intros fd Hfd. ksimpl. rewrite Hfd3. by rewrite decide_True.
    + intros Hnot. ksimpl. rewrite Hfd3. rewrite decide_False by done.
      by rewrite lookup_insert_eq.
Qed.

Lemma launch_parent_run cmd src tgt pipes count n k :
  forks_in_parent (S n) k →
  createAndExecuteProcess cmd src tgt pipes count k = (Ret tt, forked k) ∧
  forks_in_parent n (forked k).
Proof.
  intros H. destruct (sys_fork_parent _ _ H) as [Hrun Hnext]. split; [|done].
  unfold createAndExecuteProcess. erewrite bind_run by exact Hrun.
  cbn [when Z.eqb]. by run_ret.
Qed.

(** C7 (as amended).  In the parent [createAndExecuteProcess] makes the
    one call [fork] and returns at once; it returns no value, and the
    child's identifier is kept only by the kernel, as an unreaped child. *)
Theorem launch_parent_returns_at_once cmd src tgt pipes count k :
  forks_in_parent 1 k →
  ∃ k', createAndExecuteProcess cmd src tgt pipes count k = (Ret tt, k') ∧
        trace k' = trace k ++ [EvFork (Z.pos (next_pid k))] ∧
        children k' = children k ++ [Z.pos (next_pid k)] ∧
        fdt k' = fdt k.
Proof.
  intros H. exists (forked k). split; [|done].
  by apply (launch_parent_run _ _ _ _ _ 0).
Qed.

(** ** Reaping *)

Lemma sys_wait_reaps k :
  children k ≠ [] →
  ∃ pid rest, sys_wait k = (Ret pid, reaped pid rest k) ∧ children k ≡ₚ pid :: rest.
Proof.
  intros Hne. unfold sys_wait. destruct (children k) as [|c cs] eqn:Hc; [done|].
  set (i := (_ mod _)%nat).
  assert (Hi : (i < length (c :: cs))%nat) by (apply Nat.mod_upper_bound; simpl; lia).
  destruct (lookup_lt_is_Some_2 _ _ Hi) as [pid Hpid].
  exists pid, (delete i (c :: cs)). rewrite Hpid. split; [done|].
  by apply delete_Permutation.
Qed.

Lemma wait_some n : ∀ k,
  (n ≤ length (children k))%nat →
  ∃ order k',
    times n (sys_wait ;; ret tt) k = (Ret tt, k') ∧
    length order = n ∧
    children k ≡ₚ order ++ children k' ∧
    fdt k' = fdt k ∧
    trace k' = trace k ++ ((λ pid, EvWait pid (Some (child_status k pid))) <$> order).
Proof.
  induction n as [|n IH]; intros k Hlen.
  - exists [], k. cbn. by rewrite app_nil_r.
  - destruct (sys_wait_reaps k) as (pid & rest & Hrun & Hperm).
    { intros Hnil. rewrite Hnil in Hlen. simpl in Hlen. lia. }
    destruct (IH (reaped pid rest k)) as (order & k' & Hrest & Horder & Hleft & Hfdt & Htr).
    { unfold reaped. ksimpl. apply Permutation_length in Hperm. simpl in Hperm. lia. }
    exists (pid :: order), k'. cbn [times].
    erewrite bind_run; [|by erewrite bind_run by exact Hrun].
    split; [done|]. split; [by rewrite <- Horder|].
    split; [by rewrite Hperm, Hleft|].
    split; [by rewrite Hfdt|]. rewrite Htr. unfold reaped. ksimpl.
    by rewrite <- app_assoc.
Qed.

Lemma pids_from_NoDup p : NoDup (pids_from p 4).
Proof.
  cbn. rewrite !NoDup_cons, !elem_of_cons, !elem_of_nil.
  repeat split; try apply NoDup_nil_2; intros H; repeat destruct H as [H|H]; lia.
Qed.

(** ** The supervisor *)

Lemma doublePipe_parent_run cmd1 cmd2 cmd3 k :
  pipes_granted 3 k → forks_in_parent 4 k →
  ∃ k' p0 p1 p2 order,
    doublePipe cmd1 cmd2 cmd3 k = (Ret 0, k') ∧
    trace k' =
      trace k ++ [EvPipe (Some p0); EvPipe (Some p1); EvPipe (Some p2)] ++
      (EvFork <$> pids_from (next_pid k) 4) ++
      (EvClose <$> endpoints [p0; p1; p2]) ++
      ((λ pid, EvWait pid (Some (child_status k pid))) <$> order) ∧
    length order = 4%nat ∧
    children k ++ pids_from (next_pid k) 4 ≡ₚ order ++ children k' ∧
    (∀ fd, fd ∈ endpoints [p0; p1; p2] → fdt k' !! fd = None).
Proof.
  intros Hpipes Hforks.
  destruct (sys_pipe_granted _ _ Hpipes) as [Hp0 Hpipes1].
  destruct (sys_pipe_granted _ _ Hpipes1) as [Hp1 Hpipes2].
  destruct (sys_pipe_granted _ _ Hpipes2) as [Hp2 _].
  set (p0 := new_pipe k) in *. set (k1 := piped k) in *.
  set (p1 := new_pipe k1) in *. set (k2 := piped k1) in *.
  set (p2 := new_pipe k2) in *. set (k3 := piped k2) in *.
  assert (Hforks3 : forks_in_parent 4 k3) by exact Hforks.
  destruct (launch_parent_run cmd1 (snd p0) STDOUT_FILENO [p0; p1; p2] 3 _ _ Hforks3)
    as [Hl1 Hforks4].
  destruct (sys_fork_parent _ _ Hforks4) as [Hf2 Hforks5].
  destruct (launch_parent_run cmd2 (fst p1) STDIN_FILENO [p0; p1; p2] 3 _ _ Hforks5)
    as [Hl3 Hforks6].
  destruct (launch_parent_run cmd3 (fst p2) STDIN_FILENO [p0; p1; p2] 3 _ _ Hforks6)
    as [Hl4 _].
  set (k7 := forked (forked (forked (forked k3)))) in *.
  set (k8 := closing (endpoints [p0; p1; p2]) k7).
  assert (Hkids : children k8 = children k ++ pids_from (next_pid k) 4).
  { unfold k8, k7, k3, k2, k1. autorewrite with kernel. by rewrite <- !app_assoc. }
  destruct (wait_some 4 k8) as (order & k' & Hwait & Hfour & Horder & Hfdt & Htr).
  { rewrite Hkids, length_app. cbn. lia. }
  exists k', p0, p1, p2, order.
  split.
  { unfold doublePipe.
    run_by Hp0. run_by Hp1. run_by Hp2. run_by Hl1. run_by Hf2.
    cbn [when Z.eqb]. run_ret. run_ret. run_by Hl3. run_by Hl4.
    run_by (closePipes_run [p0; p1; p2] k7). fold k8. by run_by Hwait. }
  split.
  { rewrite Htr. unfold k8, k7, k3, k2, k1. autorewrite with kernel.
    by rewrite <- !app_assoc. }
  split; [done|]. rewrite Hkids in Horder. split; [done|].
  intros fd Hfd. rewrite Hfdt. unfold k8. rewrite lookup_closing.
  by rewrite decide_True.
Qed.

(** C5 (as amended).  When the three pipes are granted and the four forks
    succeed, the parent creates the pipes, forks four children, closes all
    six pipe descriptors, calls [wait] exactly four times, each call
    reaping one child, and returns 0, whatever status the children end
    with.  [wait] takes any child of the process: it is when the process
    had no child of its own before that the four calls reap each of the
    four children exactly once and leave none. *)
Theorem supervisor_reaps_four_and_returns_zero cmd1 cmd2 cmd3 k :
  pipes_granted 3 k → forks_in_parent 4 k →
  ∃ k' p0 p1 p2 order,
    doublePipe cmd1 cmd2 cmd3 k = (Ret 0, k') ∧
    trace k' =
      trace k ++ [EvPipe (Some p0); EvPipe (Some p1); EvPipe (Some p2)] ++
      (EvFork <$> pids_from (next_pid k) 4) ++
      (EvClose <$> endpoints [p0; p1; p2]) ++
      ((λ pid, EvWait pid (Some (child_status k pid))) <$> order) ∧
    length order = 4%nat ∧
    children k ++ pids_from (next_pid k) 4 ≡ₚ order ++ children k' ∧
    (children k = [] →
       order ≡ₚ pids_from (next_pid k) 4 ∧ NoDup order ∧ children k' = []) ∧
    (∀ fd, fd ∈ endpoints [p0; p1; p2] → fdt k' !! fd = None).
Proof.
  intros Hpipes Hforks.
  destruct (doublePipe_parent_run cmd1 cmd2 cmd3 k Hpipes Hforks)
    as (k' & p0 & p1 & p2 & order & Hrun & Htr & Hfour & Horder & Hclosed).
  exists k', p0, p1, p2, order.
  split; [done|]. split; [done|]. split; [done|]. split; [done|]. split; [|done].
  intros Hnone. rewrite Hnone in Horder. cbn [app] in Horder.
  assert (Hleft : children k' = []).
  { apply Permutation_length in Horder. rewrite length_app, Hfour in Horder.
    cbn in Horder. apply nil_length_inv. lia. }
  rewrite Hleft, app_nil_r in Horder.
  split; [done|]. split; [|done]. rewrite <- Horder. apply pids_from_NoDup.
Qed.

(** ** Pipe creation *)

Lemma sys_pipe_refused k :
  head (pipe_ok (future k)) = Some false →
  sys_pipe k = (Ret None, log (EvPipe None) (pop_pipe k)).
Proof. unfold sys_pipe. by intros ->. Qed.

Lemma pipe_failed_run k :
  (perror PIPE_ERR ;; sys_exit (A := Z) EXIT_FAILURE) k =
  (Stop (Exited EXIT_FAILURE),
   log (EvExit EXIT_FAILURE) (set_fdt ∅ (log (EvStderr PIPE_ERR) k))).
Proof. done. Qed.

Lemma pipe_ok_piped k : pipe_ok (future (piped k)) = tail (pipe_ok (future k)).
Proof. done. Qed.

(** C8.  When one of the three [pipe] calls is refused, [doublePipe]
    reports it on the error stream and exits with the failure status right
    after the refused call: no further pipe is requested, no process is
    forked, and the exit releases whatever descriptors the calls before it
    had created, so that no pipe is left. *)
Theorem pipe_failure_aborts_before_any_fork cmd1 cmd2 cmd3 k :
  (∃ i, (i < 3)%nat ∧ pipe_ok (future k) !! i = Some false) →
  ∃ k' granted,
    doublePipe cmd1 cmd2 cmd3 k = (Stop (Exited EXIT_FAILURE), k') ∧
    (length granted < 3)%nat ∧
    trace k' =
      trace k ++ ((λ p, EvPipe (Some p)) <$> granted) ++
      [EvPipe None; EvStderr PIPE_ERR; EvExit EXIT_FAILURE] ∧
    fdt k' = ∅ ∧
    children k' = children k ∧
    next_pid k' = next_pid k.
Proof.
  intros (i & Hi & Hfail). unfold doublePipe.
  destruct (decide (head (pipe_ok (future k)) = Some false)) as [H0|H0].
  { run_by (sys_pipe_refused _ H0). rewrite pipe_failed_run.
    eexists _, []. split; [done|]. split; [simpl; lia|].
    split; [|done]. ksimpl. by rewrite <- !app_assoc. }
  assert (G0 : pipes_granted 1 k).
  { intros j Hj. replace j with O by lia. by rewrite <- head_lookup. }
  destruct (sys_pipe_granted _ _ G0) as [Hp0 _]. run_by Hp0.
  destruct (decide (head (pipe_ok (future (piped k))) = Some false)) as [H1|H1].
  { run_by (sys_pipe_refused _ H1). rewrite pipe_failed_run.
    eexists _, [new_pipe k]. split; [done|]. split; [simpl; lia|].
    split; [|done]. ksimpl. by rewrite <- !app_assoc. }
  assert (G1 : pipes_granted 1 (piped k)).
  { intros j Hj. replace j with O by lia. by rewrite <- head_lookup. }
  destruct (sys_pipe_granted _ _ G1) as [Hp1 _]. run_by Hp1.
  assert (H2 : head (pipe_ok (future (piped (piped k)))) = Some false).
  { rewrite !pipe_ok_piped. rewrite pipe_ok_piped in H1.
    destruct (pipe_ok (future k)) as [|b0 [|b1 [|b2 l]]];
      destruct i as [|[|[|i]]]; simpl in *; try done; try lia; congruence. }
  run_by (sys_pipe_refused _ H2). rewrite pipe_failed_run.
  eexists _, [new_pipe k; new_pipe (piped k)]. split; [done|]. split; [simpl; lia|].
  split; [|done]. ksimpl. by rewrite <- !app_assoc.
Qed.

(** ** The relay loop *)

Lemma sys_write_run fd buffer count k :
  ∃ r k', sys_write fd buffer count k = (Ret r, k') ∧
          trace k' = trace k ++ [EvWrite fd (take (Z.to_nat count) buffer) r] ∧
          fdt k' = fdt k ∧ inflow k' = inflow k ∧ children k' = children k.
Proof.
  unfold sys_write. destruct (fdt k !! fd) as [[| |id]|]; try by eexists _, _.
  destruct (head (write_acc (future k))) as [[| |]|]; by eexists _, _.
Qed.

Lemma writes_whole_pop k : writes_whole k → writes_whole (pop_write k).
Proof.
  unfold writes_whole. ksimpl. destruct (write_acc (future k)); [done|].
  by inversion 1.
Qed.

Lemma sys_write_whole fd buffer k b :
  fdt k !! fd = Some (PipeW b) → writes_whole k →
  sys_write fd buffer (Z.of_nat (length buffer)) k =
    (Ret (Z.of_nat (length buffer)),
     log (EvWrite fd buffer (Z.of_nat (length buffer)))
       (set_outflow (<[b := sent k b ++ buffer]> (outflow k)) (pop_write k))).
Proof.
  intros Hfd Hw. unfold sys_write. rewrite Hfd, Nat2Z.id, firstn_all.
  unfold writes_whole in Hw. destruct (write_acc (future k)) as [|w ws]; [done|].
  apply Forall_cons in Hw as [-> _]. done.
Qed.

Section Relay.
(** The descriptor the relay reads and the two it writes. *)
Variables fd_in fd_leg1 fd_leg2 : Z.

Lemma relay_loop_run budget : ∀ k,
  (length (unread k fd_in) < budget)%nat →
  ∃ k' evs,
    relay_loop budget fd_in fd_leg1 fd_leg2 k = (Ret tt, k') ∧
    trace k' = trace k ++ evs ∧
    relay_trace fd_in fd_leg1 fd_leg2 (unread k fd_in) evs ∧
    fdt k' = fdt k ∧ children k' = children k.
Proof.
  induction budget as [|budget IH]; intros k Hlen; [lia|].
  cbn [relay_loop]. unfold unread in *.
  destruct (fdt k !! fd_in) as [o|] eqn:Hfd.
  2:{ eexists _, _. unfold bind, sys_read. rewrite Hfd. cbn.
      repeat split; try done. constructor. }
  destruct o as [n|a|a].
  1,3: eexists _, _; unfold bind, sys_read; rewrite Hfd; cbn;
       repeat split; try done; constructor.
  set (due := default [] (inflow k !! a)) in *.
  set (n := Nat.min 1024 (Nat.max 1 (default 1024%nat (head (read_sz (future k)))))).
  set (k1 := log (EvRead fd_in 1024 (take n due))
               (set_inflow (<[a := drop n due]> (inflow k)) (pop_read k))).
  assert (Hread : sys_read fd_in 1024 k = (Ret (Z.of_nat (length (take n due)), take n due), k1)).
  { unfold sys_read. by rewrite Hfd. }
  run_by Hread.
  destruct (decide (due = [])) as [Hnil|Hsome].
  { assert (Htake : take n due = []) by (by rewrite Hnil, take_nil).
    rewrite Htake. cbn. eexists _, _. repeat split; try done.
    rewrite Hnil, ?take_nil. constructor. }
  assert (Hn : (1 ≤ n ≤ 1024)%nat) by (unfold n; lia).
  assert (Hblock : take n due ≠ []).
  { destruct due; [done|]. destruct n; [lia|done]. }
  assert (Hpos : (0 <? Z.of_nat (length (take n due))) = true).
  { apply Z.ltb_lt. destruct (take n due); [done|simpl; lia]. }
  cbn [fst snd]. rewrite Hpos.
  destruct (sys_write_run fd_leg1 (take n due) (Z.of_nat (length (take n due))) k1)
    as (r1 & k2 & Hw1 & Htr2 & Hfdt2 & Hin2 & Hch2).
  destruct (sys_write_run fd_leg2 (take n due) (Z.of_nat (length (take n due))) k2)
    as (r2 & k3 & Hw2 & Htr3 & Hfdt3 & Hin3 & Hch3).
  rewrite Nat2Z.id, firstn_all in Htr2, Htr3.
  run_by Hw1. run_by Hw2.
  assert (Hun3 : default [] (inflow k3 !! a) = drop n due).
  { rewrite Hin3, Hin2. unfold k1. ksimpl. by rewrite lookup_insert_eq. }
  destruct (IH k3) as (k' & evs & Hrun & Htr & Hrel & Hfdt & Hch).
  { rewrite Hfdt3, Hfdt2. unfold k1 at 1. ksimpl. rewrite Hfd, Hun3.
    rewrite length_drop. destruct due; [done|]. simpl in *. lia. }
  rewrite Hfdt3, Hfdt2 in Hrel. unfold k1 at 1 in Hrel. ksimpl_in Hrel.
  rewrite Hfd, Hun3 in Hrel.
  exists k', (EvRead fd_in 1024 (take n due) :: EvWrite fd_leg1 (take n due) r1 ::
              EvWrite fd_leg2 (take n due) r2 :: evs).
  split; [done|]. split.
  { rewrite Htr, Htr3, Htr2. unfold k1. ksimpl. by rewrite <- !app_assoc. }
  split.
  { rewrite <- (take_drop n due) at 1. constructor; try done.
    rewrite length_take. lia. }
  split; [by rewrite Hfdt, Hfdt3, Hfdt2|by rewrite Hch, Hch3, Hch2].
Qed.

Lemma relay_run k :
  ∃ k' evs,
    relay fd_in fd_leg1 fd_leg2 k = (Ret tt, k') ∧
    trace k' = trace k ++ evs ∧
    relay_trace fd_in fd_leg1 fd_leg2 (unread k fd_in) evs ∧
    fdt k' = fdt k ∧ children k' = children k.
Proof. unfold relay. apply relay_loop_run. lia. Qed.

Lemma relay_trace_no_close due evs :
  relay_trace fd_in fd_leg1 fd_leg2 due evs → closed_fds evs = [].
Proof. induction 1; done. Qed.

Lemma relay_loop_delivers budget a b c : ∀ k k',
  fdt k !! fd_in = Some (PipeR a) →
  fdt k !! fd_leg1 = Some (PipeW b) →
  fdt k !! fd_leg2 = Some (PipeW c) →
  b ≠ c →
  writes_whole k →
  relay_loop budget fd_in fd_leg1 fd_leg2 k = (Ret tt, k') →
  sent k' b = sent k b ++ unread k fd_in ∧ sent k' c = sent k c ++ unread k fd_in.
Proof.
  induction budget as [|budget IH]; intros k k' Hin H1 H2 Hbc Hw; [done|].
  cbn [relay_loop]. unfold unread. rewrite Hin.
  set (due := default [] (inflow k !! a)).
  set (n := Nat.min 1024 (Nat.max 1 (default 1024%nat (head (read_sz (future k)))))).
  set (k1 := log (EvRead fd_in 1024 (take n due))
               (set_inflow (<[a := drop n due]> (inflow k)) (pop_read k))).
  assert (Hread : sys_read fd_in 1024 k = (Ret (Z.of_nat (length (take n due)), take n due), k1)).
  { unfold sys_read. by rewrite Hin. }
  run_by Hread. cbn [fst snd].
  destruct (decide (due = [])) as [Hnil|Hsome].
  { rewrite Hnil, take_nil. cbn. intros [= <-]. by rewrite !app_nil_r. }
  assert (Hn : (1 ≤ n)%nat) by (unfold n; lia).
  assert (Hpos : (0 <? Z.of_nat (length (take n due))) = true).
  { apply Z.ltb_lt. destruct due; [done|]. destruct n; [lia|simpl; lia]. }
  rewrite Hpos.
  assert (Hw1 : writes_whole k1) by exact Hw.
  run_by (sys_write_whole fd_leg1 (take n due) k1 b H1 Hw1).
  set (k2 := log (EvWrite fd_leg1 _ _) _).
  assert (Hw2 : writes_whole k2) by exact (writes_whole_pop _ Hw1).
  run_by (sys_write_whole fd_leg2 (take n due) k2 c H2 Hw2).
  set (k3 := log (EvWrite fd_leg2 _ _) _).
  assert (Hw3 : writes_whole k3) by exact (writes_whole_pop _ Hw2).
  intros Hrest.
  destruct (IH k3 k' Hin H1 H2 Hbc Hw3 Hrest) as [Hb Hc].
  assert (Hun : unread k3 fd_in = drop n due).
  { unfold unread, k3, k2, k1. ksimpl. rewrite Hin. by rewrite lookup_insert_eq. }
  assert (Hsb : sent k3 b = sent k b ++ take n due).
  { unfold sent, k3, k2, k1. ksimpl.
    rewrite lookup_insert_ne by done. by rewrite lookup_insert_eq. }
  assert (Hsc : sent k3 c = sent k c ++ take n due).
  { unfold sent, k3, k2, k1. ksimpl. rewrite lookup_insert_eq.
    unfold sent. ksimpl. by rewrite lookup_insert_ne by done. }
  rewrite Hb, Hc, Hun, Hsb, Hsc, <- !app_assoc, take_drop. done.
Qed.

Lemma relay_delivers a b c k k' :
  fdt k !! fd_in = Some (PipeR a) →
  fdt k !! fd_leg1 = Some (PipeW b) →
  fdt k !! fd_leg2 = Some (PipeW c) →
  b ≠ c →
  writes_whole k →
  relay fd_in fd_leg1 fd_leg2 k = (Ret tt, k') →
  sent k' b = sent k b ++ unread k fd_in ∧ sent k' c = sent k c ++ unread k fd_in.
Proof. unfold relay. apply relay_loop_delivers. Qed.

End Relay.

(** ** The relay child *)

Lemma three_pipes_wired k :
  let p0 := new_pipe k in
  let p1 := new_pipe (piped k) in
  let p2 := new_pipe (piped (piped k)) in
  let m := fdt (piped (piped (piped k))) in
  NoDup (endpoints [p0; p1; p2]) ∧
  m !! fst p0 = Some (PipeR (npipes k)) ∧
  m !! snd p0 = Some (PipeW (npipes k)) ∧
  m !! fst p1 = Some (PipeR (S (npipes k))) ∧
  m !! snd p1 = Some (PipeW (S (npipes k))) ∧
  m !! fst p2 = Some (PipeR (S (S (npipes k)))) ∧
  m !! snd p2 = Some (PipeW (S (S (npipes k)))) ∧
  (∀ fd, fd ∉ endpoints [p0; p1; p2] → m !! fd = fdt k !! fd) ∧
  (∀ fd, fd ∈ endpoints [p0; p1; p2] → fdt k !! fd = None).
Proof.
  intros p0 p1 p2 m.
  destruct (new_pipe_fresh k) as (A1 & A2 & _).
  destruct (new_pipe_fresh k) as (_ & _ & A).
  destruct (new_pipe_fresh (piped k)) as (B1 & B2 & B).
  destruct (new_pipe_fresh (piped (piped k))) as (C1 & C2 & C).
  fold p0 in A. fold p1 in B1, B2, B. fold p2 in C1, C2, C.
  rewrite !fdt_piped in C1, C2. rewrite fdt_piped in B1, B2.
  fold p0 p1 in B1, B2, C1, C2.
  apply lookup_insert_None in B1 as [B1 B1a]. apply lookup_insert_None in B1 as [B1 B1b].
  apply lookup_insert_None in B2 as [B2 B2a]. apply lookup_insert_None in B2 as [B2 B2b].
  repeat (apply lookup_insert_None in C1 as [C1 ?]).
  repeat (apply lookup_insert_None in C2 as [C2 ?]).
  split.
  { change (endpoints [p0; p1; p2])
      with [fst p0; snd p0; fst p1; snd p1; fst p2; snd p2].
    rewrite !NoDup_cons, !elem_of_cons, !elem_of_nil.
    repeat split; try apply NoDup_nil_2; intros Hx;
      repeat destruct Hx as [Hx|Hx]; congruence. }
  unfold m. rewrite !fdt_piped, !npipes_piped. fold p0 p1 p2.
  split; [|split; [|split; [|split; [|split; [|split; [|split]]]]]].
  1-6: repeat first [rewrite lookup_insert_eq; reflexivity
                    | rewrite lookup_insert_ne by congruence].
  - intros fd Hfd.
    change (endpoints [p0; p1; p2])
      with [fst p0; snd p0; fst p1; snd p1; fst p2; snd p2] in Hfd.
    rewrite !not_elem_of_cons in Hfd. destruct Hfd as (?&?&?&?&?&?&_).
    by rewrite !lookup_insert_ne by done.
  - intros fd Hfd.
    change (endpoints [p0; p1; p2])
      with [fst p0; snd p0; fst p1; snd p1; fst p2; snd p2] in Hfd.
    rewrite !elem_of_cons, elem_of_nil in Hfd.
    destruct Hfd as [->|[->|[->|[->|[->|[->|[]]]]]]]; done.
Qed.

Lemma tee_run head_to_tee tee_to_leg1 tee_to_leg2 k :
  let k1 := closing [snd head_to_tee; fst tee_to_leg1; fst tee_to_leg1] k in
  ∃ k2 k' evs,
    relay (fst head_to_tee) (snd tee_to_leg1) (snd tee_to_leg2) k1 = (Ret tt, k2) ∧
    tee head_to_tee tee_to_leg1 tee_to_leg2 k = (Stop (Exited 0), k') ∧
    relay_trace (fst head_to_tee) (snd tee_to_leg1) (snd tee_to_leg2)
      (unread k1 (fst head_to_tee)) evs ∧
    trace k' =
      trace k ++ (EvClose <$> [snd head_to_tee; fst tee_to_leg1; fst tee_to_leg1]) ++
      evs ++ (EvClose <$> [fst head_to_tee; snd tee_to_leg1; snd tee_to_leg1]) ++
      [EvExit 0] ∧
    sent k' = sent k2.
Proof.
  intros k1.
  destruct (relay_run (fst head_to_tee) (snd tee_to_leg1) (snd tee_to_leg2) k1)
    as (k2 & evs & Hrelay & Htr & Hrel & _ & _).
  exists k2, (log (EvExit 0) (set_fdt ∅ (closing [fst head_to_tee; snd tee_to_leg1; snd tee_to_leg1] k2))), evs.
  split; [done|]. split.
  { unfold tee.
    destruct (sys_close_run (snd head_to_tee) k) as [r1 H1]. run_by H1.
    destruct (sys_close_run (fst tee_to_leg1) (closing [snd head_to_tee] k)) as [r2 H2].
    run_by H2. rewrite closing_app.
    destruct (sys_close_run (fst tee_to_leg1)
                (closing ([snd head_to_tee] ++ [fst tee_to_leg1]) k)) as [r3 H3].
    run_by H3. rewrite closing_app. run_by Hrelay.
    destruct (sys_close_run (fst head_to_tee) k2) as [r4 H4]. run_by H4.
    destruct (sys_close_run (snd tee_to_leg1) (closing [fst head_to_tee] k2)) as [r5 H5].
    run_by H5. rewrite closing_app.
    destruct (sys_close_run (snd tee_to_leg1)
                (closing ([fst head_to_tee] ++ [snd tee_to_leg1]) k2)) as [r6 H6].
    run_by H6. rewrite closing_app. done. }
  split; [done|]. split; [|done].
  ksimpl. rewrite trace_closing, Htr. unfold k1. rewrite trace_closing.
  by rewrite <- !app_assoc.
Qed.

Lemma relay_role_second_fork k : relay_role k → fork_in_child (forked k).
Proof.
  intros [_ H]. unfold fork_in_child, forked. ksimpl.
  by destruct (fork_as (future k)) as [|? [|? ?]].
Qed.

Lemma relay_child_run cmd1 cmd2 cmd3 k :
  pipes_granted 3 k → relay_role k →
  let p0 := new_pipe k in
  let p1 := new_pipe (piped k) in
  let p2 := new_pipe (piped (piped k)) in
  let due := default [] (inflow k !! npipes k) in
  ∃ k' evs,
    doublePipe cmd1 cmd2 cmd3 k = (Stop (Exited 0), k') ∧
    trace k' =
      trace k ++
      [EvPipe (Some p0); EvPipe (Some p1); EvPipe (Some p2);
       EvFork (Z.pos (next_pid k)); EvFork 0] ++
      (EvClose <$> [snd p0; fst p1; fst p1]) ++ evs ++
      (EvClose <$> [fst p0; snd p1; snd p1]) ++ [EvExit 0] ∧
    relay_trace (fst p0) (snd p1) (snd p2) due evs ∧
    (writes_whole k →
       sent k' (S (npipes k)) = sent k (S (npipes k)) ++ due ∧
       sent k' (S (S (npipes k))) = sent k (S (S (npipes k))) ++ due).
Proof.
  intros Hpipes Hrole p0 p1 p2 due.
  destruct (sys_pipe_granted _ _ Hpipes) as [Hp0 Hpipes1].
  destruct (sys_pipe_granted _ _ Hpipes1) as [Hp1 Hpipes2].
  destruct (sys_pipe_granted _ _ Hpipes2) as [Hp2 _].
  fold p0 in Hp0. fold p1 in Hp1. fold p2 in Hp2.
  set (k3 := piped (piped (piped k))) in *.
  assert (Hrole3 : relay_role k3) by exact Hrole.
  destruct (launch_parent_run cmd1 (snd p0) STDOUT_FILENO [p0; p1; p2] 3 _ _ (proj1 Hrole3))
    as [Hl1 _].
  pose proof (sys_fork_child _ (relay_role_second_fork _ Hrole3)) as Hf2.
  set (k5 := born (forked k3)) in *.
  destruct (tee_run p0 p1 p2 k5) as (k6 & k' & evs & Hrelay & Htee & Hrel & Htr & Hsent).
  set (k5c := closing [snd p0; fst p1; fst p1] k5) in *.
  destruct (three_pipes_wired k) as (Hnd & R0 & W0 & R1 & W1 & R2 & W2 & _).
  fold p0 p1 p2 k3 in Hnd, R0, W0, R1, W1, R2, W2.
  assert (Hkeep : ∀ fd o, fdt k3 !! fd = Some o →
            fd ≠ snd p0 → fd ≠ fst p1 → fdt k5c !! fd = Some o).
  { intros fd o Hfd N1 N2. unfold k5c. rewrite lookup_closing.
    rewrite decide_False; [by unfold k5; autorewrite with kernel|].
    rewrite !elem_of_cons, elem_of_nil. by intros [?|[?|[?|[]]]]. }
  assert (Hin : fdt k5c !! fst p0 = Some (PipeR (npipes k))).
  { apply Hkeep; [done| |]; intros Heq; rewrite Heq in R0.
    - by rewrite W0 in R0.
    - rewrite R1 in R0. injection R0. lia. }
  assert (Hl1w : fdt k5c !! snd p1 = Some (PipeW (S (npipes k)))).
  { apply Hkeep; [done| |]; intros Heq; rewrite Heq in W1.
    - rewrite W0 in W1. injection W1. lia.
    - by rewrite R1 in W1. }
  assert (Hl2w : fdt k5c !! snd p2 = Some (PipeW (S (S (npipes k))))).
  { apply Hkeep; [done| |]; intros Heq; rewrite Heq in W2.
    - rewrite W0 in W2. injection W2. lia.
    - by rewrite R1 in W2. }
  assert (Hdue : unread k5c (fst p0) = due).
  { unfold unread. rewrite Hin. unfold k5c, k5, k3. by autorewrite with kernel. }
  exists k', evs. split.
  { unfold doublePipe. run_by Hp0. run_by Hp1. run_by Hp2. run_by Hl1. run_by Hf2.
    cbn [when Z.eqb]. run_ret. by erewrite bind_halt by exact Htee. }
  split.
  { rewrite Htr. unfold k5, k3. autorewrite with kernel. by rewrite <- !app_assoc. }
  split; [by rewrite <- Hdue|].
  intros Hw. rewrite Hsent.
  assert (Hw5 : writes_whole k5c) by exact Hw.
  destruct (relay_delivers _ _ _ _ _ _ k5c k6 Hin Hl1w Hl2w ltac:(lia) Hw5 Hrelay)
    as [Hb Hc].
  rewrite Hb, Hc, Hdue. unfold k5c, k5, k3. by autorewrite with kernel.
Qed.

Lemma third_fork_in_child k :
  forks_in_parent 2 k → fork_as (future k) !! 2%nat = Some ForkChild →
  fork_in_child (forked (forked k)).
Proof.
  intros _ H. unfold fork_in_child, forked. ksimpl.
  by destruct (fork_as (future k)) as [|? [|? [|? ?]]].
Qed.

(** ** The streams of the three commands *)

Lemma argv_of_terminated c rest : argv_of ((Arg <$> c) ++ Null :: rest) = Some c.
Proof. induction c as [|a c IH]; [done|]. cbn. by rewrite IH. Qed.

Lemma argv_of_slots c : argv_of (slots c) = Some c.
Proof. apply argv_of_terminated. Qed.

Lemma launch_child_exec_run f args src tgt pipes k o :
  fork_in_child k → fdt k !! src = Some o → 0 ≤ tgt → f ∈ programs k →
  ∃ k',
    createAndExecuteProcess (slots (f :: args)) src tgt pipes (length pipes) k =
      (Stop (Execed f (f :: args)), k') ∧
    (∀ fd, fdt k' !! fd =
           if decide (fd ∈ endpoints pipes) then None else <[tgt := o]> (fdt k) !! fd).
Proof.
  intros Hchild Hsrc Htgt Hprog. unfold createAndExecuteProcess.
  run_with sys_fork_child. cbn [when Z.eqb]. run_ret.
  erewrite bind_run by (apply sys_dup2_bound; [by rewrite fdt_born|done]).
  cbn beta iota.
  replace (tgt =? -1) with false by (symmetry; apply Z.eqb_neq; lia).
  cbn [when]. run_ret. run_with closePipes_run.
  set (k3 := closing _ _).
  assert (Hfdt : ∀ fd, fdt k3 !! fd =
            if decide (fd ∈ endpoints pipes) then None else <[tgt := o]> (fdt k) !! fd).
  { intros fd. unfold k3. by rewrite lookup_closing. }
  assert (Hin : f ∈ programs k3) by exact Hprog.
  clearbody k3. exists (log (EvExec (Arg f) (f :: args)) k3). split; [|exact Hfdt].
  apply bind_halt. unfold sys_execvp.
  change (default Garbage (slots (f :: args) !! 0%nat)) with (Arg f).
  rewrite argv_of_slots. by rewrite bool_decide_eq_true_2.
Qed.

(** In the head the standard output is the write end of the first pipe; in
    each leg the standard input is the read end of that leg's pipe.  These
    are the pipes the relay reads from and writes to. *)
Lemma streams_are_wired f args cmd1 cmd2 cmd3 k :
  pipes_granted 3 k →
  is_Some (fdt k !! STDIN_FILENO) → is_Some (fdt k !! STDOUT_FILENO) →
  f ∈ programs k →
  (fork_in_child k →
   ∃ k', doublePipe (slots (f :: args)) cmd2 cmd3 k = (Stop (Execed f (f :: args)), k') ∧
         fdt k' !! STDOUT_FILENO = Some (PipeW (npipes k))) ∧
  (forks_in_parent 2 k → fork_as (future k) !! 2%nat = Some ForkChild →
   ∃ k', doublePipe cmd1 (slots (f :: args)) cmd3 k = (Stop (Execed f (f :: args)), k') ∧
         fdt k' !! STDIN_FILENO = Some (PipeR (S (npipes k)))) ∧
  (forks_in_parent 3 k → fork_as (future k) !! 3%nat = Some ForkChild →
   ∃ k', doublePipe cmd1 cmd2 (slots (f :: args)) k = (Stop (Execed f (f :: args)), k') ∧
         fdt k' !! STDIN_FILENO = Some (PipeR (S (S (npipes k))))).
Proof.
  intros Hpipes Hin Hout Hprog.
  destruct (sys_pipe_granted _ _ Hpipes) as [Hp0 Hpipes1].
  destruct (sys_pipe_granted _ _ Hpipes1) as [Hp1 Hpipes2].
  destruct (sys_pipe_granted _ _ Hpipes2) as [Hp2 _].
  destruct (three_pipes_wired k) as (_ & _ & W0 & R1 & _ & R2 & _ & _ & Hfresh).
  set (p0 := new_pipe k) in *. set (p1 := new_pipe (piped k)) in *.
  set (p2 := new_pipe (piped (piped k))) in *.
  set (k3 := piped (piped (piped k))) in *.
  assert (Hprog3 : f ∈ programs k3) by exact Hprog.
  assert (Hstd : ∀ fd, is_Some (fdt k !! fd) → fd ∉ endpoints [p0; p1; p2]).
  { intros fd [o Ho] Hfd. by rewrite (Hfresh fd Hfd) in Ho. }
  split; [|split].
  - intros Hchild. assert (Hchild3 : fork_in_child k3) by exact Hchild.
    destruct (launch_child_exec_run f args (snd p0) STDOUT_FILENO [p0; p1; p2] k3 _
                Hchild3 W0 ltac:(done) Hprog3) as (k' & Hrun & Hfdt).
    exists k'. split.
    { unfold doublePipe. run_by Hp0. run_by Hp1. run_by Hp2.
      by erewrite bind_halt by exact Hrun. }
    rewrite Hfdt, decide_False by (by apply Hstd). by rewrite lookup_insert_eq.
  - intros Hforks Hchild. assert (Hforks3 : forks_in_parent 2 k3) by exact Hforks.
    destruct (launch_parent_run cmd1 (snd p0) STDOUT_FILENO [p0; p1; p2] 3 _ _ Hforks3)
      as [Hl1 Hforks4].
    destruct (sys_fork_parent _ _ Hforks4) as [Hf2 _].
    assert (Hchild3 : fork_as (future k3) !! 2%nat = Some ForkChild) by exact Hchild.
    pose proof (third_fork_in_child k3 Hforks3 Hchild3) as Hchild5.
    assert (R1' : fdt (forked (forked k3)) !! fst p1 = Some (PipeR (S (npipes k))))
      by (by rewrite !fdt_forked).
    assert (Hprog5 : f ∈ programs (forked (forked k3))) by exact Hprog.
    destruct (launch_child_exec_run f args (fst p1) STDIN_FILENO [p0; p1; p2] _ _
                Hchild5 R1' ltac:(done) Hprog5) as (k' & Hrun & Hfdt).
    exists k'. split.
    { unfold doublePipe. run_by Hp0. run_by Hp1. run_by Hp2. run_by Hl1. run_by Hf2.
      cbn [when Z.eqb]. run_ret. run_ret. by erewrite bind_halt by exact Hrun. }
    rewrite Hfdt, decide_False by (by apply Hstd). by rewrite lookup_insert_eq.
  - intros Hforks Hchild. assert (Hforks3 : forks_in_parent 3 k3) by exact Hforks.
    destruct (launch_parent_run cmd1 (snd p0) STDOUT_FILENO [p0; p1; p2] 3 _ _ Hforks3)
      as [Hl1 Hforks4].
    destruct (sys_fork_parent _ _ Hforks4) as [Hf2 Hforks5].
    destruct (launch_parent_run cmd2 (fst p1) STDIN_FILENO [p0; p1; p2] 3 _ _ Hforks5)
      as [Hl3 _].
    assert (Hchild6 : fork_in_child (forked (forked (forked k3)))).
    { unfold fork_in_child, forked. ksimpl. unfold k3. ksimpl.
      by destruct (fork_as (future k)) as [|? [|? [|? [|? ?]]]]. }
    assert (R2' : fdt (forked (forked (forked k3))) !! fst p2 =
                  Some (PipeR (S (S (npipes k))))) by (by rewrite !fdt_forked).
    assert (Hprog6 : f ∈ programs (forked (forked (forked k3)))) by exact Hprog.
    destruct (launch_child_exec_run f args (fst p2) STDIN_FILENO [p0; p1; p2] _ _
                Hchild6 R2' ltac:(done) Hprog6) as (k' & Hrun & Hfdt).
    exists k'. split.
    { unfold doublePipe. run_by Hp0. run_by Hp1. run_by Hp2. run_by Hl1. run_by Hf2.
      cbn [when Z.eqb]. run_ret. run_ret. run_by Hl3.
      by erewrite bind_halt by exact Hrun. }
    rewrite Hfdt, decide_False by (by apply Hstd). by rewrite lookup_insert_eq.
Qed.

(** C1 (what the code does).  The relay child closes the write end of the
    head pipe and then the read end of the first leg's pipe twice; after
    the loop it closes the read end of the head pipe and then the write end
    of the first leg's pipe twice.  The six descriptors are pairwise
    distinct, so the two ends of the second leg's pipe are never closed by
    the child and the two descriptors of the first leg's pipe are closed
    twice each. *)
Theorem relay_child_closes_leg1_twice_leg2_never cmd1 cmd2 cmd3 k :
  pipes_granted 3 k → relay_role k →
  ∃ k' p0 p1 p2 after,
    doublePipe cmd1 cmd2 cmd3 k = (Stop (Exited 0), k') ∧
    trace k' =
      trace k ++
      [EvPipe (Some p0); EvPipe (Some p1); EvPipe (Some p2);
       EvFork (Z.pos (next_pid k)); EvFork 0] ++ after ∧
    closed_fds after = [snd p0; fst p1; fst p1; fst p0; snd p1; snd p1] ∧
    NoDup (endpoints [p0; p1; p2]) ∧
    (fst p2 ∉ closed_fds after) ∧ (snd p2 ∉ closed_fds after).
Proof.
  intros Hpipes Hrole.
  destruct (relay_child_run cmd1 cmd2 cmd3 k Hpipes Hrole) as (k' & evs & Hrun & Htr & Hrel & _).
  destruct (three_pipes_wired k) as (Hnd & R0 & W0 & R1 & W1 & R2 & W2 & _).
  set (p0 := new_pipe k) in *. set (p1 := new_pipe (piped k)) in *.
  set (p2 := new_pipe (piped (piped k))) in *.
  set (m := fdt (piped (piped (piped k)))) in *.
  eexists k', p0, p1, p2, _. split; [done|]. split; [exact Htr|].
  assert (Hclosed : closed_fds
            ((EvClose <$> [snd p0; fst p1; fst p1]) ++ evs ++
             (EvClose <$> [fst p0; snd p1; snd p1]) ++ [EvExit 0]) =
          [snd p0; fst p1; fst p1; fst p0; snd p1; snd p1]).
  { unfold closed_fds. rewrite !omap_app.
    change (omap _ evs) with (closed_fds evs).
    by rewrite (relay_trace_no_close _ _ _ _ _ Hrel). }
  split; [exact Hclosed|]. split; [done|]. rewrite Hclosed.
  rewrite !elem_of_cons, !elem_of_nil.
  split; intros Hx; repeat destruct Hx as [Hx|Hx]; try done.
  all: rewrite Hx in *.
  all: first [ rewrite W0 in * | rewrite R0 in * | rewrite R1 in * | rewrite W1 in * ].
  all: first [ discriminate | injection R2; lia | injection W2; lia ].
Qed.

(** C2 (as amended).  Whatever the kernel decides, the relay loop ends, and
    for every block it reads it issues exactly one [write] of that block on
    the first leg and then exactly one on the second, going on to the next
    [read] whatever the two calls returned: a short write is not retried. *)
Theorem relay_writes_each_block_once_per_leg fd_in fd_leg1 fd_leg2 k :
  ∃ k' evs,
    relay fd_in fd_leg1 fd_leg2 k = (Ret tt, k') ∧
    trace k' = trace k ++ evs ∧
    relay_trace fd_in fd_leg1 fd_leg2 (unread k fd_in) evs.
Proof.
  destruct (relay_run fd_in fd_leg1 fd_leg2 k) as (k' & evs & H1 & H2 & H3 & _).
  by exists k', evs.
Qed.

Lemma followed_pipes_granted side n k : pipes_granted n k → pipes_granted n (followed side k).
Proof. done. Qed.

Lemma followed_into_relay k : relay_role (followed into_relay k).
Proof. split; [|done]. intros i Hi. replace i with O by lia. by split. Qed.

Lemma followed_into_leg1 k :
  forks_in_parent 2 (followed into_leg1 k) ∧
  fork_as (future (followed into_leg1 k)) !! 2%nat = Some ForkChild.
Proof. split; [|done]. intros [|[|i]] Hi; [by split..|lia]. Qed.

Lemma followed_into_leg2 k :
  forks_in_parent 3 (followed into_leg2 k) ∧
  fork_as (future (followed into_leg2 k)) !! 3%nat = Some ForkChild.
Proof. split; [|done]. intros [|[|[|i]]] Hi; [by split..|lia]. Qed.

(** C3 (as amended).  Take a start with the standard streams open, three
    commands that can be executed, and a kernel that grants the pipes and
    accepts every [write] in full.  Followed into the head, the run ends
    in the first command with its standard output on the write end of the
    first pipe.  Followed into the relay, it copies all the bytes due on
    that pipe, in order, to the pipe of each leg, in each round to the
    first leg before the second.  Followed into a leg, it ends in that
    leg's command with its standard input on the read end of that leg's
    pipe. *)
Theorem fan_out_when_writes_are_whole f1 a1 f2 a2 f3 a3 k :
  pipes_granted 3 k → writes_whole k →
  is_Some (fdt k !! STDIN_FILENO) → is_Some (fdt k !! STDOUT_FILENO) →
  f1 ∈ programs k → f2 ∈ programs k → f3 ∈ programs k →
  let cmd1 := slots (f1 :: a1) in
  let cmd2 := slots (f2 :: a2) in
  let cmd3 := slots (f3 :: a3) in
  let due := default [] (inflow k !! npipes k) in
  (∃ k', doublePipe cmd1 cmd2 cmd3 (followed into_head k) =
           (Stop (Execed f1 (f1 :: a1)), k') ∧
         fdt k' !! STDOUT_FILENO = Some (PipeW (npipes k))) ∧
  (∃ k' p0 p1 p2 evs,
     doublePipe cmd1 cmd2 cmd3 (followed into_relay k) = (Stop (Exited 0), k') ∧
     sent k' (S (npipes k)) = sent k (S (npipes k)) ++ due ∧
     sent k' (S (S (npipes k))) = sent k (S (S (npipes k))) ++ due ∧
     trace k' =
       trace k ++
       [EvPipe (Some p0); EvPipe (Some p1); EvPipe (Some p2);
        EvFork (Z.pos (next_pid k)); EvFork 0] ++
       (EvClose <$> [snd p0; fst p1; fst p1]) ++ evs ++
       (EvClose <$> [fst p0; snd p1; snd p1]) ++ [EvExit 0] ∧
     relay_trace (fst p0) (snd p1) (snd p2) due evs) ∧
  (∃ k', doublePipe cmd1 cmd2 cmd3 (followed into_leg1 k) =
           (Stop (Execed f2 (f2 :: a2)), k') ∧
         fdt k' !! STDIN_FILENO = Some (PipeR (S (npipes k)))) ∧
  (∃ k', doublePipe cmd1 cmd2 cmd3 (followed into_leg2 k) =
           (Stop (Execed f3 (f3 :: a3)), k') ∧
         fdt k' !! STDIN_FILENO = Some (PipeR (S (S (npipes k))))).
Proof.
  intros Hpipes Hw Hin Hout H1 H2 H3 cmd1 cmd2 cmd3 due.
  split; [|split; [|split]].
  - destruct (streams_are_wired f1 a1 cmd1 cmd2 cmd3 (followed into_head k)
                (followed_pipes_granted _ _ _ Hpipes) Hin Hout H1) as (Hhead & _).
    exact (Hhead eq_refl).
  - destruct (relay_child_run cmd1 cmd2 cmd3 (followed into_relay k)
                (followed_pipes_granted _ _ _ Hpipes) (followed_into_relay k))
      as (k' & evs & Hrun & Htr & Hrel & Hsent).
    destruct (Hsent Hw) as [Hs1 Hs2].
    by eexists k', _, _, _, evs.
  - destruct (streams_are_wired f2 a2 cmd1 cmd2 cmd3 (followed into_leg1 k)
                (followed_pipes_granted _ _ _ Hpipes) Hin Hout H2) as (_ & Hleg & _).
    destruct (followed_into_leg1 k) as [Hforks Hchild].
    exact (Hleg Hforks Hchild).
  - destruct (streams_are_wired f3 a3 cmd1 cmd2 cmd3 (followed into_leg2 k)
                (followed_pipes_granted _ _ _ Hpipes) Hin Hout H3) as (_ & _ & Hleg).
    destruct (followed_into_leg2 k) as [Hforks Hchild].
    exact (Hleg Hforks Hchild).
Qed.

(** ** Parsing the command line *)

Lemma until_colon_app c rest :
  ":" ∉ c → until_colon (c ++ ":" :: rest) = (c, Some rest).
Proof.
  induction c as [|a c IH]; intros Hc; [done|].
  apply not_elem_of_cons in Hc as [Ha Hc]. cbn [until_colon app].
  destruct (String.eqb_spec a ":") as [->|_]; [done|]. by rewrite IH.
Qed.

Lemma until_colon_none c : ":" ∉ c → until_colon c = (c, None).
Proof.
  induction c as [|a c IH]; intros Hc; [done|].
  apply not_elem_of_cons in Hc as [Ha Hc]. cbn [until_colon].
  destruct (String.eqb_spec a ":") as [->|_]; [done|]. by rewrite IH.
Qed.

Lemma until_colon_spec l :
  (":" ∉ fst (until_colon l)) ∧
  match snd (until_colon l) with
  | None => l = fst (until_colon l)
  | Some rest => l = fst (until_colon l) ++ ":" :: rest
  end.
Proof.
  induction l as [|a l [IH1 IH2]]; [split; [apply not_elem_of_nil|done]|].
  cbn [until_colon]. destruct (String.eqb_spec a ":") as [->|Hne].
  - split; [apply not_elem_of_nil|done].
  - destruct (until_colon l) as [c r]. cbn [fst snd] in *. split.
    + apply not_elem_of_cons. split; [congruence|done].
    + destruct r; by rewrite IH2 at 1.
Qed.

Lemma store_in cmd j v :
  (j < length cmd)%nat → store cmd j v = Some (<[j := v]> cmd).
Proof. intros. unfold store. by rewrite decide_True. Qed.

Lemma store_out cmd j v : (length cmd ≤ j)%nat → store cmd j v = None.
Proof. intros. unfold store. rewrite decide_False; [done|lia]. Qed.

(** The array after the tokens [c] were stored from slot [j] on. *)
Lemma copy_command_spec c tail : ∀ i j cmd,
  ":" ∉ c → (tail = [] ∨ ∃ t, tail = ":" :: t) → (j ≤ length cmd)%nat →
  copy_command (c ++ tail) i j cmd =
    if decide (j + length c ≤ length cmd)%nat
    then Some ((i + length c)%nat, (j + length c)%nat,
               take j cmd ++ (Arg <$> c) ++ drop (j + length c) cmd)
    else None.
Proof.
  induction c as [|a c IH]; intros i j cmd Hc Htail Hj.
  - cbn [app length fmap list_fmap]. rewrite !Nat.add_0_r, decide_True by done.
    rewrite take_drop. destruct Htail as [->|[t ->]]; [done|]. by cbn.
  - apply not_elem_of_cons in Hc as [Ha Hc]. cbn [app copy_command length].
    destruct (String.eqb_spec a ":") as [->|_]; [done|].
    destruct (decide (j < length cmd)%nat) as [Hlt|Hge].
    + rewrite store_in by done. rewrite IH by (rewrite ?length_insert; auto with lia).
      rewrite length_insert.
      destruct (decide (S j + length c ≤ length cmd)%nat).
      * rewrite decide_True by lia. do 2 f_equal; [f_equal; lia|].
        rewrite (take_S_r _ _ (Arg a)) by (by apply list_lookup_insert_eq).
        rewrite take_insert_ge by lia. rewrite drop_insert_lt by lia.
        rewrite <- app_assoc. cbn. by rewrite Nat.add_succ_r.
      * rewrite decide_False by lia. done.
    + rewrite store_out by lia. rewrite decide_False by lia. done.
Qed.

Lemma copy_rest_spec c : ∀ i j cmd,
  (j ≤ length cmd)%nat →
  copy_rest c i j cmd =
    if decide (j + length c ≤ length cmd)%nat
    then Some ((i + length c)%nat, (j + length c)%nat,
               take j cmd ++ (Arg <$> c) ++ drop (j + length c) cmd)
    else None.
Proof.
  induction c as [|a c IH]; intros i j cmd Hj.
  - cbn [copy_rest length fmap list_fmap app]. rewrite !Nat.add_0_r, decide_True by done.
    by rewrite take_drop.
  - cbn [copy_rest length].
    destruct (decide (j < length cmd)%nat) as [Hlt|Hge].
    + rewrite store_in by done. rewrite IH by (rewrite ?length_insert; auto with lia).
      rewrite length_insert.
      destruct (decide (S j + length c ≤ length cmd)%nat).
      * rewrite decide_True by lia. do 2 f_equal; [f_equal; lia|].
        rewrite (take_S_r _ _ (Arg a)) by (by apply list_lookup_insert_eq).
        rewrite take_insert_ge by lia. rewrite drop_insert_lt by lia.
        rewrite <- app_assoc. cbn. by rewrite Nat.add_succ_r.
      * rewrite decide_False by lia. done.
    + rewrite store_out by lia. rewrite decide_False by lia. done.
Qed.

Lemma scan_command_fits c tail i :
  ":" ∉ c → (tail = [] ∨ ∃ t, tail = ":" :: t) → (length c ≤ 9)%nat →
  ∃ full,
    copy_command (c ++ tail) i 0 (replicate 10 Garbage) =
      Some ((i + length c)%nat, length c, full) ∧
    store full (length c) Null = Some (slots c).
Proof.
  intros Hc Htail Hlen. eexists. split.
  - rewrite copy_command_spec by (rewrite ?length_replicate; auto with lia).
    rewrite length_replicate, decide_True by lia. done.
  - cbn [Nat.add]. rewrite take_0, app_nil_l, drop_replicate.
    rewrite store_in by (rewrite length_app, length_fmap, length_replicate; lia).
    f_equal. rewrite insert_app_r_alt by (rewrite length_fmap; lia).
    rewrite length_fmap, Nat.sub_diag. unfold slots. f_equal.
    by replace (10 - length c)%nat with (S (9 - length c)) by lia.
Qed.

Lemma scan_rest_fits c i :
  (length c ≤ 9)%nat →
  ∃ full,
    copy_rest c i 0 (replicate 10 Garbage) =
      Some ((i + length c)%nat, length c, full) ∧
    store full (length c) Null = Some (slots c).
Proof.
  intros Hlen. eexists. split.
  - rewrite copy_rest_spec by (rewrite ?length_replicate; auto with lia).
    rewrite length_replicate, decide_True by lia. done.
  - cbn [Nat.add]. rewrite take_0, app_nil_l, drop_replicate.
    rewrite store_in by (rewrite length_app, length_fmap, length_replicate; lia).
    f_equal. rewrite insert_app_r_alt by (rewrite length_fmap; lia).
    rewrite length_fmap, Nat.sub_diag. unfold slots. f_equal.
    by replace (10 - length c)%nat with (S (9 - length c)) by lia.
Qed.

(** With ten tokens the copy stays inside the array and the store of the
    NULL after them is the one that leaves it; with more the copy itself
    leaves it. *)
Lemma scan_command_overflows c tail i :
  ":" ∉ c → (tail = [] ∨ ∃ t, tail = ":" :: t) → (10 ≤ length c)%nat →
  (length c = 10%nat ∧
   ∃ full, copy_command (c ++ tail) i 0 (replicate 10 Garbage) =
             Some ((i + 10)%nat, 10%nat, full) ∧
           store full 10 Null = None) ∨
  ((11 ≤ length c)%nat ∧ copy_command (c ++ tail) i 0 (replicate 10 Garbage) = None).
Proof.
  intros Hc Htail Hlen.
  rewrite copy_command_spec by (rewrite ?length_replicate; auto with lia).
  rewrite length_replicate. destruct (decide (length c = 10%nat)) as [Heq|Hne].
  - left. split; [done|]. rewrite decide_True by lia. rewrite Heq. eexists. split; [done|].
    apply store_out. cbn [Nat.add]. rewrite take_0, app_nil_l.
    rewrite length_app, length_fmap, length_drop, length_replicate. lia.
  - right. split; [lia|]. rewrite decide_False; [done|]. cbn. lia.
Qed.

Lemma scan_rest_overflows c i :
  (10 ≤ length c)%nat →
  (length c = 10%nat ∧
   ∃ full, copy_rest c i 0 (replicate 10 Garbage) = Some ((i + 10)%nat, 10%nat, full) ∧
           store full 10 Null = None) ∨
  ((11 ≤ length c)%nat ∧ copy_rest c i 0 (replicate 10 Garbage) = None).
Proof.
  intros Hlen.
  rewrite copy_rest_spec by (rewrite ?length_replicate; auto with lia).
  rewrite length_replicate. destruct (decide (length c = 10%nat)) as [Heq|Hne].
  - left. split; [done|]. rewrite decide_True by lia. rewrite Heq. eexists. split; [done|].
    apply store_out. cbn [Nat.add]. rewrite take_0, app_nil_l.
    rewrite length_app, length_fmap, length_drop, length_replicate. lia.
  - right. split; [lia|]. rewrite decide_False; [done|]. cbn. lia.
Qed.

Lemma drop_past c (x : string) rest : drop (S (length c)) (c ++ x :: rest) = rest.
Proof. induction c as [|a c IH]; [done|]. exact IH. Qed.

Lemma drop_to (l pre rest : list string) n :
  l = pre ++ rest → n = length pre → drop n l = rest.
Proof. intros -> ->. apply drop_app_length. Qed.

Ltac argc_ne :=
  apply Nat.eqb_neq; repeat (progress (cbn [length]; rewrite ?length_app)); lia.

Ltac scanned H :=
  let full := fresh "full" in
  let Hcopy := fresh "Hcopy" in
  let Hstore := fresh "Hstore" in
  destruct H as (full & Hcopy & Hstore);
  rewrite Hcopy; cbn [checked]; run_ret;
  rewrite Hstore; cbn [checked]; run_ret.

Lemma main_enters_doublePipe prog c1 c2 c3 k :
  ":" ∉ c1 → ":" ∉ c2 → c3 ≠ [] →
  (length c1 ≤ 9)%nat → (length c2 ≤ 9)%nat → (length c3 ≤ 9)%nat →
  main (prog :: c1 ++ ":" :: c2 ++ ":" :: c3) k =
    (let* status := doublePipe (slots c1) (slots c2) (slots c3) in sys_exit status) k.
Proof.
  intros H1 H2 H3 L1 L2 L3. unfold main. cbv zeta.
  replace (_ =? 1)%nat with false by (symmetry; argc_ne).
  cbn [when]. run_ret. cbn [drop]. rewrite drop_0.
  scanned (scan_command_fits c1 (":" :: c2 ++ ":" :: c3) 1 H1 ltac:(eauto) L1).
  replace (_ =? _)%nat with false by (symmetry; argc_ne).
  cbn [when]. run_ret.
  rewrite (drop_to _ (c1 ++ [":"]) (c2 ++ ":" :: c3))
    by (rewrite <- ?app_assoc, ?length_app; cbn; auto with lia).
  scanned (scan_command_fits c2 (":" :: c3) (S (1 + length c1)) H2 ltac:(eauto) L2).
  replace (_ =? _)%nat with false by (symmetry; argc_ne).
  cbn [when]. run_ret.
  rewrite (drop_to _ (c1 ++ ":" :: c2 ++ [":"]) c3)
    by (rewrite <- ?app_assoc, ?length_app; cbn; rewrite <- ?app_assoc, ?length_app;
        cbn; auto with lia).
  scanned (scan_rest_fits c3 (S (S (1 + length c1) + length c2)) L3).
  replace (_ =? 0)%nat with false by (symmetry; apply Nat.eqb_neq; by destruct c3).
  cbn [when]. by run_ret.
Qed.

Ltac overflowed H :=
  let full := fresh "full" in
  let Hcopy := fresh "Hcopy" in
  let Hstore := fresh "Hstore" in
  destruct H as [(_ & full & Hcopy & Hstore)|(_ & Hcopy)];
  [ rewrite Hcopy; cbn [checked]; run_ret; rewrite Hstore; cbn [checked];
    by erewrite bind_halt by reflexivity
  | rewrite Hcopy; cbn [checked]; by erewrite bind_halt by reflexivity ].

Lemma main_overflows_first prog c1 tail k :
  ":" ∉ c1 → (tail = [] ∨ ∃ t, tail = ":" :: t) → (10 ≤ length c1)%nat →
  main (prog :: c1 ++ tail) k = (Stop Fault, k).
Proof.
  intros H1 Htail L1. unfold main. cbv zeta.
  replace (_ =? 1)%nat with false by (symmetry; argc_ne).
  cbn [when]. run_ret. cbn [drop]. rewrite drop_0.
  overflowed (scan_command_overflows c1 tail 1 H1 Htail L1).
Qed.

Lemma main_overflows_second prog c1 c2 tail k :
  ":" ∉ c1 → ":" ∉ c2 → (tail = [] ∨ ∃ t, tail = ":" :: t) →
  (length c1 ≤ 9)%nat → (10 ≤ length c2)%nat →
  main (prog :: c1 ++ ":" :: c2 ++ tail) k = (Stop Fault, k).
Proof.
  intros H1 H2 Htail L1 L2. unfold main. cbv zeta.
  replace (_ =? 1)%nat with false by (symmetry; argc_ne).
  cbn [when]. run_ret. cbn [drop]. rewrite drop_0.
  scanned (scan_command_fits c1 (":" :: c2 ++ tail) 1 H1 ltac:(eauto) L1).
  replace (_ =? _)%nat with false by (symmetry; argc_ne).
  cbn [when]. run_ret.
  rewrite (drop_to _ (c1 ++ [":"]) (c2 ++ tail))
    by (rewrite <- ?app_assoc, ?length_app; cbn; auto with lia).
  overflowed (scan_command_overflows c2 tail (S (1 + length c1)) H2 Htail L2).
Qed.

Lemma main_overflows_third prog c1 c2 c3 k :
  ":" ∉ c1 → ":" ∉ c2 →
  (length c1 ≤ 9)%nat → (length c2 ≤ 9)%nat → (10 ≤ length c3)%nat →
  main (prog :: c1 ++ ":" :: c2 ++ ":" :: c3) k = (Stop Fault, k).
Proof.
  intros H1 H2 L1 L2 L3. unfold main. cbv zeta.
  replace (_ =? 1)%nat with false by (symmetry; argc_ne).
  cbn [when]. run_ret. cbn [drop]. rewrite drop_0.
  scanned (scan_command_fits c1 (":" :: c2 ++ ":" :: c3) 1 H1 ltac:(eauto) L1).
  replace (_ =? _)%nat with false by (symmetry; argc_ne).
  cbn [when]. run_ret.
  rewrite (drop_to _ (c1 ++ [":"]) (c2 ++ ":" :: c3))
    by (rewrite <- ?app_assoc, ?length_app; cbn; auto with lia).
  scanned (scan_command_fits c2 (":" :: c3) (S (1 + length c1)) H2 ltac:(eauto) L2).
  replace (_ =? _)%nat with false by (symmetry; argc_ne).
  cbn [when]. run_ret.
  rewrite (drop_to _ (c1 ++ ":" :: c2 ++ [":"]) c3)
    by (rewrite <- ?app_assoc, ?length_app; cbn; rewrite <- ?app_assoc, ?length_app;
        cbn; auto with lia).
  overflowed (scan_rest_overflows c3 (S (S (1 + length c1) + length c2)) L3).
Qed.

(** The state after a usage message and [exit(1)]. *)
Lemma main_rejects_one prog c1 k :
  c1 ≠ [] → ":" ∉ c1 → (length c1 ≤ 9)%nat →
  main (prog :: c1) k =
    (Stop (Exited 1), log (EvExit 1) (set_fdt ∅ (log (EvStdout ONE_CMD) k))).
Proof.
  intros Hne H1 L1. unfold main. cbv zeta.
  replace (_ =? 1)%nat with false by (symmetry; apply Nat.eqb_neq; destruct c1; [done|cbn; lia]).
  cbn [when]. run_ret. cbn [drop]. rewrite drop_0.
  rewrite <- (app_nil_r c1) at 1.
  scanned (scan_command_fits c1 [] 1 H1 ltac:(eauto) L1).
  replace (_ =? _)%nat with true by (symmetry; apply Nat.eqb_eq; cbn; lia).
  done.
Qed.

Lemma main_rejects_two prog c1 c2 k :
  ":" ∉ c1 → ":" ∉ c2 → (length c1 ≤ 9)%nat → (length c2 ≤ 9)%nat →
  main (prog :: c1 ++ ":" :: c2) k =
    (Stop (Exited 1), log (EvExit 1) (set_fdt ∅ (log (EvStdout TWO_CMDS) k))).
Proof.
  intros H1 H2 L1 L2. unfold main. cbv zeta.
  replace (_ =? 1)%nat with false by (symmetry; argc_ne).
  cbn [when]. run_ret. cbn [drop]. rewrite drop_0.
  scanned (scan_command_fits c1 (":" :: c2) 1 H1 ltac:(eauto) L1).
  replace (_ =? _)%nat with false by (symmetry; argc_ne).
  cbn [when]. run_ret.
  rewrite (drop_to _ (c1 ++ [":"]) c2)
    by (rewrite <- ?app_assoc, ?length_app; cbn; auto with lia).
  rewrite <- (app_nil_r c2) at 1.
  scanned (scan_command_fits c2 [] (S (1 + length c1)) H2 ltac:(eauto) L2).
  replace (_ =? _)%nat with true
    by (symmetry; apply Nat.eqb_eq; cbn; rewrite length_app; cbn; lia).
  done.
Qed.

Lemma main_rejects_third prog c1 c2 k :
  ":" ∉ c1 → ":" ∉ c2 → (length c1 ≤ 9)%nat → (length c2 ≤ 9)%nat →
  main (prog :: c1 ++ ":" :: c2 ++ [":"]) k =
    (Stop (Exited 1), log (EvExit 1) (set_fdt ∅ (log (EvStdout NO_THIRD) k))).
Proof.
  intros H1 H2 L1 L2. unfold main. cbv zeta.
  replace (_ =? 1)%nat with false by (symmetry; argc_ne).
  cbn [when]. run_ret. cbn [drop]. rewrite drop_0.
  scanned (scan_command_fits c1 (":" :: c2 ++ [":"]) 1 H1 ltac:(eauto) L1).
  replace (_ =? _)%nat with false by (symmetry; argc_ne).
  cbn [when]. run_ret.
  rewrite (drop_to _ (c1 ++ [":"]) (c2 ++ [":"]))
    by (rewrite <- ?app_assoc, ?length_app; cbn; auto with lia).
  scanned (scan_command_fits c2 [":"] (S (1 + length c1)) H2 ltac:(eauto) L2).
  replace (_ =? _)%nat with false by (symmetry; argc_ne).
  cbn [when]. run_ret.
  rewrite (drop_to _ (c1 ++ ":" :: c2 ++ [":"]) [])
    by (rewrite <- ?app_assoc, ?length_app; cbn; rewrite <- ?app_assoc, ?length_app;
        cbn; auto with lia).
  done.
Qed.

(** ** What [main] makes of the command line *)

Lemma commands_one c1 : ":" ∉ c1 → commands c1 = [c1].
Proof. intros H. unfold commands. by rewrite until_colon_none. Qed.

Lemma commands_two c1 c2 : ":" ∉ c1 → ":" ∉ c2 → commands (c1 ++ ":" :: c2) = [c1; c2].
Proof.
  intros H1 H2. unfold commands. rewrite until_colon_app by done.
  by rewrite until_colon_none.
Qed.

Lemma commands_three c1 c2 c3 :
  ":" ∉ c1 → ":" ∉ c2 → commands (c1 ++ ":" :: c2 ++ ":" :: c3) = [c1; c2; c3].
Proof.
  intros H1 H2. unfold commands. rewrite until_colon_app by done.
  by rewrite until_colon_app.
Qed.

(** C6 (as amended).  A malformed command line none of whose commands has
    more than nine tokens is answered with its message and [exit(1)], and
    with nothing else: no pipe is requested and no process is forked. *)
Theorem malformed_invocation_is_rejected prog args msg k :
  malformed args msg →
  Forall (λ c, (length c ≤ 9)%nat) (commands args) →
  ∃ k',
    main (prog :: args) k = (Stop (Exited 1), k') ∧
    trace k' = trace k ++ [EvStdout msg; EvExit 1] ∧
    npipes k' = npipes k ∧ children k' = children k ∧ next_pid k' = next_pid k.
Proof.
  intros Hmal Hfit. destruct Hmal as [|c1 Hne H1|c1 c2 H1 H2|c1 c2 H1 H2].
  - eexists. split; [reflexivity|]. ksimpl. by rewrite <- app_assoc.
  - rewrite commands_one in Hfit by done.
    apply Forall_cons in Hfit as [L1 _].
    rewrite main_rejects_one by done. eexists. split; [done|].
    ksimpl. by rewrite <- app_assoc.
  - rewrite commands_two in Hfit by done.
    apply Forall_cons in Hfit as [L1 [L2 _]%Forall_cons].
    rewrite main_rejects_two by done. eexists. split; [done|].
    ksimpl. by rewrite <- app_assoc.
  - rewrite commands_three in Hfit by done.
    apply Forall_cons in Hfit as [L1 [L2 _]%Forall_cons].
    rewrite main_rejects_third by done. eexists. split; [done|].
    ksimpl. by rewrite <- app_assoc.
Qed.

(** C9 (as amended).  Whenever some command of the command line has ten or
    more tokens, [main] stores outside the ten-slot array of that command
    before it does anything else.  With eleven or more tokens it is the
    copy loop that stores outside the array; with exactly ten the loop
    stays inside and the store of the NULL behind the tokens is the one
    outside; nine tokens or fewer fit together with their NULL. *)
Theorem long_command_overflows_its_array prog args k :
  Exists (λ c, (10 ≤ length c)%nat) (commands args) →
  main (prog :: args) k = (Stop Fault, k) ∧
  (∀ c tail i,
     ":" ∉ c → (tail = [] ∨ ∃ t, tail = ":" :: t) →
     let scan := copy_command (c ++ tail) i 0 (replicate 10 Garbage) in
     ((11 ≤ length c)%nat → scan = None) ∧
     (length c = 10%nat →
      ∃ full, scan = Some ((i + 10)%nat, 10%nat, full) ∧ store full 10 Null = None) ∧
     ((length c ≤ 9)%nat →
      ∃ full, scan = Some ((i + length c)%nat, length c, full) ∧
              store full (length c) Null = Some (slots c))).
Proof.
  intros Hex. split.
  - revert Hex. unfold commands.
    destruct (until_colon_spec args) as [H1 Hargs].
    destruct (until_colon args) as [c1 [r1|]]; cbn [fst snd] in *.
    2:{ intros [L1|[]%Exists_nil]%Exists_cons. subst args.
        rewrite <- (app_nil_r c1). apply main_overflows_first; auto. }
    destruct (until_colon_spec r1) as [H2 Hr1].
    destruct (until_colon r1) as [c2 [c3|]]; cbn [fst snd] in *; subst.
    + intros Hex. destruct (decide (10 ≤ length c1)%nat) as [L1|L1].
      { apply main_overflows_first; eauto. }
      destruct (decide (10 ≤ length c2)%nat) as [L2|L2].
      { apply main_overflows_second; eauto with lia. }
      apply main_overflows_third; try done; try lia.
      apply Exists_cons in Hex as [?|Hex]; [lia|].
      apply Exists_cons in Hex as [?|Hex]; [lia|].
      by apply Exists_cons in Hex as [?|[]%Exists_nil].
    + intros Hex. destruct (decide (10 ≤ length c1)%nat) as [L1|L1].
      { apply main_overflows_first; eauto. }
      rewrite <- (app_nil_r c2). apply main_overflows_second; auto with lia.
      apply Exists_cons in Hex as [?|Hex]; [lia|].
      by apply Exists_cons in Hex as [?|[]%Exists_nil].
  - intros c tail i Hc Htail scan. subst scan. split; [|split].
    + intros L. destruct (scan_command_overflows c tail i Hc Htail ltac:(lia))
        as [[Heq _]|[_ Hnone]]; [lia|done].
    + intros L. destruct (scan_command_overflows c tail i Hc Htail ltac:(lia))
        as [[_ Hfull]|[Hlt _]]; [done|lia].
    + intros L. exact (scan_command_fits c tail i Hc Htail L).
Qed.

Lemma launch_child_without_program cmd src tgt pipes k o :
  fork_in_child k → fdt k !! src = Some o → 0 ≤ tgt → cmd !! 0%nat = Some Null →
  ∃ k',
    createAndExecuteProcess cmd src tgt pipes (length pipes) k = (Stop Fault, k') ∧
    trace k' =
      trace k ++ [EvFork 0; EvDup2 src tgt] ++ (EvClose <$> endpoints pipes) ++
      [EvExec Null []].
Proof.
  intros Hchild Hsrc Htgt Hnull. unfold createAndExecuteProcess.
  run_with sys_fork_child. cbn [when Z.eqb]. run_ret.
  erewrite bind_run by (apply sys_dup2_bound; [by rewrite fdt_born|done]).
  cbn beta iota.
  replace (tgt =? -1) with false by (symmetry; apply Z.eqb_neq; lia).
  cbn [when]. run_ret. run_with closePipes_run.
  rewrite Hnull. cbn [default]. eexists. split; [reflexivity|].
  ksimpl. rewrite trace_closing. ksimpl. by rewrite <- !app_assoc.
Qed.

(** C10 (as amended).  A command line with two separators and a third
    command, none of its commands longer than nine tokens, is not rejected
    when its first or second command is empty: [main] calls [doublePipe]
    with an array whose first slot is NULL for the empty command.  The
    parent then creates the pipes and forks as for any other command line,
    and the child launched for the empty command binds its stream, closes
    the pipe descriptors and calls [execvp] with a null file; the program
    does nothing to keep that call from being made, and what happens
    inside it is not defined. *)
Theorem empty_command_is_not_rejected prog c1 c2 c3 k :
  ":" ∉ c1 → ":" ∉ c2 → c3 ≠ [] →
  (length c1 ≤ 9)%nat → (length c2 ≤ 9)%nat → (length c3 ≤ 9)%nat →
  c1 = [] ∨ c2 = [] →
  let argv := prog :: c1 ++ ":" :: c2 ++ ":" :: c3 in
  main argv k =
    (let* status := doublePipe (slots c1) (slots c2) (slots c3) in sys_exit status) k ∧
  (c1 = [] → slots c1 !! 0%nat = Some Null) ∧
  (c2 = [] → slots c2 !! 0%nat = Some Null) ∧
  (pipes_granted 3 k → forks_in_parent 4 k →
   ∃ k' p0 p1 p2 rest,
     main argv k = (Stop (Exited 0), k') ∧
     trace k' =
       trace k ++ [EvPipe (Some p0); EvPipe (Some p1); EvPipe (Some p2)] ++
       (EvFork <$> pids_from (next_pid k) 4) ++ rest) ∧
  (c1 = [] → pipes_granted 3 k → fork_in_child k →
   ∃ k' before,
     main argv k = (Stop Fault, k') ∧
     trace k' = before ++ [EvExec Null []]) ∧
  (c2 = [] → pipes_granted 3 k → forks_in_parent 2 k →
   fork_as (future k) !! 2%nat = Some ForkChild →
   ∃ k' before,
     main argv k = (Stop Fault, k') ∧
     trace k' = before ++ [EvExec Null []]).
Proof.
  intros H1 H2 H3 L1 L2 L3 Hempty argv. subst argv.
  rewrite main_enters_doublePipe by done.
  split; [done|]. split; [by intros ->|]. split; [by intros ->|].
  split; [|split].
  - intros Hpipes Hforks.
    destruct (doublePipe_parent_run (slots c1) (slots c2) (slots c3) k Hpipes Hforks)
      as (k' & p0 & p1 & p2 & order & Hrun & Htr & _).
    eexists _, p0, p1, p2, _. erewrite bind_run by exact Hrun. cbn beta.
    split; [reflexivity|]. ksimpl. rewrite Htr. by rewrite <- !app_assoc.
  - intros -> Hpipes Hchild.
    destruct (sys_pipe_granted _ _ Hpipes) as [Hp0 Hpipes1].
    destruct (sys_pipe_granted _ _ Hpipes1) as [Hp1 Hpipes2].
    destruct (sys_pipe_granted _ _ Hpipes2) as [Hp2 _].
    destruct (three_pipes_wired k) as (_ & _ & W0 & _).
    set (p0 := new_pipe k) in *. set (p1 := new_pipe (piped k)) in *.
    set (p2 := new_pipe (piped (piped k))) in *.
    set (k3 := piped (piped (piped k))) in *.
    destruct (launch_child_without_program (slots []) (snd p0) STDOUT_FILENO
                [p0; p1; p2] k3 _ Hchild W0 ltac:(done) ltac:(done)) as (k' & Hrun & Htr).
    exists k'. eexists. split.
    { unfold doublePipe. erewrite bind_halt; [reflexivity|].
      run_by Hp0. run_by Hp1. run_by Hp2. by erewrite bind_halt by exact Hrun. }
    rewrite Htr. rewrite !app_assoc. reflexivity.
  - intros -> Hpipes Hforks Hchild.
    destruct (sys_pipe_granted _ _ Hpipes) as [Hp0 Hpipes1].
    destruct (sys_pipe_granted _ _ Hpipes1) as [Hp1 Hpipes2].
    destruct (sys_pipe_granted _ _ Hpipes2) as [Hp2 _].
    destruct (three_pipes_wired k) as (_ & _ & _ & R1 & _).
    set (p0 := new_pipe k) in *. set (p1 := new_pipe (piped k)) in *.
    set (p2 := new_pipe (piped (piped k))) in *.
    set (k3 := piped (piped (piped k))) in *.
    assert (Hforks3 : forks_in_parent 2 k3) by exact Hforks.
    destruct (launch_parent_run (slots c1) (snd p0) STDOUT_FILENO [p0; p1; p2] 3 _ _ Hforks3)
      as [Hl1 Hforks4].
    destruct (sys_fork_parent _ _ Hforks4) as [Hf2 _].
    assert (Hchild3 : fork_as (future k3) !! 2%nat = Some ForkChild) by exact Hchild.
    pose proof (third_fork_in_child k3 Hforks3 Hchild3) as Hchild5.
    assert (R1' : fdt (forked (forked k3)) !! fst p1 = Some (PipeR (S (npipes k))))
      by (by rewrite !fdt_forked).
    destruct (launch_child_without_program (slots []) (fst p1) STDIN_FILENO
                [p0; p1; p2] (forked (forked k3)) _ Hchild5 R1' ltac:(done) ltac:(done))
      as (k' & Hrun & Htr).
    exists k'. eexists. split.
    { unfold doublePipe. erewrite bind_halt; [reflexivity|].
      run_by Hp0. run_by Hp1. run_by Hp2. run_by Hl1. run_by Hf2.
      cbn [when Z.eqb]. run_ret. run_ret. by erewrite bind_halt by exact Hrun. }
    rewrite Htr. rewrite !app_assoc. reflexivity.
Qed.

(** * Further properties of the code *)

(** ** [closePipes] *)

(** [closePipes] closes the two descriptors of each of the first [count]
    pipes, the read end before the write end, and always returns: the
    result of [close] is not looked at, so a descriptor that is not open
    (or is listed twice) does no harm.  Afterwards none of these
    descriptors is open and every other descriptor is as before. *)
Theorem closePipes_closes_the_first_count pipes count k :
  (count ≤ length pipes)%nat →
  ∃ k',
    closePipes pipes count k = (Ret tt, k') ∧
    trace k' = trace k ++ (EvClose <$> endpoints (take count pipes)) ∧
    (∀ fd, fdt k' !! fd =
           if decide (fd ∈ endpoints (take count pipes)) then None else fdt k !! fd) ∧
    children k' = children k ∧ inflow k' = inflow k ∧ outflow k' = outflow k.
Proof.
  intros Hcount. exists (closing (endpoints (take count pipes)) k).
  split.
  { unfold closePipes. rewrite closePipes_from_run by (simpl; lia). by rewrite drop_0. }
  split; [apply trace_closing|]. split; [|done].
  intros fd. apply lookup_closing.
Qed.

(** ** A refused [fork] *)

Lemma sys_fork_refused k :
  head (fork_as (future k)) = Some ForkFails →
  sys_fork k = (Ret (-1), log (EvFork (-1)) (pop_fork k)).
Proof. unfold sys_fork. by intros ->. Qed.

Lemma launch_fork_refused cmd src tgt pipes count k :
  head (fork_as (future k)) = Some ForkFails →
  createAndExecuteProcess cmd src tgt pipes count k =
    (Stop (Exited EXIT_FAILURE), fork_refused k).
Proof.
  intros H. unfold createAndExecuteProcess.
  erewrite bind_run by (by apply sys_fork_refused). cbn beta iota.
  cbn [when Z.eqb]. by erewrite bind_halt by reflexivity.
Qed.

Lemma fork_as_piped k : fork_as (future (piped k)) = fork_as (future k).
Proof. done. Qed.

Lemma fork_as_forked k : fork_as (future (forked k)) = tail (fork_as (future k)).
Proof. done. Qed.

Lemma trace_fork_refused k :
  trace (fork_refused k) =
  trace k ++ [EvFork (-1); EvStderr FORK_ERR; EvExit EXIT_FAILURE].
Proof. unfold fork_refused. ksimpl. by rewrite <- !app_assoc. Qed.

Lemma children_fork_refused k : children (fork_refused k) = children k.
Proof. done. Qed.

(** When one of the four forks is refused, [doublePipe] reports it on the
    standard error stream and ends the process with [EXIT_FAILURE] at
    once: it makes no further call, so the children forked before are
    neither waited for nor told, and [closePipes] is not reached. *)
Theorem fork_failure_exits_without_reaping cmd1 cmd2 cmd3 i k :
  pipes_granted 3 k → (i < 4)%nat → forks_in_parent i k →
  fork_as (future k) !! i = Some ForkFails →
  ∃ k' p0 p1 p2,
    doublePipe cmd1 cmd2 cmd3 k = (Stop (Exited EXIT_FAILURE), k') ∧
    trace k' =
      trace k ++ [EvPipe (Some p0); EvPipe (Some p1); EvPipe (Some p2)] ++
      (EvFork <$> pids_from (next_pid k) i) ++
      [EvFork (-1); EvStderr FORK_ERR; EvExit EXIT_FAILURE] ∧
    children k' = children k ++ pids_from (next_pid k) i.
Proof.
  intros Hpipes Hi Hforks Hfail.
  destruct (sys_pipe_granted _ _ Hpipes) as [Hp0 Hpipes1].
  destruct (sys_pipe_granted _ _ Hpipes1) as [Hp1 Hpipes2].
  destruct (sys_pipe_granted _ _ Hpipes2) as [Hp2 _].
  set (p0 := new_pipe k) in *. set (k1 := piped k) in *.
  set (p1 := new_pipe k1) in *. set (k2 := piped k1) in *.
  set (p2 := new_pipe k2) in *. set (k3 := piped k2) in *.
  assert (Hforks3 : forks_in_parent i k3) by exact Hforks.
  assert (Hfail3 : fork_as (future k3) !! i = Some ForkFails) by exact Hfail.
  assert (Htr3 : trace k3 =
            trace k ++ [EvPipe (Some p0); EvPipe (Some p1); EvPipe (Some p2)]).
  { unfold k3, k2, k1. autorewrite with kernel. by rewrite <- !app_assoc. }
  assert (Hch3 : children k3 = children k) by done.
  assert (Hpid3 : next_pid k3 = next_pid k) by done.
  clearbody k3. clear Hforks Hfail.
  destruct i as [|[|[|[|i]]]]; [| | |  |lia].
  - exists (fork_refused k3), p0, p1, p2. split.
    { unfold doublePipe. run_by Hp0. run_by Hp1. run_by Hp2.
      erewrite bind_halt; [reflexivity|]. apply launch_fork_refused.
      by destruct (fork_as (future k3)). }
    rewrite trace_fork_refused, children_fork_refused, Htr3, Hch3.
    cbn. by rewrite <- !app_assoc, app_nil_r.
  - destruct (launch_parent_run cmd1 (snd p0) STDOUT_FILENO [p0; p1; p2] 3 _ _ Hforks3)
      as [Hl1 _].
    exists (fork_refused (forked k3)), p0, p1, p2. split.
    { unfold doublePipe. run_by Hp0. run_by Hp1. run_by Hp2. run_by Hl1.
      erewrite bind_run
        by (apply sys_fork_refused; rewrite fork_as_forked;
            by destruct (fork_as (future k3)) as [|? [|? ?]]).
      cbn beta iota. cbn [when Z.eqb]. by erewrite bind_halt by reflexivity. }
    rewrite trace_fork_refused, children_fork_refused.
    autorewrite with kernel. rewrite Htr3, Hch3, Hpid3.
    cbn. by rewrite <- !app_assoc.
  - destruct (launch_parent_run cmd1 (snd p0) STDOUT_FILENO [p0; p1; p2] 3 _ _ Hforks3)
      as [Hl1 Hforks4].
    destruct (sys_fork_parent _ _ Hforks4) as [Hf2 _].
    exists (fork_refused (forked (forked k3))), p0, p1, p2. split.
    { unfold doublePipe. run_by Hp0. run_by Hp1. run_by Hp2. run_by Hl1. run_by Hf2.
      cbn [when Z.eqb]. run_ret. run_ret.
      erewrite bind_halt; [reflexivity|]. apply launch_fork_refused.
      rewrite !fork_as_forked.
      by destruct (fork_as (future k3)) as [|? [|? [|? ?]]]. }
    rewrite trace_fork_refused, children_fork_refused.
    autorewrite with kernel. rewrite Htr3, Hch3, Hpid3.
    cbn. by rewrite <- !app_assoc.
  - destruct (launch_parent_run cmd1 (snd p0) STDOUT_FILENO [p0; p1; p2] 3 _ _ Hforks3)
      as [Hl1 Hforks4].
    destruct (sys_fork_parent _ _ Hforks4) as [Hf2 Hforks5].
    destruct (launch_parent_run cmd2 (fst p1) STDIN_FILENO [p0; p1; p2] 3 _ _ Hforks5)
      as [Hl3 _].
    exists (fork_refused (forked (forked (forked k3)))), p0, p1, p2. split.
    { unfold doublePipe. run_by Hp0. run_by Hp1. run_by Hp2. run_by Hl1. run_by Hf2.
      cbn [when Z.eqb]. run_ret. run_ret. run_by Hl3.
      erewrite bind_halt; [reflexivity|]. apply launch_fork_refused.
      rewrite !fork_as_forked.
      by destruct (fork_as (future k3)) as [|? [|? [|? [|? ?]]]]. }
    rewrite trace_fork_refused, children_fork_refused.
    autorewrite with kernel. rewrite Htr3, Hch3, Hpid3.
    cbn. by rewrite <- !app_assoc.
Qed.

(** ** A command that cannot be found *)

(** When the program of a command cannot be found, the child of
    [createAndExecuteProcess] still binds its stream and closes every
    listed descriptor first; [execvp] then returns, and the child reports
    the failure on the standard error stream and exits with
    [EXIT_FAILURE].  Nothing is passed to the parent but that exit
    status. *)
Theorem launch_child_reports_a_missing_program f args src tgt pipes k o :
  fork_in_child k → (length (f :: args) ≤ 9)%nat →
  fdt k !! src = Some o → 0 ≤ tgt → f ∉ programs k →
  let run := createAndExecuteProcess (slots (f :: args)) src tgt pipes (length pipes) k in
  fst run = Stop (Exited EXIT_FAILURE) ∧
  trace (snd run) =
    trace k ++ [EvFork 0; EvDup2 src tgt] ++ (EvClose <$> endpoints pipes) ++
    [EvExec (Arg f) (f :: args); EvStderr EXEC_ERR; EvExit EXIT_FAILURE].
Proof.
  intros Hchild Hlen Hsrc Htgt Hnone run. subst run. unfold createAndExecuteProcess.
  run_with sys_fork_child. cbn [when Z.eqb]. run_ret.
  erewrite bind_run by (apply sys_dup2_bound; [by rewrite fdt_born|done]).
  cbn beta iota.
  replace (tgt =? -1) with false by (symmetry; apply Z.eqb_neq; lia).
  cbn [when]. run_ret. run_with closePipes_run.
  set (k3 := closing _ _).
  assert (Htr : trace k3 =
            trace k ++ [EvFork 0; EvDup2 src tgt] ++ (EvClose <$> endpoints pipes)).
  { unfold k3. rewrite trace_closing. ksimpl. by rewrite <- !app_assoc. }
  assert (Hprogs : programs k3 = programs k) by done.
  clearbody k3.
  change (default Garbage (slots (f :: args) !! 0%nat)) with (Arg f).
  assert (Hexec : sys_execvp (Arg f) (slots (f :: args)) k3 =
            (Ret (-1), log (EvExec (Arg f) (f :: args)) k3)).
  { unfold sys_execvp. rewrite argv_of_slots.
    by rewrite bool_decide_eq_false_2 by (by rewrite Hprogs). }
  run_by Hexec. cbn [when Z.eqb Pos.eqb].
  unfold bind, perror, sys_exit. cbn [fst snd]. split; [done|].
  ksimpl. rewrite Htr. by rewrite <- !app_assoc.
Qed.

(** ** The exit status of [dp] *)

(** For a command line of three commands that fit their arrays, in the
    parent, with the pipes granted and the forks successful: [main] ends
    with exit status 0.  Neither the statuses the children end with nor
    whether their programs could be executed at all has any influence on
    it; the statuses are read by [wait] and dropped. *)
Theorem main_exits_zero_whatever_the_children_do prog c1 c2 c3 k :
  ":" ∉ c1 → ":" ∉ c2 → c3 ≠ [] →
  (length c1 ≤ 9)%nat → (length c2 ≤ 9)%nat → (length c3 ≤ 9)%nat →
  pipes_granted 3 k → forks_in_parent 4 k →
  ∃ k' p0 p1 p2 order,
    main (prog :: c1 ++ ":" :: c2 ++ ":" :: c3) k = (Stop (Exited 0), k') ∧
    trace k' =
      trace k ++ [EvPipe (Some p0); EvPipe (Some p1); EvPipe (Some p2)] ++
      (EvFork <$> pids_from (next_pid k) 4) ++
      (EvClose <$> endpoints [p0; p1; p2]) ++
      ((λ pid, EvWait pid (Some (child_status k pid))) <$> order) ++
      [EvExit 0] ∧
    length order = 4%nat.
Proof.
  intros H1 H2 H3 L1 L2 L3 Hpipes Hforks.
  rewrite main_enters_doublePipe by done.
  destruct (doublePipe_parent_run (slots c1) (slots c2) (slots c3) k Hpipes Hforks)
    as (k' & p0 & p1 & p2 & order & Hrun & Htr & Hfour & _).
  eexists _, p0, p1, p2, order. erewrite bind_run by exact Hrun. cbn beta.
  split; [reflexivity|]. split; [|done].
  ksimpl. rewrite Htr. by rewrite <- !app_assoc.
Qed.

(** ** What the relay does with the bytes *)

Lemma sys_read_pipe fd a k :
  fdt k !! fd = Some (PipeR a) →
  let due := default [] (inflow k !! a) in
  ∃ n k',
    (1 ≤ n)%nat ∧
    sys_read fd 1024 k = (Ret (Z.of_nat (length (take n due)), take n due), k') ∧
    fdt k' = fdt k ∧ outflow k' = outflow k ∧
    inflow k' !! a = Some (drop n due).
Proof.
  intros Hfd due.
  exists (Nat.min 1024 (Nat.max 1 (default 1024%nat (head (read_sz (future k)))))).
  eexists. split; [lia|]. unfold sys_read. rewrite Hfd. split; [reflexivity|].
  ksimpl. split; [done|]. split; [done|]. by rewrite lookup_insert_eq.
Qed.

Lemma sys_write_sends fd buffer k b :
  fdt k !! fd = Some (PipeW b) →
  ∃ r k' m,
    sys_write fd buffer (Z.of_nat (length buffer)) k = (Ret r, k') ∧
    sent k' b = sent k b ++ take m buffer ∧
    (∀ id, id ≠ b → sent k' id = sent k id) ∧
    fdt k' = fdt k ∧ inflow k' = inflow k.
Proof.
  intros Hfd. unfold sys_write. rewrite Hfd, Nat2Z.id, firstn_all.
  destruct (head (write_acc (future k))) as [[|n|]|].
  - eexists _, _, (length buffer). split; [reflexivity|]. unfold sent. ksimpl.
    rewrite lookup_insert_eq, firstn_all. split; [done|]. split; [|done].
    intros id Hid. by rewrite lookup_insert_ne.
  - eexists _, _, n. split; [reflexivity|]. unfold sent. ksimpl.
    rewrite lookup_insert_eq. split; [done|]. split; [|done].
    intros id Hid. by rewrite lookup_insert_ne.
  - eexists _, _, O. split; [reflexivity|]. unfold sent. ksimpl.
    by rewrite take_0, app_nil_r.
  - eexists _, _, (length buffer). split; [reflexivity|]. unfold sent. ksimpl.
    rewrite lookup_insert_eq, firstn_all. split; [done|]. split; [|done].
    intros id Hid. by rewrite lookup_insert_ne.
Qed.

Section RelayBytes.
Variables fd_in fd_leg1 fd_leg2 : Z.
(** The pipes behind the three descriptors. *)
Variables a b c : nat.
Hypothesis legs_differ : b ≠ c.

Lemma relay_loop_sends budget : ∀ k k',
  fdt k !! fd_in = Some (PipeR a) →
  fdt k !! fd_leg1 = Some (PipeW b) →
  fdt k !! fd_leg2 = Some (PipeW c) →
  relay_loop budget fd_in fd_leg1 fd_leg2 k = (Ret tt, k') →
  ∃ s1 s2,
    sent k' b = sent k b ++ s1 ∧ sent k' c = sent k c ++ s2 ∧
    s1 `sublist_of` default [] (inflow k !! a) ∧
    s2 `sublist_of` default [] (inflow k !! a) ∧
    (∀ id, id ≠ b → id ≠ c → sent k' id = sent k id) ∧
    inflow k' !! a = Some [].
Proof.
  induction budget as [|budget IH]; intros k k' Hin H1 H2; [done|].
  cbn [relay_loop].
  destruct (sys_read_pipe fd_in a k Hin) as (n & k1 & Hn & Hread & Hfdt1 & Hout1 & Hin1).
  set (due := default [] (inflow k !! a)) in *.
  run_by Hread. cbn [fst snd].
  assert (Hsent1 : ∀ id, sent k1 id = sent k id).
  { intros id. unfold sent. by rewrite Hout1. }
  destruct (decide (due = [])) as [Hnil|Hsome].
  { rewrite Hnil, take_nil. cbn [length Z.of_nat Z.ltb Z.compare]. cbv iota.
    intros [= <-]. exists [], []. rewrite !app_nil_r, !Hsent1.
    rewrite Hnil, drop_nil in Hin1. by repeat split. }
  assert (Hpos : (0 <? Z.of_nat (length (take n due))) = true).
  { apply Z.ltb_lt. destruct due; [done|]. destruct n; [lia|simpl; lia]. }
  rewrite Hpos.
  destruct (sys_write_sends fd_leg1 (take n due) k1 b) as
    (r1 & k2 & m1 & Hw1 & Hb2 & Hoth2 & Hfdt2 & Hin2).
  { by rewrite Hfdt1. }
  destruct (sys_write_sends fd_leg2 (take n due) k2 c) as
    (r2 & k3 & m2 & Hw2 & Hc3 & Hoth3 & Hfdt3 & Hin3).
  { by rewrite Hfdt2, Hfdt1. }
  run_by Hw1. run_by Hw2. intros Hrest.
  destruct (IH k3 k') as (s1 & s2 & Hb & Hc & Hs1 & Hs2 & Hoth & Hdrained); [..|exact Hrest|].
  1-3: by rewrite Hfdt3, Hfdt2, Hfdt1.
  rewrite Hin3, Hin2, Hin1 in Hs1, Hs2. cbn [default] in Hs1, Hs2.
  exists (take m1 (take n due) ++ s1), (take m2 (take n due) ++ s2).
  split.
  { rewrite Hb, (Hoth3 b) by done. rewrite Hb2, Hsent1. by rewrite <- app_assoc. }
  split.
  { rewrite Hc, Hc3, (Hoth2 c) by done. rewrite Hsent1. by rewrite <- app_assoc. }
  split.
  { rewrite <- (take_drop n due) at 2. apply sublist_app; [|done].
    apply sublist_take. }
  split.
  { rewrite <- (take_drop n due) at 2. apply sublist_app; [|done].
    apply sublist_take. }
  split; [|done].
  intros id Hidb Hidc. rewrite Hoth, Hoth3, Hoth2, Hsent1 by done. done.
Qed.

Lemma relay_sends k k' :
  fdt k !! fd_in = Some (PipeR a) →
  fdt k !! fd_leg1 = Some (PipeW b) →
  fdt k !! fd_leg2 = Some (PipeW c) →
  relay fd_in fd_leg1 fd_leg2 k = (Ret tt, k') →
  ∃ s1 s2,
    sent k' b = sent k b ++ s1 ∧ sent k' c = sent k c ++ s2 ∧
    s1 `sublist_of` default [] (inflow k !! a) ∧
    s2 `sublist_of` default [] (inflow k !! a) ∧
    (∀ id, id ≠ b → id ≠ c → sent k' id = sent k id) ∧
    inflow k' !! a = Some [].
Proof. unfold relay. apply relay_loop_sends. Qed.

End RelayBytes.

Lemma tee_steps head_to_tee tee_to_leg1 tee_to_leg2 k k2 :
  relay (fst head_to_tee) (snd tee_to_leg1) (snd tee_to_leg2)
    (closing [snd head_to_tee; fst tee_to_leg1; fst tee_to_leg1] k) = (Ret tt, k2) →
  tee head_to_tee tee_to_leg1 tee_to_leg2 k =
    (Stop (Exited 0),
     log (EvExit 0)
       (set_fdt ∅ (closing [fst head_to_tee; snd tee_to_leg1; snd tee_to_leg1] k2))).
Proof.
  intros Hrelay. unfold tee.
  destruct (sys_close_run (snd head_to_tee) k) as [r1 H1]. run_by H1.
  destruct (sys_close_run (fst tee_to_leg1) (closing [snd head_to_tee] k)) as [r2 H2].
  run_by H2. rewrite closing_app.
  destruct (sys_close_run (fst tee_to_leg1)
              (closing ([snd head_to_tee] ++ [fst tee_to_leg1]) k)) as [r3 H3].
  run_by H3. rewrite closing_app. run_by Hrelay.
  destruct (sys_close_run (fst head_to_tee) k2) as [r4 H4]. run_by H4.
  destruct (sys_close_run (snd tee_to_leg1) (closing [fst head_to_tee] k2)) as [r5 H5].
  run_by H5. rewrite closing_app.
  destruct (sys_close_run (snd tee_to_leg1)
              (closing ([fst head_to_tee] ++ [snd tee_to_leg1]) k2)) as [r6 H6].
  run_by H6. rewrite closing_app. done.
Qed.

(** The relay child up to and after its loop: the state [k5] in which the
    loop starts, with the three descriptors the loop uses, and the state
    [k6] in which it ends. *)
Lemma relay_child_steps cmd1 cmd2 cmd3 k :
  pipes_granted 3 k → relay_role k →
  let p0 := new_pipe k in
  let p1 := new_pipe (piped k) in
  let p2 := new_pipe (piped (piped k)) in
  ∃ k5 k6 k',
    doublePipe cmd1 cmd2 cmd3 k = (Stop (Exited 0), k') ∧
    relay (fst p0) (snd p1) (snd p2) k5 = (Ret tt, k6) ∧
    fdt k5 !! fst p0 = Some (PipeR (npipes k)) ∧
    fdt k5 !! snd p1 = Some (PipeW (S (npipes k))) ∧
    fdt k5 !! snd p2 = Some (PipeW (S (S (npipes k)))) ∧
    inflow k5 = inflow k ∧ (∀ id, sent k5 id = sent k id) ∧
    inflow k' = inflow k6 ∧ (∀ id, sent k' id = sent k6 id).
Proof.
  intros Hpipes Hrole p0 p1 p2.
  destruct (sys_pipe_granted _ _ Hpipes) as [Hp0 Hpipes1].
  destruct (sys_pipe_granted _ _ Hpipes1) as [Hp1 Hpipes2].
  destruct (sys_pipe_granted _ _ Hpipes2) as [Hp2 _].
  fold p0 in Hp0. fold p1 in Hp1. fold p2 in Hp2.
  set (k3 := piped (piped (piped k))) in *.
  assert (Hrole3 : relay_role k3) by exact Hrole.
  destruct (launch_parent_run cmd1 (snd p0) STDOUT_FILENO [p0; p1; p2] 3 _ _ (proj1 Hrole3))
    as [Hl1 _].
  pose proof (sys_fork_child _ (relay_role_second_fork _ Hrole3)) as Hf2.
  set (k5 := born (forked k3)) in *.
  set (k5c := closing [snd p0; fst p1; fst p1] k5).
  destruct (relay_run (fst p0) (snd p1) (snd p2) k5c) as (k6 & evs & Hrelay & _).
  pose proof (tee_steps p0 p1 p2 k5 k6 Hrelay) as Htee.
  destruct (three_pipes_wired k) as (Hnd & R0 & W0 & R1 & W1 & R2 & W2 & _).
  fold p0 p1 p2 k3 in Hnd, R0, W0, R1, W1, R2, W2.
  assert (Hkeep : ∀ fd o, fdt k3 !! fd = Some o →
            fd ≠ snd p0 → fd ≠ fst p1 → fdt k5c !! fd = Some o).
  { intros fd o Hfd N1 N2. unfold k5c. rewrite lookup_closing.
    rewrite decide_False; [by unfold k5; autorewrite with kernel|].
    rewrite !elem_of_cons, elem_of_nil. by intros [?|[?|[?|[]]]]. }
  exists k5c, k6. eexists. split.
  { unfold doublePipe. run_by Hp0. run_by Hp1. run_by Hp2. run_by Hl1. run_by Hf2.
    cbn [when Z.eqb]. run_ret. by erewrite bind_halt by exact Htee. }
  split; [exact Hrelay|]. split.
  { apply Hkeep; [done| |]; intros Heq; rewrite Heq in R0.
    - by rewrite W0 in R0.
    - rewrite R1 in R0. injection R0. lia. }
  split.
  { apply Hkeep; [done| |]; intros Heq; rewrite Heq in W1.
    - rewrite W0 in W1. injection W1. lia.
    - by rewrite R1 in W1. }
  split.
  { apply Hkeep; [done| |]; intros Heq; rewrite Heq in W2.
    - rewrite W0 in W2. injection W2. lia.
    - by rewrite R1 in W2. }
  split; [by unfold k5c, k5, k3; autorewrite with kernel|].
  split; [intros id; by unfold k5c, k5, k3; autorewrite with kernel|].
  split; [done|]. intros id. done.
Qed.

(** Whatever the kernel accepts of each [write], the relay child sends to
    each leg a subsequence of the bytes the head produced: bytes are lost
    when a write is short or refused, but none is invented, repeated or
    moved, and no other pipe is written.  The child exits with status 0 in
    every case; nothing tells its parent or the legs that bytes were
    lost. *)
Theorem relay_sends_each_leg_a_subsequence cmd1 cmd2 cmd3 k :
  pipes_granted 3 k → relay_role k →
  let due := default [] (inflow k !! npipes k) in
  ∃ k' s1 s2,
    doublePipe cmd1 cmd2 cmd3 k = (Stop (Exited 0), k') ∧
    sent k' (S (npipes k)) = sent k (S (npipes k)) ++ s1 ∧
    sent k' (S (S (npipes k))) = sent k (S (S (npipes k))) ++ s2 ∧
    s1 `sublist_of` due ∧ s2 `sublist_of` due ∧
    (∀ id, id ≠ S (npipes k) → id ≠ S (S (npipes k)) → sent k' id = sent k id).
Proof.
  intros Hpipes Hrole due.
  destruct (relay_child_steps cmd1 cmd2 cmd3 k Hpipes Hrole)
    as (k5 & k6 & k' & Hrun & Hrelay & Hin & Hl1 & Hl2 & Hflow & Hsent5 & _ & Hsent').
  destruct (relay_sends _ _ _ (npipes k) (S (npipes k)) (S (S (npipes k)))
              ltac:(lia) k5 k6 Hin Hl1 Hl2 Hrelay)
    as (s1 & s2 & Hb & Hc & Hs1 & Hs2 & Hoth & _).
  rewrite Hflow in Hs1, Hs2.
  exists k', s1, s2. split; [exact Hrun|].
  rewrite !Hsent', Hb, Hc, !Hsent5. repeat split; try done.
  intros id N1 N2. by rewrite Hsent', Hoth, Hsent5.
Qed.

(** The relay child reads the head's pipe until nothing is left: when it
    exits, every byte the head produced has been taken from the pipe,
    whether or not the legs accepted it. *)
Theorem relay_drains_the_head_pipe cmd1 cmd2 cmd3 k :
  pipes_granted 3 k → relay_role k →
  ∃ k',
    doublePipe cmd1 cmd2 cmd3 k = (Stop (Exited 0), k') ∧
    inflow k' !! npipes k = Some [].
Proof.
  intros Hpipes Hrole.
  destruct (relay_child_steps cmd1 cmd2 cmd3 k Hpipes Hrole)
    as (k5 & k6 & k' & Hrun & Hrelay & Hin & Hl1 & Hl2 & _ & _ & Hflow' & _).
  destruct (relay_sends _ _ _ (npipes k) (S (npipes k)) (S (S (npipes k)))
              ltac:(lia) k5 k6 Hin Hl1 Hl2 Hrelay)
    as (_ & _ & _ & _ & _ & _ & _ & Hdrained).
  exists k'. split; [exact Hrun|]. by rewrite Hflow'.
Qed.

Lemma relay_trace_nothing_due fd_in fd_leg1 fd_leg2 evs :
  relay_trace fd_in fd_leg1 fd_leg2 [] evs → evs = [EvRead fd_in 1024 []].
Proof.
  intros H. remember [] as due eqn:Hdue.
  destruct H as [|block rest r1 r2 evs' Hne _ _]; [done|].
  by apply app_nil in Hdue as [-> _].
Qed.

(** A head that produces nothing: the relay child makes one [read], which
    returns 0, and not a single [write]; it closes its descriptors and
    exits with status 0, and no pipe has been sent a byte. *)
Theorem silent_head_means_one_read_and_no_write cmd1 cmd2 cmd3 k :
  pipes_granted 3 k → relay_role k →
  default [] (inflow k !! npipes k) = [] →
  ∃ k' p0 p1 p2,
    doublePipe cmd1 cmd2 cmd3 k = (Stop (Exited 0), k') ∧
    trace k' =
      trace k ++
      [EvPipe (Some p0); EvPipe (Some p1); EvPipe (Some p2);
       EvFork (Z.pos (next_pid k)); EvFork 0;
       EvClose (snd p0); EvClose (fst p1); EvClose (fst p1);
       EvRead (fst p0) 1024 [];
       EvClose (fst p0); EvClose (snd p1); EvClose (snd p1);
       EvExit 0] ∧
    (∀ id, sent k' id = sent k id).
Proof.
  intros Hpipes Hrole Hnone.
  destruct (relay_child_run cmd1 cmd2 cmd3 k Hpipes Hrole)
    as (k' & evs & Hrun & Htr & Hrel & _).
  rewrite Hnone in Hrel. apply relay_trace_nothing_due in Hrel. subst evs.
  destruct (relay_child_steps cmd1 cmd2 cmd3 k Hpipes Hrole)
    as (k5 & k6 & k'' & Hrun' & Hrelay & Hin & Hl1 & Hl2 & Hflow & Hsent5 & _ & Hsent').
  rewrite Hrun in Hrun'. injection Hrun' as <-.
  destruct (relay_sends _ _ _ (npipes k) (S (npipes k)) (S (S (npipes k)))
              ltac:(lia) k5 k6 Hin Hl1 Hl2 Hrelay)
    as (s1 & s2 & Hb & Hc & Hs1 & Hs2 & Hoth & _).
  rewrite Hflow, Hnone in Hs1, Hs2.
  apply sublist_nil_r in Hs1, Hs2. subst s1 s2. rewrite app_nil_r in Hb, Hc.
  eexists k', _, _, _. split; [exact Hrun|]. split; [exact Htr|].
  intros id. rewrite Hsent'.
  destruct (decide (id = S (npipes k))) as [->|N1]; [by rewrite Hb|].
  destruct (decide (id = S (S (npipes k)))) as [->|N2]; [by rewrite Hc|].
  by rewrite Hoth.
Qed.

(** ** The descriptors of the parent *)

Lemma sys_wait_frame k :
  ∃ r k', sys_wait k = (Ret r, k') ∧
          fdt k' = fdt k ∧ inflow k' = inflow k ∧ outflow k' = outflow k.
Proof. unfold sys_wait. destruct (children k); by eexists _, _. Qed.

Lemma wait_frame n : ∀ k,
  ∃ k', times n (sys_wait ;; ret tt) k = (Ret tt, k') ∧
        fdt k' = fdt k ∧ inflow k' = inflow k ∧ outflow k' = outflow k.
Proof.
  induction n as [|n IH]; intros k; [by exists k|].
  destruct (sys_wait_frame k) as (r & k1 & Hwait & Hfdt1 & Hin1 & Hout1).
  destruct (IH k1) as (k' & Hrest & Hfdt & Hin & Hout).
  exists k'. cbn [times].
  erewrite bind_run; [|by erewrite bind_run by exact Hwait].
  split; [exact Hrest|]. by rewrite Hfdt, Hin, Hout.
Qed.

(** In the parent, with the pipes granted and the forks successful,
    [doublePipe] returns with the descriptor table it was entered with:
    the six pipe descriptors are closed again and no other descriptor has
    been touched.  The parent itself has read from no pipe and written to
    none. *)
Theorem supervisor_leaves_descriptors_as_found cmd1 cmd2 cmd3 k :
  pipes_granted 3 k → forks_in_parent 4 k →
  ∃ k',
    doublePipe cmd1 cmd2 cmd3 k = (Ret 0, k') ∧
    fdt k' = fdt k ∧ inflow k' = inflow k ∧ outflow k' = outflow k.
Proof.
  intros Hpipes Hforks.
  destruct (sys_pipe_granted _ _ Hpipes) as [Hp0 Hpipes1].
  destruct (sys_pipe_granted _ _ Hpipes1) as [Hp1 Hpipes2].
  destruct (sys_pipe_granted _ _ Hpipes2) as [Hp2 _].
  destruct (three_pipes_wired k) as (_ & _ & _ & _ & _ & _ & _ & Hother & Hfresh).
  set (p0 := new_pipe k) in *. set (p1 := new_pipe (piped k)) in *.
  set (p2 := new_pipe (piped (piped k))) in *.
  set (k3 := piped (piped (piped k))) in *.
  assert (Hforks3 : forks_in_parent 4 k3) by exact Hforks.
  destruct (launch_parent_run cmd1 (snd p0) STDOUT_FILENO [p0; p1; p2] 3 _ _ Hforks3)
    as [Hl1 Hforks4].
  destruct (sys_fork_parent _ _ Hforks4) as [Hf2 Hforks5].
  destruct (launch_parent_run cmd2 (fst p1) STDIN_FILENO [p0; p1; p2] 3 _ _ Hforks5)
    as [Hl3 Hforks6].
  destruct (launch_parent_run cmd3 (fst p2) STDIN_FILENO [p0; p1; p2] 3 _ _ Hforks6)
    as [Hl4 _].
  set (k7 := forked (forked (forked (forked k3)))) in *.
  set (k8 := closing (endpoints [p0; p1; p2]) k7).
  destruct (wait_frame 4 k8) as (k' & Hwait & Hfdt & Hin & Hout).
  exists k'. split.
  { unfold doublePipe.
    run_by Hp0. run_by Hp1. run_by Hp2. run_by Hl1. run_by Hf2.
    cbn [when Z.eqb]. run_ret. run_ret. run_by Hl3. run_by Hl4.
    run_by (closePipes_run [p0; p1; p2] k7). fold k8. by run_by Hwait. }
  split; [|by rewrite Hin, Hout].
  rewrite Hfdt. apply map_eq. intros fd. unfold k8. rewrite lookup_closing.
  destruct (decide (fd ∈ endpoints [p0; p1; p2])) as [Hfd|Hfd].
  - by rewrite (Hfresh fd Hfd).
  - unfold k7. rewrite !fdt_forked. by apply Hother.
Qed.

(** ** The descriptors of the commands *)

(** The descriptor table each command starts with, for the three sides of
    the forks that lead into a command. *)
Lemma command_tables f args cmd1 cmd2 cmd3 k :
  pipes_granted 3 k → f ∈ programs k →
  let p0 := new_pipe k in
  let p1 := new_pipe (piped k) in
  let p2 := new_pipe (piped (piped k)) in
  let fds := endpoints [p0; p1; p2] in
  let m := fdt (piped (piped (piped k))) in
  (fork_in_child k →
   ∃ k', doublePipe (slots (f :: args)) cmd2 cmd3 k = (Stop (Execed f (f :: args)), k') ∧
         ∀ fd, fdt k' !! fd =
               bound_then_closed STDOUT_FILENO (PipeW (npipes k)) fds m fd) ∧
  (forks_in_parent 2 k → fork_as (future k) !! 2%nat = Some ForkChild →
   ∃ k', doublePipe cmd1 (slots (f :: args)) cmd3 k = (Stop (Execed f (f :: args)), k') ∧
         ∀ fd, fdt k' !! fd =
               bound_then_closed STDIN_FILENO (PipeR (S (npipes k))) fds m fd) ∧
  (forks_in_parent 3 k → fork_as (future k) !! 3%nat = Some ForkChild →
   ∃ k', doublePipe cmd1 cmd2 (slots (f :: args)) k = (Stop (Execed f (f :: args)), k') ∧
         ∀ fd, fdt k' !! fd =
               bound_then_closed STDIN_FILENO (PipeR (S (S (npipes k)))) fds m fd).
Proof.
  intros Hpipes Hprog.
  destruct (sys_pipe_granted _ _ Hpipes) as [Hp0 Hpipes1].
  destruct (sys_pipe_granted _ _ Hpipes1) as [Hp1 Hpipes2].
  destruct (sys_pipe_granted _ _ Hpipes2) as [Hp2 _].
  destruct (three_pipes_wired k) as (_ & _ & W0 & R1 & _ & R2 & _ & _ & _).
  set (p0 := new_pipe k) in *. set (p1 := new_pipe (piped k)) in *.
  set (p2 := new_pipe (piped (piped k))) in *.
  set (k3 := piped (piped (piped k))) in *.
  intros fds m. subst fds m.
  assert (Hprog3 : f ∈ programs k3) by exact Hprog.
  unfold bound_then_closed.
  split; [|split].
  - intros Hchild. assert (Hchild3 : fork_in_child k3) by exact Hchild.
    destruct (launch_child_exec_run f args (snd p0) STDOUT_FILENO [p0; p1; p2] k3 _
                Hchild3 W0 ltac:(done) Hprog3) as (k' & Hrun & Hfdt).
    exists k'. split; [|exact Hfdt].
    unfold doublePipe. run_by Hp0. run_by Hp1. run_by Hp2.
    by erewrite bind_halt by exact Hrun.
  - intros Hforks Hchild. assert (Hforks3 : forks_in_parent 2 k3) by exact Hforks.
    destruct (launch_parent_run cmd1 (snd p0) STDOUT_FILENO [p0; p1; p2] 3 _ _ Hforks3)
      as [Hl1 Hforks4].
    destruct (sys_fork_parent _ _ Hforks4) as [Hf2 _].
    assert (Hchild3 : fork_as (future k3) !! 2%nat = Some ForkChild) by exact Hchild.
    pose proof (third_fork_in_child k3 Hforks3 Hchild3) as Hchild5.
    assert (R1' : fdt (forked (forked k3)) !! fst p1 = Some (PipeR (S (npipes k))))
      by (by rewrite !fdt_forked).
    assert (Hprog5 : f ∈ programs (forked (forked k3))) by exact Hprog.
    destruct (launch_child_exec_run f args (fst p1) STDIN_FILENO [p0; p1; p2] _ _
                Hchild5 R1' ltac:(done) Hprog5) as (k' & Hrun & Hfdt).
    exists k'. split.
    { unfold doublePipe. run_by Hp0. run_by Hp1. run_by Hp2. run_by Hl1. run_by Hf2.
      cbn [when Z.eqb]. run_ret. run_ret. by erewrite bind_halt by exact Hrun. }
    intros fd. rewrite Hfdt. by rewrite !fdt_forked.
  - intros Hforks Hchild. assert (Hforks3 : forks_in_parent 3 k3) by exact Hforks.
    destruct (launch_parent_run cmd1 (snd p0) STDOUT_FILENO [p0; p1; p2] 3 _ _ Hforks3)
      as [Hl1 Hforks4].
    destruct (sys_fork_parent _ _ Hforks4) as [Hf2 Hforks5].
    destruct (launch_parent_run cmd2 (fst p1) STDIN_FILENO [p0; p1; p2] 3 _ _ Hforks5)
      as [Hl3 _].
    assert (Hchild6 : fork_in_child (forked (forked (forked k3)))).
    { unfold fork_in_child, forked. ksimpl. unfold k3. ksimpl.
      by destruct (fork_as (future k)) as [|? [|? [|? [|? ?]]]]. }
    assert (R2' : fdt (forked (forked (forked k3))) !! fst p2 =
                  Some (PipeR (S (S (npipes k))))) by (by rewrite !fdt_forked).
    assert (Hprog6 : f ∈ programs (forked (forked (forked k3)))) by exact Hprog.
    destruct (launch_child_exec_run f args (fst p2) STDIN_FILENO [p0; p1; p2] _ _
                Hchild6 R2' ltac:(done) Hprog6) as (k' & Hrun & Hfdt).
    exists k'. split.
    { unfold doublePipe. run_by Hp0. run_by Hp1. run_by Hp2. run_by Hl1. run_by Hf2.
      cbn [when Z.eqb]. run_ret. run_ret. run_by Hl3.
      by erewrite bind_halt by exact Hrun. }
    intros fd. rewrite Hfdt. by rewrite !fdt_forked.
Qed.

Lemma followed_into_head k : fork_in_child (followed into_head k).
Proof. done. Qed.

Lemma bound_then_closed_streams_open tgt o k :
  is_Some (fdt k !! tgt) →
  let fds := endpoints [new_pipe k; new_pipe (piped k); new_pipe (piped (piped k))] in
  ∀ m', (∀ fd, m' !! fd =
               bound_then_closed tgt o fds (fdt (piped (piped (piped k)))) fd) →
        m' = <[tgt := o]> (fdt k).
Proof.
  intros [o' Hopen] fds m' Hm'.
  destruct (three_pipes_wired k) as (_ & _ & _ & _ & _ & _ & _ & Hother & Hfresh).
  fold fds in Hother, Hfresh.
  apply map_eq. intros fd. rewrite Hm'. unfold bound_then_closed.
  destruct (decide (fd ∈ fds)) as [Hfd|Hfd].
  - rewrite lookup_insert_ne; [by rewrite (Hfresh fd Hfd)|].
    intros <-. by rewrite (Hfresh tgt Hfd) in Hopen.
  - destruct (decide (tgt = fd)) as [->|Hne].
    + by rewrite !lookup_insert_eq.
    + rewrite !lookup_insert_ne by done. by apply Hother.
Qed.

(** Started with its standard input and output open, [dp] hands each
    command the descriptor table it was started with, changed in one
    place only: the head's standard output is the write end of the first
    pipe, each leg's standard input is the read end of that leg's pipe.
    No command inherits any other pipe descriptor. *)
Theorem commands_inherit_their_stream_and_no_other_pipe_end f1 a1 f2 a2 f3 a3 k :
  pipes_granted 3 k →
  is_Some (fdt k !! STDIN_FILENO) → is_Some (fdt k !! STDOUT_FILENO) →
  f1 ∈ programs k → f2 ∈ programs k → f3 ∈ programs k →
  let cmd1 := slots (f1 :: a1) in
  let cmd2 := slots (f2 :: a2) in
  let cmd3 := slots (f3 :: a3) in
  (∃ k', doublePipe cmd1 cmd2 cmd3 (followed into_head k) =
           (Stop (Execed f1 (f1 :: a1)), k') ∧
         fdt k' = <[STDOUT_FILENO := PipeW (npipes k)]> (fdt k)) ∧
  (∃ k', doublePipe cmd1 cmd2 cmd3 (followed into_leg1 k) =
           (Stop (Execed f2 (f2 :: a2)), k') ∧
         fdt k' = <[STDIN_FILENO := PipeR (S (npipes k))]> (fdt k)) ∧
  (∃ k', doublePipe cmd1 cmd2 cmd3 (followed into_leg2 k) =
           (Stop (Execed f3 (f3 :: a3)), k') ∧
         fdt k' = <[STDIN_FILENO := PipeR (S (S (npipes k)))]> (fdt k)).
Proof.
  intros Hpipes Hin Hout H1 H2 H3 cmd1 cmd2 cmd3.
  split; [|split].
  - destruct (command_tables f1 a1 cmd1 cmd2 cmd3 (followed into_head k)
                (followed_pipes_granted _ _ _ Hpipes) H1) as (Hhead & _).
    destruct (Hhead (followed_into_head k)) as (k' & Hrun & Hfdt).
    exists k'. split; [exact Hrun|].
    by apply (bound_then_closed_streams_open STDOUT_FILENO _ k Hout).
  - destruct (command_tables f2 a2 cmd1 cmd2 cmd3 (followed into_leg1 k)
                (followed_pipes_granted _ _ _ Hpipes) H2) as (_ & Hleg & _).
    destruct (followed_into_leg1 k) as [Hforks Hchild].
    destruct (Hleg Hforks Hchild) as (k' & Hrun & Hfdt).
    exists k'. split; [exact Hrun|].
    by apply (bound_then_closed_streams_open STDIN_FILENO _ k Hin).
  - destruct (command_tables f3 a3 cmd1 cmd2 cmd3 (followed into_leg2 k)
                (followed_pipes_granted _ _ _ Hpipes) H3) as (_ & _ & Hleg).
    destruct (followed_into_leg2 k) as [Hforks Hchild].
    destruct (Hleg Hforks Hchild) as (k' & Hrun & Hfdt).
    exists k'. split; [exact Hrun|].
    by apply (bound_then_closed_streams_open STDIN_FILENO _ k Hin).
Qed.

Lemma lowest_free_zero (m : gmap Z fdobj) : m !! 0 = None → lowest_free m = 0.
Proof.
  intros H0. unfold lowest_free. rewrite seqZ_cons by lia.
  cbn [List.find]. by rewrite bool_decide_eq_true_2.
Qed.

(** Started with descriptor 0 closed, [dp] gets descriptor 0 as the read
    end of its first pipe.  Each leg binds its own pipe onto descriptor 0
    and then closes every listed pipe descriptor, descriptor 0 among
    them: both legs' commands start without a standard input. *)
Theorem started_without_stdin_the_legs_get_none f1 a1 f2 a2 f3 a3 k :
  pipes_granted 3 k → fdt k !! STDIN_FILENO = None →
  f2 ∈ programs k → f3 ∈ programs k →
  let cmd1 := slots (f1 :: a1) in
  let cmd2 := slots (f2 :: a2) in
  let cmd3 := slots (f3 :: a3) in
  fst (new_pipe k) = STDIN_FILENO ∧
  (∃ k', doublePipe cmd1 cmd2 cmd3 (followed into_leg1 k) =
           (Stop (Execed f2 (f2 :: a2)), k') ∧
         fdt k' !! STDIN_FILENO = None) ∧
  (∃ k', doublePipe cmd1 cmd2 cmd3 (followed into_leg2 k) =
           (Stop (Execed f3 (f3 :: a3)), k') ∧
         fdt k' !! STDIN_FILENO = None).
Proof.
  intros Hpipes Hclosed H2 H3 cmd1 cmd2 cmd3.
  assert (Hfst : fst (new_pipe k) = STDIN_FILENO) by (by apply lowest_free_zero).
  assert (Hin : STDIN_FILENO ∈
                endpoints [new_pipe k; new_pipe (piped k); new_pipe (piped (piped k))]).
  { rewrite <- Hfst. cbn [endpoints flat_map app]. apply elem_of_cons. by left. }
  split; [exact Hfst|]. split.
  - destruct (command_tables f2 a2 cmd1 cmd2 cmd3 (followed into_leg1 k)
                (followed_pipes_granted _ _ _ Hpipes) H2) as (_ & Hleg & _).
    destruct (followed_into_leg1 k) as [Hforks Hchild].
    destruct (Hleg Hforks Hchild) as (k' & Hrun & Hfdt).
    exists k'. split; [exact Hrun|].
    rewrite Hfdt. unfold bound_then_closed. by rewrite decide_True.
  - destruct (command_tables f3 a3 cmd1 cmd2 cmd3 (followed into_leg2 k)
                (followed_pipes_granted _ _ _ Hpipes) H3) as (_ & _ & Hleg).
    destruct (followed_into_leg2 k) as [Hforks Hchild].
    destruct (Hleg Hforks Hchild) as (k' & Hrun & Hfdt).
    exists k'. split; [exact Hrun|].
    rewrite Hfdt. unfold bound_then_closed. by rewrite decide_True.
Qed.

Lemma lowest_free_one (m : gmap Z fdobj) :
  is_Some (m !! 0) → m !! 1 = None → lowest_free m = 1.
Proof.
  intros [o H0] H1. unfold lowest_free.
  assert (Hsize : size m ≠ 0%nat) by (by eapply map_size_ne_0_lookup_2; eexists).
  rewrite seqZ_cons by lia. cbn [List.find].
  rewrite bool_decide_eq_false_2 by (by rewrite H0).
  rewrite seqZ_cons by lia. cbn [List.find].
  by rewrite bool_decide_eq_true_2.
Qed.

(** Started with descriptor 1 closed (and descriptor 0 open), [dp] gets
    descriptor 1 as the read end of its first pipe.  The head binds the
    write end of that pipe onto descriptor 1 and then closes every listed
    pipe descriptor, descriptor 1 among them: the head command starts
    without a standard output. *)
Theorem started_without_stdout_the_head_gets_none f1 a1 cmd2 cmd3 k :
  pipes_granted 3 k →
  is_Some (fdt k !! STDIN_FILENO) → fdt k !! STDOUT_FILENO = None →
  f1 ∈ programs k →
  fst (new_pipe k) = STDOUT_FILENO ∧
  ∃ k', doublePipe (slots (f1 :: a1)) cmd2 cmd3 (followed into_head k) =
          (Stop (Execed f1 (f1 :: a1)), k') ∧
        fdt k' !! STDOUT_FILENO = None.
Proof.
  intros Hpipes Hopen Hclosed H1.
  assert (Hfst : fst (new_pipe k) = STDOUT_FILENO) by (by apply lowest_free_one).
  assert (Hin : STDOUT_FILENO ∈
                endpoints [new_pipe k; new_pipe (piped k); new_pipe (piped (piped k))]).
  { rewrite <- Hfst. cbn [endpoints flat_map app]. apply elem_of_cons. by left. }
  split; [exact Hfst|].
  destruct (command_tables f1 a1 (slots (f1 :: a1)) cmd2 cmd3 (followed into_head k)
              (followed_pipes_granted _ _ _ Hpipes) H1) as (Hhead & _).
  destruct (Hhead (followed_into_head k)) as (k' & Hrun & Hfdt).
  exists k'. split; [exact Hrun|].
  rewrite Hfdt. unfold bound_then_closed. by rewrite decide_True.
Qed.

(** ** From the command line to the commands *)

(** The first two commands are executed with exactly the tokens that stand
    before the first separator and between the two separators: the program
    is the first token, the argument vector is all of them, and neither
    the name [dp] was called by nor a separator is passed on. *)
Theorem main_runs_the_first_two_commands_with_their_tokens prog f1 a1 f2 a2 c3 k :
  ":" ∉ f1 :: a1 → ":" ∉ f2 :: a2 → c3 ≠ [] →
  (length (f1 :: a1) ≤ 9)%nat → (length (f2 :: a2) ≤ 9)%nat → (length c3 ≤ 9)%nat →
  pipes_granted 3 k → f1 ∈ programs k → f2 ∈ programs k →
  let argv := prog :: (f1 :: a1) ++ ":" :: (f2 :: a2) ++ ":" :: c3 in
  (∃ k', main argv (followed into_head k) = (Stop (Execed f1 (f1 :: a1)), k')) ∧
  (∃ k', main argv (followed into_leg1 k) = (Stop (Execed f2 (f2 :: a2)), k')).
Proof.
  intros N1 N2 N3 L1 L2 L3 Hpipes H1 H2 argv. subst argv.
  rewrite !main_enters_doublePipe by done.
  split.
  - destruct (command_tables f1 a1 (slots (f1 :: a1)) (slots (f2 :: a2)) (slots c3)
                (followed into_head k) (followed_pipes_granted _ _ _ Hpipes) H1)
      as (Hhead & _).
    destruct (Hhead (followed_into_head k)) as (k' & Hrun & _).
    exists k'. by erewrite bind_halt by exact Hrun.
  - destruct (command_tables f2 a2 (slots (f1 :: a1)) (slots (f2 :: a2)) (slots c3)
                (followed into_leg1 k) (followed_pipes_granted _ _ _ Hpipes) H2)
      as (_ & Hleg & _).
    destruct (followed_into_leg1 k) as [Hforks Hchild].
    destruct (Hleg Hforks Hchild) as (k' & Hrun & _).
    exists k'. by erewrite bind_halt by exact Hrun.
Qed.

(** The third command is everything after the second separator: the loop
    that copies it does not look for [":"], so a third separator and the
    tokens behind it do not start a fourth command but are passed to the
    third command as arguments. *)
Theorem third_command_takes_further_separators_as_arguments
    prog c1 c2 f3 before after k :
  ":" ∉ c1 → ":" ∉ c2 →
  (length c1 ≤ 9)%nat → (length c2 ≤ 9)%nat →
  (length (f3 :: before ++ ":" :: after) ≤ 9)%nat →
  pipes_granted 3 k → f3 ∈ programs k →
  ∃ k',
    main (prog :: c1 ++ ":" :: c2 ++ ":" :: f3 :: before ++ ":" :: after)
         (followed into_leg2 k) =
      (Stop (Execed f3 (f3 :: before ++ ":" :: after)), k').
Proof.
  intros N1 N2 L1 L2 L3 Hpipes H3.
  rewrite main_enters_doublePipe by done.
  destruct (command_tables f3 (before ++ ":" :: after) (slots c1) (slots c2)
              (slots (f3 :: before ++ ":" :: after))
              (followed into_leg2 k) (followed_pipes_granted _ _ _ Hpipes) H3)
    as (_ & _ & Hleg).
  destruct (followed_into_leg2 k) as [Hforks Hchild].
  destruct (Hleg Hforks Hchild) as (k' & Hrun & _).
  exists k'. by erewrite bind_halt by exact Hrun.
Qed.

(** * The theorems at work on sample runs *)

Ltac no_colon :=
  let H := fresh in
  intros H; repeat (apply elem_of_cons in H as [H|H]; [discriminate H|]);
  by apply elem_of_nil in H.

Lemma sample_pipes_granted o : pipe_ok o = [] → pipes_granted 3 (sample o).
Proof. intros Ho i _. cbn. rewrite Ho. by destruct i. Qed.

Lemma in_relay_role reads writes : relay_role (in_relay reads writes).
Proof.
  split; [|done]. intros i Hi. replace i with O by lia. by split.
Qed.

Lemma in_parent_forks n : forks_in_parent n in_parent.
Proof. intros i _. cbn. by destruct i. Qed.

(** The relay child of the sample run closes 4, 5, 5 and then 3, 6, 6; the
    descriptors 7 and 8 of the second leg's pipe are never closed. *)
Lemma relay_child_closes_witness :
  pipes_granted 3 (in_relay [] []) ∧ relay_role (in_relay [] []) ∧
  ∃ k' p0 p1 p2 after,
    doublePipe cmd_printf cmd_cat cmd_wc (in_relay [] []) = (Stop (Exited 0), k') ∧
    closed_fds after = [snd p0; fst p1; fst p1; fst p0; snd p1; snd p1] ∧
    NoDup (endpoints [p0; p1; p2]).
Proof.
  assert (Hp : pipes_granted 3 (in_relay [] [])) by (by apply sample_pipes_granted).
  assert (Hr : relay_role (in_relay [] [])) by apply in_relay_role.
  split; [exact Hp|]. split; [exact Hr|].
  destruct (relay_child_closes_leg1_twice_leg2_never cmd_printf cmd_cat cmd_wc _ Hp Hr)
    as (k' & p0 & p1 & p2 & after & Hrun & _ & Hclosed & Hnd & _).
  exists k', p0, p1, p2, after. split; [exact Hrun|]. split; [exact Hclosed|exact Hnd].
Defined.

Example relay_child_closes_sample :
  closed_fds (trace (snd (doublePipe cmd_printf cmd_cat cmd_wc (in_relay [] [])))) =
  [4; 5; 5; 3; 6; 6].
Proof. by vm_compute. Qed.

(** A short write on the first leg: two of the five bytes are accepted,
    the rest is never offered again. *)
Lemma short_write_is_not_retried :
  let run := doublePipe cmd_printf cmd_cat cmd_wc (in_relay [] [WriteSome 2]) in
  trace (snd run) =
    [EvPipe (Some (3, 4)); EvPipe (Some (5, 6)); EvPipe (Some (7, 8));
     EvFork 100; EvFork 0; EvClose 4; EvClose 5; EvClose 5;
     EvRead 3 1024 (s2b "abcde");
     EvWrite 6 (s2b "abcde") 2; EvWrite 8 (s2b "abcde") 5;
     EvRead 3 1024 [];
     EvClose 3; EvClose 6; EvClose 6; EvExit 0] ∧
  sent (snd run) 1 = s2b "ab" ∧
  sent (snd run) 1 ≠ s2b "abcde".
Proof. by vm_compute. Qed.

(** Started with descriptor 0 closed, [dp] gets descriptor 0 as the read
    end of its first pipe.  Every write of the relay is accepted in full
    and both leg pipes are sent "abcde"; but each leg, after binding the
    read end of its pipe onto descriptor 0, closes descriptor 0 with the
    other pipe descriptors, and its command starts without a standard
    input. *)
Lemma closed_stdin_leaves_the_legs_without_input :
  let relay_run := doublePipe cmd_printf cmd_cat cmd_wc (followed into_relay no_stdin) in
  let leg1_run := doublePipe cmd_printf cmd_cat cmd_wc (followed into_leg1 no_stdin) in
  let leg2_run := doublePipe cmd_printf cmd_cat cmd_wc (followed into_leg2 no_stdin) in
  pipes_granted 3 no_stdin ∧ writes_whole no_stdin ∧
  fdt no_stdin !! STDIN_FILENO = None ∧
  default [] (inflow no_stdin !! npipes no_stdin) = s2b "abcde" ∧
  fst relay_run = Stop (Exited 0) ∧
  sent (snd relay_run) 1 = s2b "abcde" ∧ sent (snd relay_run) 2 = s2b "abcde" ∧
  fst leg1_run = Stop (Execed "cat" ["cat"]) ∧
  trace (snd leg1_run) =
    [EvPipe (Some (0, 3)); EvPipe (Some (4, 5)); EvPipe (Some (6, 7));
     EvFork 100; EvFork 101; EvFork 0; EvDup2 4 0;
     EvClose 0; EvClose 3; EvClose 4; EvClose 5; EvClose 6; EvClose 7;
     EvExec (Arg "cat") ["cat"]] ∧
  fdt (snd leg1_run) !! STDIN_FILENO = None ∧
  fst leg2_run = Stop (Execed "wc" ["wc"; "-c"]) ∧
  fdt (snd leg2_run) !! STDIN_FILENO = None.
Proof.
  split; [intros i _; by destruct i|]. split; [constructor|].
  by vm_compute.
Qed.

Lemma fan_out_witness :
  pipes_granted 3 in_parent ∧ writes_whole in_parent ∧
  is_Some (fdt in_parent !! STDIN_FILENO) ∧ is_Some (fdt in_parent !! STDOUT_FILENO) ∧
  "printf" ∈ programs in_parent ∧ "cat" ∈ programs in_parent ∧
  "wc" ∈ programs in_parent ∧
  ∃ k',
    doublePipe cmd_printf cmd_cat cmd_wc (followed into_relay in_parent) =
      (Stop (Exited 0), k') ∧
    sent k' 1 = s2b "abcde" ∧ sent k' 2 = s2b "abcde".
Proof.
  assert (Hp : pipes_granted 3 in_parent) by (by apply sample_pipes_granted).
  assert (Hw : writes_whole in_parent) by constructor.
  assert (H0 : is_Some (fdt in_parent !! STDIN_FILENO)) by (by eexists).
  assert (H1 : is_Some (fdt in_parent !! STDOUT_FILENO)) by (by eexists).
  assert (Hf1 : "printf" ∈ programs in_parent) by (cbn; repeat constructor).
  assert (Hf2 : "cat" ∈ programs in_parent) by (cbn; repeat constructor).
  assert (Hf3 : "wc" ∈ programs in_parent) by (cbn; repeat constructor).
  do 7 (split; [assumption|]).
  destruct (fan_out_when_writes_are_whole "printf" ["abcde"] "cat" [] "wc" ["-c"]
              in_parent Hp Hw H0 H1 Hf1 Hf2 Hf3)
    as (_ & (k' & p0 & p1 & p2 & evs & Hrun & Hs1 & Hs2 & _) & _).
  exists k'. split; [exact Hrun|]. split; [exact Hs1|exact Hs2].
Defined.

(** The head of the sample run: standard output is bound to the write end
    of the first pipe, all six descriptors are closed, [printf] starts. *)
Lemma launch_child_witness :
  let k := piped (piped (piped in_head)) in
  let run := createAndExecuteProcess cmd_printf 4 STDOUT_FILENO sample_pipes
               (length sample_pipes) k in
  fork_in_child k ∧
  fdt k !! 4 = Some (PipeW 0) ∧ 0 ≤ STDOUT_FILENO ∧
  fst run = Stop (Execed "printf" ["printf"; "abcde"]) ∧
  trace (snd run) =
    trace k ++ [EvFork 0; EvDup2 4 STDOUT_FILENO] ++
    (EvClose <$> endpoints sample_pipes) ++
    [EvExec (Arg "printf") ["printf"; "abcde"]] ∧
  (∀ fd, fd ∈ endpoints sample_pipes → fdt (snd run) !! fd = None) ∧
  fdt (snd run) !! STDOUT_FILENO = Some (PipeW 0).
Proof.
  intros k run. subst run.
  assert (Hc : fork_in_child k) by reflexivity.
  assert (Hsrc : fdt k !! 4 = Some (PipeW 0)) by (vm_compute; reflexivity).
  assert (Htgt : 0 ≤ STDOUT_FILENO) by (unfold STDOUT_FILENO; lia).
  split; [exact Hc|]. split; [exact Hsrc|]. split; [exact Htgt|].
  destruct (launch_child_binds_then_closes cmd_printf 4 STDOUT_FILENO sample_pipes k Hc)
    as (_ & _ & Hbound).
  destruct (Hbound (PipeW 0) Hsrc Htgt) as [_ Hexec].
  destruct (Hexec "printf" ["printf"; "abcde"]) as (Hrun & Htr & Hclosed & Hstream).
  - reflexivity.
  - reflexivity.
  - apply elem_of_cons. left. reflexivity.
  - split; [exact Hrun|]. split; [exact Htr|]. split; [exact Hclosed|].
    apply Hstream. unfold STDOUT_FILENO, sample_pipes. cbn [endpoints flat_map app fst snd].
    no_colon.
Defined.

Example head_of_sample_run :
  let run := doublePipe cmd_printf cmd_cat cmd_wc in_head in
  fst run = Stop (Execed "printf" ["printf"; "abcde"]) ∧
  trace (snd run) =
    [EvPipe (Some (3, 4)); EvPipe (Some (5, 6)); EvPipe (Some (7, 8));
     EvFork 0; EvDup2 4 1;
     EvClose 3; EvClose 4; EvClose 5; EvClose 6; EvClose 7; EvClose 8;
     EvExec (Arg "printf") ["printf"; "abcde"]] ∧
  map_to_list (fdt (snd run)) = [(2, Inherited 2); (1, PipeW 0); (0, Inherited 0)].
Proof. by vm_compute. Qed.

Example leg1_of_sample_run :
  let run := doublePipe cmd_printf cmd_cat cmd_wc in_leg1 in
  fst run = Stop (Execed "cat" ["cat"]) ∧
  trace (snd run) =
    [EvPipe (Some (3, 4)); EvPipe (Some (5, 6)); EvPipe (Some (7, 8));
     EvFork 100; EvFork 101; EvFork 0; EvDup2 5 0;
     EvClose 3; EvClose 4; EvClose 5; EvClose 6; EvClose 7; EvClose 8;
     EvExec (Arg "cat") ["cat"]] ∧
  map_to_list (fdt (snd run)) = [(2, Inherited 2); (1, Inherited 1); (0, PipeR 1)].
Proof. by vm_compute. Qed.

Lemma launch_parent_witness :
  forks_in_parent 1 in_parent ∧
  ∃ k', createAndExecuteProcess cmd_printf 4 STDOUT_FILENO [(3, 4); (5, 6); (7, 8)] 3
          in_parent = (Ret tt, k') ∧
        trace k' = [EvFork 100].
Proof.
  assert (Hf : forks_in_parent 1 in_parent) by apply in_parent_forks.
  split; [exact Hf|].
  destruct (launch_parent_returns_at_once cmd_printf 4 STDOUT_FILENO
              [(3, 4); (5, 6); (7, 8)] 3 _ Hf) as (k' & Hrun & Htr & _).
  exists k'. split; [exact Hrun|exact Htr].
Defined.

(** The value returned in the parent cannot be the child's identifier: it
    is the same for children with different identifiers. *)
Lemma launch_result_is_not_the_pid :
  ¬ ∃ pid_of : unit → Z, ∀ k,
      forks_in_parent 1 k →
      ∃ v k', createAndExecuteProcess cmd_printf 4 STDOUT_FILENO [] 0 k = (Ret v, k') ∧
              pid_of v = Z.pos (next_pid k).
Proof.
  intros [pid_of H].
  destruct (H in_parent (in_parent_forks 1)) as ([] & k1 & _ & H1).
  destruct (H (set_next_pid 200 in_parent) (in_parent_forks 1)) as ([] & k2 & _ & H2).
  rewrite H1 in H2. discriminate H2.
Qed.

(** Started with a child of its own, the parent reaps that child with the
    first of its four calls of [wait]; the fourth child it forked, the
    second leg, is never waited for. *)
Lemma inherited_child_takes_the_place_of_a_leg :
  let run := doublePipe cmd_printf cmd_cat cmd_wc with_inherited_child in
  pipes_granted 3 with_inherited_child ∧ forks_in_parent 4 with_inherited_child ∧
  children with_inherited_child = [50] ∧
  fst run = Ret 0 ∧
  trace (snd run) =
    [EvPipe (Some (3, 4)); EvPipe (Some (5, 6)); EvPipe (Some (7, 8));
     EvFork 100; EvFork 101; EvFork 102; EvFork 103;
     EvClose 3; EvClose 4; EvClose 5; EvClose 6; EvClose 7; EvClose 8;
     EvWait 50 (Some 0); EvWait 100 (Some 0); EvWait 101 (Some 0);
     EvWait 102 (Some 0)] ∧
  children (snd run) = [103].
Proof.
  split; [intros i _; by destruct i|]. split; [intros i _; by destruct i|].
  by vm_compute.
Qed.

Lemma supervisor_witness :
  pipes_granted 3 in_parent ∧ forks_in_parent 4 in_parent ∧
  ∃ k', doublePipe cmd_printf cmd_cat cmd_wc in_parent = (Ret 0, k') ∧ children k' = [].
Proof.
  assert (Hp : pipes_granted 3 in_parent) by (by apply sample_pipes_granted).
  assert (Hf : forks_in_parent 4 in_parent) by apply in_parent_forks.
  split; [exact Hp|]. split; [exact Hf|].
  destruct (supervisor_reaps_four_and_returns_zero cmd_printf cmd_cat cmd_wc _ Hp Hf)
    as (k' & p0 & p1 & p2 & order & Hrun & _ & _ & _ & Hnone & _).
  exists k'. split; [exact Hrun|]. by apply Hnone.
Defined.

Example parent_of_sample_run :
  let run := main sample_argv in_parent in
  fst run = Stop (Exited 0) ∧
  trace (snd run) =
    [EvPipe (Some (3, 4)); EvPipe (Some (5, 6)); EvPipe (Some (7, 8));
     EvFork 100; EvFork 101; EvFork 102; EvFork 103;
     EvClose 3; EvClose 4; EvClose 5; EvClose 6; EvClose 7; EvClose 8;
     EvWait 100 (Some 0); EvWait 101 (Some 0); EvWait 102 (Some 0);
     EvWait 103 (Some 0); EvExit 0].
Proof. by vm_compute. Qed.

Lemma pipe_failure_witness :
  (∃ i, (i < 3)%nat ∧ pipe_ok (future second_pipe_refused) !! i = Some false) ∧
  ∃ k', doublePipe cmd_printf cmd_cat cmd_wc second_pipe_refused =
          (Stop (Exited EXIT_FAILURE), k') ∧
        fdt k' = ∅ ∧ children k' = [].
Proof.
  assert (Hr : ∃ i, (i < 3)%nat ∧ pipe_ok (future second_pipe_refused) !! i = Some false).
  { exists 1%nat. split; [lia|reflexivity]. }
  split; [exact Hr|].
  destruct (pipe_failure_aborts_before_any_fork cmd_printf cmd_cat cmd_wc _ Hr)
    as (k' & granted & Hrun & _ & _ & Hfdt & Hch & _).
  exists k'. split; [exact Hrun|]. split; [exact Hfdt|exact Hch].
Defined.

Example second_pipe_refused_run :
  trace (snd (doublePipe cmd_printf cmd_cat cmd_wc second_pipe_refused)) =
  [EvPipe (Some (3, 4)); EvPipe None; EvStderr PIPE_ERR; EvExit 1].
Proof. by vm_compute. Qed.

(** [dp printf abcde : cat :] *)
Lemma malformed_witness :
  malformed ["printf"; "abcde"; ":"; "cat"; ":"] NO_THIRD ∧
  Forall (λ c, (length c ≤ 9)%nat) (commands ["printf"; "abcde"; ":"; "cat"; ":"]) ∧
  ∃ k', main ["dp"; "printf"; "abcde"; ":"; "cat"; ":"] in_parent = (Stop (Exited 1), k') ∧
        trace k' = [EvStdout NO_THIRD; EvExit 1].
Proof.
  assert (Hm : malformed ["printf"; "abcde"; ":"; "cat"; ":"] NO_THIRD).
  { apply (malformed_third ["printf"; "abcde"] ["cat"]); no_colon. }
  assert (Hf : Forall (λ c, (length c ≤ 9)%nat) (commands ["printf"; "abcde"; ":"; "cat"; ":"])).
  { cbn. repeat constructor; lia. }
  split; [exact Hm|]. split; [exact Hf|].
  destruct (malformed_invocation_is_rejected "dp" _ _ in_parent Hm Hf)
    as (k' & Hrun & Htr & _).
  exists k'. split; [exact Hrun|exact Htr].
Defined.

Example no_argument_run :
  let run := main ["dp"] in_parent in
  fst run = Stop (Exited 1) ∧ trace (snd run) = [EvStdout USAGE; EvExit 1].
Proof. by vm_compute. Qed.

(** One command of ten tokens and no separator: malformed, and yet no
    message and no [exit(1)]; the run ends in the store behind the array. *)
Lemma ten_token_command_is_not_rejected :
  malformed ten_tokens ONE_CMD ∧
  main ("dp" :: ten_tokens) in_parent = (Stop Fault, in_parent) ∧
  fst (main ("dp" :: ten_tokens) in_parent) ≠ Stop (Exited 1).
Proof.
  split.
  - apply malformed_one; [done|]. unfold ten_tokens. cbn. no_colon.
  - by vm_compute.
Qed.

Lemma long_command_witness :
  Exists (λ c, (10 ≤ length c)%nat) (commands ("printf" :: ":" :: eleven_tokens)) ∧
  main ("dp" :: "printf" :: ":" :: eleven_tokens) in_parent = (Stop Fault, in_parent).
Proof.
  assert (H : Exists (λ c, (10 ≤ length c)%nat) (commands ("printf" :: ":" :: eleven_tokens))).
  { cbn. apply Exists_cons_tl, Exists_cons_hd. cbn. lia. }
  split; [exact H|].
  exact (proj1 (long_command_overflows_its_array "dp" _ in_parent H)).
Defined.

(** Nine tokens leave room for the NULL that ends them, and with ten
    tokens the copy loop stays inside the array: the store outside it is
    the one of the NULL, after the loop. *)
Lemma nine_tokens_fit_and_ten_are_copied_inside :
  (∃ full,
     copy_command nine_tokens 1 0 (replicate 10 Garbage) = Some (10%nat, 9%nat, full) ∧
     store full 9 Null = Some (slots nine_tokens) ∧
     slots nine_tokens !! 9%nat = Some Null ∧ length (slots nine_tokens) = 10%nat) ∧
  fst (main ("dp" :: nine_tokens) in_parent) = Stop (Exited 1) ∧
  (∃ full,
     copy_command ten_tokens 1 0 (replicate 10 Garbage) = Some (11%nat, 10%nat, full) ∧
     full = Arg <$> ten_tokens ∧
     store full 10 Null = None).
Proof.
  split; [|split].
  - eexists. by vm_compute.
  - by vm_compute.
  - eexists. by vm_compute.
Qed.

(** [dp : cat : wc -c], followed into the head: the child of the empty
    command ends in [execvp] with a null file. *)
Lemma empty_command_witness :
  (":" ∉ ([] : list string)) ∧ (":" ∉ ["cat"]) ∧ ["wc"; "-c"] ≠ [] ∧
  (length ([] : list string) ≤ 9)%nat ∧ (length ["cat"] ≤ 9)%nat ∧
  (length ["wc"; "-c"] ≤ 9)%nat ∧
  (([] : list string) = [] ∨ ["cat"] = []) ∧
  main ("dp" :: [] ++ ":" :: ["cat"] ++ ":" :: ["wc"; "-c"]) in_head =
    (let* status := doublePipe (slots []) cmd_cat cmd_wc in sys_exit status) in_head ∧
  slots [] !! 0%nat = Some Null ∧
  ∃ k' before,
    main ("dp" :: [] ++ ":" :: ["cat"] ++ ":" :: ["wc"; "-c"]) in_head =
      (Stop Fault, k') ∧
    trace k' = before ++ [EvExec Null []].
Proof.
  assert (H1 : ":" ∉ ([] : list string)) by no_colon.
  assert (H2 : ":" ∉ ["cat"]) by no_colon.
  assert (H3 : ["wc"; "-c"] ≠ []) by discriminate.
  assert (L1 : (length ([] : list string) ≤ 9)%nat) by (cbn; lia).
  assert (L2 : (length ["cat"] ≤ 9)%nat) by (cbn; lia).
  assert (L3 : (length ["wc"; "-c"] ≤ 9)%nat) by (cbn; lia).
  assert (He : ([] : list string) = [] ∨ ["cat"] = []) by (by left).
  assert (Hp : pipes_granted 3 in_head) by (by apply sample_pipes_granted).
  assert (Hc : fork_in_child in_head) by reflexivity.
  do 7 (split; [assumption|]).
  pose proof (empty_command_is_not_rejected "dp" [] ["cat"] ["wc"; "-c"] in_head
                H1 H2 H3 L1 L2 L3 He) as (Hrun & Hnull & _ & _ & Hhead & _).
  split; [exact Hrun|]. split; [exact (Hnull eq_refl)|].
  exact (Hhead eq_refl Hp Hc).
Defined.

(** An empty first command next to a second one of ten tokens: no pipe is
    created and nothing is forked; the run ends in the store behind the
    second array. *)
Lemma empty_command_beside_long_one :
  let argv := "dp" :: [] ++ ":" :: ten_tokens ++ ":" :: ["wc"; "-c"] in
  commands (drop 1 argv) = [[]; ten_tokens; ["wc"; "-c"]] ∧
  main argv in_parent = (Stop Fault, in_parent) ∧
  trace (snd (main argv in_parent)) = [].
Proof. by vm_compute. Qed.

Example empty_first_command_run :
  let run := main ["dp"; ":"; "cat"; ":"; "wc"; "-c"] in_head in
  fst run = Stop Fault ∧
  trace (snd run) =
    [EvPipe (Some (3, 4)); EvPipe (Some (5, 6)); EvPipe (Some (7, 8));
     EvFork 0; EvDup2 4 1;
     EvClose 3; EvClose 4; EvClose 5; EvClose 6; EvClose 7; EvClose 8;
     EvExec Null []].
Proof. by vm_compute. Qed.

(** ** Sample runs of the further properties *)

Lemma closePipes_witness :
  (2 ≤ length sample_pipes)%nat ∧
  ∃ k', closePipes sample_pipes 2 (piped (piped (piped in_parent))) = (Ret tt, k') ∧
        fdt k' !! 3 = None ∧ fdt k' !! 6 = None ∧ fdt k' !! 7 = Some (PipeR 2).
Proof.
  assert (H : (2 ≤ length sample_pipes)%nat) by (simpl; lia).
  split; [exact H|].
  pose proof (closePipes_closes_the_first_count sample_pipes 2
                (piped (piped (piped in_parent))) H) as (k' & Hrun & _ & Hfdt & _).
  exists k'. split; [exact Hrun|].
  split; [rewrite Hfdt; vm_compute; reflexivity|].
  split; [rewrite Hfdt; vm_compute; reflexivity|].
  rewrite Hfdt. vm_compute. reflexivity.
Defined.

Lemma fork_failure_witness :
  pipes_granted 3 third_fork_refused ∧ (2 < 4)%nat ∧
  forks_in_parent 2 third_fork_refused ∧
  fork_as (future third_fork_refused) !! 2%nat = Some ForkFails ∧
  ∃ k', doublePipe cmd_printf cmd_cat cmd_wc third_fork_refused =
          (Stop (Exited EXIT_FAILURE), k') ∧
        children k' = [100; 101].
Proof.
  assert (Hp : pipes_granted 3 third_fork_refused) by (by apply sample_pipes_granted).
  assert (Hi : (2 < 4)%nat) by lia.
  assert (Hf : forks_in_parent 2 third_fork_refused).
  { intros [|[|i]] Hlt; [by split..|lia]. }
  assert (Hr : fork_as (future third_fork_refused) !! 2%nat = Some ForkFails)
    by reflexivity.
  do 4 (split; [assumption|]).
  pose proof (fork_failure_exits_without_reaping cmd_printf cmd_cat cmd_wc 2
              third_fork_refused Hp Hi Hf Hr) as (k' & p0 & p1 & p2 & Hrun & _ & Hkids).
  exists k'. split; [exact Hrun|]. exact Hkids.
Defined.

(** The run with the third [fork] refused: two children are left behind. *)
Example third_fork_refused_run :
  trace (snd (doublePipe cmd_printf cmd_cat cmd_wc third_fork_refused)) =
  [EvPipe (Some (3, 4)); EvPipe (Some (5, 6)); EvPipe (Some (7, 8));
   EvFork 100; EvFork 101; EvFork (-1); EvStderr FORK_ERR; EvExit 1].
Proof. by vm_compute. Qed.

Lemma missing_program_witness :
  let k := piped (piped (piped in_head)) in
  fork_in_child k ∧ (length ["nosuch"; "x"] ≤ 9)%nat ∧
  fdt k !! 4 = Some (PipeW 0) ∧ 0 ≤ STDOUT_FILENO ∧ ("nosuch" ∉ programs k) ∧
  fst (createAndExecuteProcess (slots ["nosuch"; "x"]) 4 STDOUT_FILENO sample_pipes
         (length sample_pipes) k) = Stop (Exited EXIT_FAILURE).
Proof.
  intros k.
  assert (Hc : fork_in_child k) by reflexivity.
  assert (Hl : (length ["nosuch"; "x"] ≤ 9)%nat) by (simpl; lia).
  assert (Hsrc : fdt k !! 4 = Some (PipeW 0)) by (vm_compute; reflexivity).
  assert (Htgt : 0 ≤ STDOUT_FILENO) by (unfold STDOUT_FILENO; lia).
  assert (Hno : "nosuch" ∉ programs k).
  { change (programs k) with ["printf"; "cat"; "wc"]. no_colon. }
  do 5 (split; [assumption|]).
  exact (proj1 (launch_child_reports_a_missing_program "nosuch" ["x"] 4 STDOUT_FILENO
                  sample_pipes k (PipeW 0) Hc Hl Hsrc Htgt Hno)).
Defined.

Lemma main_exit_status_witness :
  (":" ∉ ["printf"; "abcde"]) ∧ (":" ∉ ["cat"]) ∧ ["wc"; "-c"] ≠ [] ∧
  (length ["printf"; "abcde"] ≤ 9)%nat ∧ (length ["cat"] ≤ 9)%nat ∧
  (length ["wc"; "-c"] ≤ 9)%nat ∧
  pipes_granted 3 in_parent ∧ forks_in_parent 4 in_parent ∧
  ∃ k', main sample_argv in_parent = (Stop (Exited 0), k').
Proof.
  assert (N1 : ":" ∉ ["printf"; "abcde"]) by no_colon.
  assert (N2 : ":" ∉ ["cat"]) by no_colon.
  assert (N3 : ["wc"; "-c"] ≠ []) by discriminate.
  assert (L1 : (length ["printf"; "abcde"] ≤ 9)%nat) by (simpl; lia).
  assert (L2 : (length ["cat"] ≤ 9)%nat) by (simpl; lia).
  assert (L3 : (length ["wc"; "-c"] ≤ 9)%nat) by (simpl; lia).
  assert (Hp : pipes_granted 3 in_parent) by (by apply sample_pipes_granted).
  assert (Hf : forks_in_parent 4 in_parent) by apply in_parent_forks.
  do 8 (split; [assumption|]).
  pose proof (main_exits_zero_whatever_the_children_do "dp" _ _ _ in_parent
              N1 N2 N3 L1 L2 L3 Hp Hf) as (k' & _ & _ & _ & _ & Hrun & _).
  exists k'. exact Hrun.
Defined.

Lemma relay_subsequence_witness :
  let k := in_relay [2%nat] [WriteAll; WriteSome 1] in
  pipes_granted 3 k ∧ relay_role k ∧
  ∃ k' s1 s2,
    doublePipe cmd_printf cmd_cat cmd_wc k = (Stop (Exited 0), k') ∧
    sent k' 1 = s1 ∧ sent k' 2 = s2 ∧
    s1 `sublist_of` s2b "abcde" ∧ s2 `sublist_of` s2b "abcde".
Proof.
  intros k.
  assert (Hp : pipes_granted 3 k) by (by apply sample_pipes_granted).
  assert (Hr : relay_role k) by apply in_relay_role.
  split; [exact Hp|]. split; [exact Hr|].
  pose proof (relay_sends_each_leg_a_subsequence cmd_printf cmd_cat cmd_wc k Hp Hr)
    as (k' & s1 & s2 & Hrun & Hs1 & Hs2 & Hsub1 & Hsub2 & _).
  exists k', s1, s2. split; [exact Hrun|].
  split; [exact Hs1|]. split; [exact Hs2|]. split; [exact Hsub1|exact Hsub2].
Defined.

Lemma relay_drains_witness :
  let k := in_relay [2%nat] [WriteAll; WriteSome 1] in
  pipes_granted 3 k ∧ relay_role k ∧
  ∃ k', doublePipe cmd_printf cmd_cat cmd_wc k = (Stop (Exited 0), k') ∧
        inflow k' !! 0%nat = Some [].
Proof.
  intros k.
  assert (Hp : pipes_granted 3 k) by (by apply sample_pipes_granted).
  assert (Hr : relay_role k) by apply in_relay_role.
  split; [exact Hp|]. split; [exact Hr|].
  exact (relay_drains_the_head_pipe cmd_printf cmd_cat cmd_wc k Hp Hr).
Defined.

Lemma silent_head_witness :
  pipes_granted 3 silent_head ∧ relay_role silent_head ∧
  default [] (inflow silent_head !! npipes silent_head) = [] ∧
  ∃ k', doublePipe cmd_printf cmd_cat cmd_wc silent_head = (Stop (Exited 0), k') ∧
        ∀ id, sent k' id = sent silent_head id.
Proof.
  assert (Hp : pipes_granted 3 silent_head) by (intros i _; by destruct i).
  assert (Hr : relay_role silent_head).
  { split; [|done]. intros i Hi. replace i with O by lia. by split. }
  assert (Hn : default [] (inflow silent_head !! npipes silent_head) = [])
    by reflexivity.
  do 3 (split; [assumption|]).
  pose proof (silent_head_means_one_read_and_no_write cmd_printf cmd_cat cmd_wc
              silent_head Hp Hr Hn) as (k' & _ & _ & _ & Hrun & _ & Hsent).
  exists k'. split; [exact Hrun|exact Hsent].
Defined.

Example silent_head_run :
  trace (snd (doublePipe cmd_printf cmd_cat cmd_wc silent_head)) =
  [EvPipe (Some (3, 4)); EvPipe (Some (5, 6)); EvPipe (Some (7, 8));
   EvFork 100; EvFork 0; EvClose 4; EvClose 5; EvClose 5;
   EvRead 3 1024 [];
   EvClose 3; EvClose 6; EvClose 6; EvExit 0].
Proof. by vm_compute. Qed.

Lemma supervisor_descriptors_witness :
  pipes_granted 3 in_parent ∧ forks_in_parent 4 in_parent ∧
  ∃ k', doublePipe cmd_printf cmd_cat cmd_wc in_parent = (Ret 0, k') ∧
        fdt k' = fdt in_parent.
Proof.
  assert (Hp : pipes_granted 3 in_parent) by (by apply sample_pipes_granted).
  assert (Hf : forks_in_parent 4 in_parent) by apply in_parent_forks.
  split; [exact Hp|]. split; [exact Hf|].
  pose proof (supervisor_leaves_descriptors_as_found cmd_printf cmd_cat cmd_wc
              in_parent Hp Hf) as (k' & Hrun & Hfdt & _).
  exists k'. split; [exact Hrun|exact Hfdt].
Defined.

Lemma command_descriptors_witness :
  pipes_granted 3 in_parent ∧
  is_Some (fdt in_parent !! STDIN_FILENO) ∧ is_Some (fdt in_parent !! STDOUT_FILENO) ∧
  "printf" ∈ programs in_parent ∧ "cat" ∈ programs in_parent ∧
  "wc" ∈ programs in_parent ∧
  ∃ k', doublePipe cmd_printf cmd_cat cmd_wc (followed into_leg2 in_parent) =
          (Stop (Execed "wc" ["wc"; "-c"]), k') ∧
        fdt k' = <[STDIN_FILENO := PipeR 2]> (fdt in_parent).
Proof.
  assert (Hp : pipes_granted 3 in_parent) by (by apply sample_pipes_granted).
  assert (H0 : is_Some (fdt in_parent !! STDIN_FILENO)) by (by eexists).
  assert (H1 : is_Some (fdt in_parent !! STDOUT_FILENO)) by (by eexists).
  assert (Hf1 : "printf" ∈ programs in_parent) by (cbn; repeat constructor).
  assert (Hf2 : "cat" ∈ programs in_parent) by (cbn; repeat constructor).
  assert (Hf3 : "wc" ∈ programs in_parent) by (cbn; repeat constructor).
  do 6 (split; [assumption|]).
  pose proof (commands_inherit_their_stream_and_no_other_pipe_end
              "printf" ["abcde"] "cat" [] "wc" ["-c"] in_parent Hp H0 H1 Hf1 Hf2 Hf3)
    as (_ & _ & Hleg2).
  exact Hleg2.
Defined.

Lemma no_stdin_witness :
  pipes_granted 3 no_stdin ∧ fdt no_stdin !! STDIN_FILENO = None ∧
  "cat" ∈ programs no_stdin ∧ "wc" ∈ programs no_stdin ∧
  ∃ k', doublePipe cmd_printf cmd_cat cmd_wc (followed into_leg1 no_stdin) =
          (Stop (Execed "cat" ["cat"]), k') ∧
        fdt k' !! STDIN_FILENO = None.
Proof.
  assert (Hp : pipes_granted 3 no_stdin) by (intros i _; by destruct i).
  assert (H0 : fdt no_stdin !! STDIN_FILENO = None) by reflexivity.
  assert (Hf2 : "cat" ∈ programs no_stdin) by (cbn; repeat constructor).
  assert (Hf3 : "wc" ∈ programs no_stdin) by (cbn; repeat constructor).
  do 4 (split; [assumption|]).
  pose proof (started_without_stdin_the_legs_get_none
              "printf" ["abcde"] "cat" [] "wc" ["-c"] no_stdin Hp H0 Hf2 Hf3)
    as (_ & Hleg1 & _).
  exact Hleg1.
Defined.

(** The first leg of the run started without descriptor 0: the first pipe
    is (0, 3), and the leg closes descriptor 0 right after binding it. *)
Example leg1_without_stdin_run :
  let run := doublePipe cmd_printf cmd_cat cmd_wc (followed into_leg1 no_stdin) in
  fst run = Stop (Execed "cat" ["cat"]) ∧
  trace (snd run) =
    [EvPipe (Some (0, 3)); EvPipe (Some (4, 5)); EvPipe (Some (6, 7));
     EvFork 100; EvFork 101; EvFork 0; EvDup2 4 0;
     EvClose 0; EvClose 3; EvClose 4; EvClose 5; EvClose 6; EvClose 7;
     EvExec (Arg "cat") ["cat"]] ∧
  map_to_list (fdt (snd run)) = [(2, Inherited 2); (1, Inherited 1)].
Proof. by vm_compute. Qed.

Lemma no_stdout_witness :
  pipes_granted 3 no_stdout ∧
  is_Some (fdt no_stdout !! STDIN_FILENO) ∧ fdt no_stdout !! STDOUT_FILENO = None ∧
  "printf" ∈ programs no_stdout ∧
  ∃ k', doublePipe cmd_printf cmd_cat cmd_wc (followed into_head no_stdout) =
          (Stop (Execed "printf" ["printf"; "abcde"]), k') ∧
        fdt k' !! STDOUT_FILENO = None.
Proof.
  assert (Hp : pipes_granted 3 no_stdout) by (intros i _; by destruct i).
  assert (H0 : is_Some (fdt no_stdout !! STDIN_FILENO)) by (by eexists).
  assert (H1 : fdt no_stdout !! STDOUT_FILENO = None) by reflexivity.
  assert (Hf1 : "printf" ∈ programs no_stdout) by (cbn; repeat constructor).
  do 4 (split; [assumption|]).
  pose proof (started_without_stdout_the_head_gets_none
              "printf" ["abcde"] cmd_cat cmd_wc no_stdout Hp H0 H1 Hf1)
    as (_ & Hhead).
  exact Hhead.
Defined.

Lemma first_two_commands_witness :
  (":" ∉ ["printf"; "abcde"]) ∧ (":" ∉ ["cat"]) ∧ ["wc"; "-c"] ≠ [] ∧
  (length ["printf"; "abcde"] ≤ 9)%nat ∧ (length ["cat"] ≤ 9)%nat ∧
  (length ["wc"; "-c"] ≤ 9)%nat ∧
  pipes_granted 3 in_parent ∧
  "printf" ∈ programs in_parent ∧ "cat" ∈ programs in_parent ∧
  ∃ k', main sample_argv (followed into_leg1 in_parent) =
          (Stop (Execed "cat" ["cat"]), k').
Proof.
  assert (N1 : ":" ∉ ["printf"; "abcde"]) by no_colon.
  assert (N2 : ":" ∉ ["cat"]) by no_colon.
  assert (N3 : ["wc"; "-c"] ≠ []) by discriminate.
  assert (L1 : (length ["printf"; "abcde"] ≤ 9)%nat) by (simpl; lia).
  assert (L2 : (length ["cat"] ≤ 9)%nat) by (simpl; lia).
  assert (L3 : (length ["wc"; "-c"] ≤ 9)%nat) by (simpl; lia).
  assert (Hp : pipes_granted 3 in_parent) by (by apply sample_pipes_granted).
  assert (Hf1 : "printf" ∈ programs in_parent) by (cbn; repeat constructor).
  assert (Hf2 : "cat" ∈ programs in_parent) by (cbn; repeat constructor).
  do 9 (split; [assumption|]).
  pose proof (main_runs_the_first_two_commands_with_their_tokens
              "dp" "printf" ["abcde"] "cat" [] ["wc"; "-c"] in_parent
              N1 N2 N3 L1 L2 L3 Hp Hf1 Hf2) as (_ & Hleg1).
  exact Hleg1.
Defined.

Lemma third_command_witness :
  (":" ∉ ["printf"; "abcde"]) ∧ (":" ∉ ["cat"]) ∧
  (length ["printf"; "abcde"] ≤ 9)%nat ∧ (length ["cat"] ≤ 9)%nat ∧
  (length ("wc" :: ["-c"] ++ ":" :: ["x"]) ≤ 9)%nat ∧
  pipes_granted 3 in_parent ∧ "wc" ∈ programs in_parent ∧
  ∃ k', main ["dp"; "printf"; "abcde"; ":"; "cat"; ":"; "wc"; "-c"; ":"; "x"]
             (followed into_leg2 in_parent) =
          (Stop (Execed "wc" ["wc"; "-c"; ":"; "x"]), k').
Proof.
  assert (N1 : ":" ∉ ["printf"; "abcde"]) by no_colon.
  assert (N2 : ":" ∉ ["cat"]) by no_colon.
  assert (L1 : (length ["printf"; "abcde"] ≤ 9)%nat) by (simpl; lia).
  assert (L2 : (length ["cat"] ≤ 9)%nat) by (simpl; lia).
  assert (L3 : (length ("wc" :: ["-c"] ++ ":" :: ["x"]) ≤ 9)%nat) by (simpl; lia).
  assert (Hp : pipes_granted 3 in_parent) by (by apply sample_pipes_granted).
  assert (Hf3 : "wc" ∈ programs in_parent) by (cbn; repeat constructor).
  do 7 (split; [assumption|]).
  exact (third_command_takes_further_separators_as_arguments
           "dp" ["printf"; "abcde"] ["cat"] "wc" ["-c"] ["x"] in_parent
           N1 N2 L1 L2 L3 Hp Hf3).
Defined.
